(** * FixedWing_NAPS: the nonlinear guidance system of a fixed-wing aircraft

    A shallow embedding of [FW_NL_GuidanceSystem] (src/FixedWing_NAPS.py).

    Numbers.  The Python code computes with floats.  The embedding computes
    with exact rationals ([Q], compared with [==]): rounding, overflow and
    infinities are outside the model, and a division by zero yields [0] as
    [Qdiv] does.  The commanded values and the three error terms are
    [pyfloat]s: a number, the object [np.nan], or another NaN.  The guard of
    [getGuidanceCommands] tells the object [np.nan] from every other value;
    what the guidance laws and the solver compute from a NaN that passes the
    guard is outside the model, and every statement about the values of a
    step is made for a command of numbers. *)

From Stdlib Require Import String PeanoNat QArith Qabs Lqa List Bool Lia.
Import ListNotations.
Open Scope Q_scope.

(** ** Python floats

    [np_nan] is the object [np.nan] itself.  [NaN] is any other float that
    is NaN: [float('nan')], the result of an arithmetic operation on a NaN,
    a NaN read back from a file. *)

Inductive pyfloat : Type :=
| Num (q : Q)
| np_nan
| NaN.

(** [x is np.nan or x == np.nan], the test that [np.nan in l] applies to
    each element [x] of a list: the object [np.nan] is identical to itself,
    and [==] with [np.nan] is False on every number and on every NaN. *)
Definition is_np_nan (x : pyfloat) : bool :=
  match x with np_nan => true | _ => false end.

(** [np.nan in l] *)
Definition np_nan_in (l : list pyfloat) : bool := existsb is_np_nan l.

(** The value is a number. *)
Definition is_num (x : pyfloat) : bool :=
  match x with Num _ => true | _ => false end.

(** Arithmetic propagates NaN; its result is a new float, not the object
    [np.nan]. *)
Definition flift2 (op : Q -> Q -> Q) (x y : pyfloat) : pyfloat :=
  match x, y with
  | Num a, Num b => Num (op a b)
  | _, _ => NaN
  end.

Definition flift1 (op : Q -> Q) (x : pyfloat) : pyfloat :=
  match x with Num a => Num (op a) | _ => NaN end.

Definition fsub := flift2 Qminus.
Definition fmul := flift2 Qmult.
Definition fdiv := flift2 Qdiv.

(** The rational read of a float.  The histories and the integrator
    memories hold rationals; a float is read into them at construction and
    by the guidance laws, where it is a number whenever the command holds
    numbers. *)
Definition num (x : pyfloat) : Q :=
  match x with Num q => q | _ => 0 end.

(** ** Python lists used as histories *)

(** [l[-1]]; every history is created with one element and only grows. *)
Definition py_last (l : list Q) : Q := last l 0.

(** [l.append(x)] *)
Definition append {A} (l : list A) (x : A) : list A := l ++ [x].

(** [l[-1] = x] *)
Definition set_last {A} (l : list A) (x : A) : list A := removelast l ++ [x].

(** [x > y] *)
Definition Qgtb (x y : Q) : bool := negb (Qle_bool x y).

(** [np.sign] *)
Definition np_sign (x : Q) : Q :=
  if Qgtb x 0 then 1 else if Qgtb 0 x then -(1) else 0.

(** ** The integrator: scipy's [solve_ivp(..., method='RK45')]

    An explicit Runge-Kutta method with the Dormand-Prince coefficients.
    The accepted step sizes are chosen by the solver's error controller,
    which is not modelled: it is a parameter of the development. *)

Definition vec := list Q.

Fixpoint vadd (u v : vec) : vec :=
  match u, v with
  | a :: u', b :: v' => (a + b) :: vadd u' v'
  | _, _ => []
  end.

Definition vscale (a : Q) (v : vec) : vec := map (Qmult a) v.

Definition RK45_C : list Q := [0; 1#5; 3#10; 4#5; 8#9; 1].

Definition RK45_A : list (list Q) :=
  [ [];
    [1#5];
    [3#40; 9#40];
    [44#45; -56#15; 32#9];
    [19372#6561; -25360#2187; 64448#6561; -212#729];
    [9017#3168; -355#33; 46732#5247; 49#176; -5103#18656] ].

Definition RK45_B : list Q := [35#384; 0; 500#1113; 125#192; -2187#6784; 11#84].

(** [y + h * np.dot(K.T, a)] *)
Definition rk_combine (h : Q) (a : list Q) (K : list vec) (y : vec) : vec :=
  fold_left (fun acc '(a_j, K_j) => vadd acc (vscale (h * a_j) K_j))
            (combine a K) y.

(** The stages [K[1..]] of [rk_step], given [K[0]]. *)
Fixpoint rk_stages (f : Q -> vec -> vec) (t : Q) (y : vec) (h : Q)
         (AC : list (list Q * Q)) (K : list vec) : list vec :=
  match AC with
  | [] => K
  | (a, c) :: AC' =>
      rk_stages f t y h AC' (K ++ [f (t + c * h) (rk_combine h a K y)])
  end.

(** [rk_step]: one accepted step of size [h] from [(t, y)]. *)
Definition rk_step (f : Q -> vec -> vec) (t : Q) (y : vec) (h : Q) : vec :=
  let K := rk_stages f t y h (tl (combine RK45_A RK45_C)) [f t y] in
  rk_combine h RK45_B K y.

(** The accepted steps in sequence. *)
Fixpoint rk_run (f : Q -> vec -> vec) (t : Q) (y : vec) (hs : list Q) : vec :=
  match hs with
  | [] => y
  | h :: hs' => rk_run f (t + h) (rk_step f t y h) hs'
  end.

Fixpoint Qsum (l : list Q) : Q :=
  match l with
  | [] => 0
  | h :: l' => h + Qsum l'
  end.

(** Pointwise [==] of vectors. *)
Definition veq (u v : vec) : Prop := Forall2 Qeq u v.

(** ** The data model *)

(** The vehicle envelope ([vehicle.FixedWingVehicle]); only its attributes
    are read. *)
Module FixedWingVehicle.

Record t : Type := mk {
  weight_max : Q;
  weight_min : Q;
  speed_max : Q;
  speed_min : Q;
  Kf : Q;
  omega_T : Q;
  omega_L : Q;
  omega_mu : Q;
  T_max : Q;
  K_Lmax : Q;
  mu_max : Q;
  C_Do : Q;
  C_Lalpha : Q;
  alpha_o : Q;
  wing_area : Q;
  aspect_ratio : Q;
  wing_eff : Q;
  units : string;
  angles : string
}.

Definition set_omega_mu (v : t) (x : Q) : t :=
  mk (weight_max v) (weight_min v) (speed_max v) (speed_min v) (Kf v)
     (omega_T v) (omega_L v) x (T_max v) (K_Lmax v) (mu_max v) (C_Do v)
     (C_Lalpha v) (alpha_o v) (wing_area v) (aspect_ratio v) (wing_eff v)
     (units v) (angles v).

End FixedWingVehicle.

(** [TF_constants] and [InitialConditions]: dictionaries with the required
    keys. *)
Module TF_constants.

Record t : Type := mk { K_Tp : Q; K_Ti : Q; K_Lp : Q; K_Li : Q; K_mu_p : Q }.

End TF_constants.

Module InitialConditions.

Record t : Type := mk {
  v_BN_W : Q;
  h : Q;
  gamma : Q;
  sigma : Q;
  lat : Q;
  lon : Q;
  v_WN_N : list Q;
  weight : Q
}.

End InitialConditions.

(** The nested class [userCommand]. *)
Module userCommand.

Record t : Type := mk {
  v_BN_W : pyfloat;
  gamma : pyfloat;
  sigma : pyfloat;
  v_BN_W_history : list pyfloat;
  gamma_history : list pyfloat;
  sigma_history : list pyfloat;
  airspeed : pyfloat;
  airspeed_history : list pyfloat
}.

Definition save_history (c : t) : t :=
  mk (v_BN_W c) (gamma c) (sigma c)
     (append (v_BN_W_history c) (v_BN_W c))
     (append (gamma_history c) (gamma c))
     (append (sigma_history c) (sigma c))
     (airspeed c)
     (append (airspeed_history c) (airspeed c)).

End userCommand.

(** What the code prints. *)
Inductive diag : Type :=
| NoUserTrajectory
| ThrustExceeds (Tc T_max : Q)
| LiftExceeds (Lc L_max : Q)
| BankExceeds (mu mu_max : Q).

(** The attributes of a [FW_NL_GuidanceSystem] object, and the standard
    output. *)
Module self.

Record t : Type := mk {
  Vehicle : FixedWingVehicle.t;
  K_Tp : Q;
  K_Ti : Q;
  K_Lp : Q;
  K_Li : Q;
  K_mu_p : Q;
  dt : Q;
  time : list Q;
  v_BN_W : list Q;
  h : list Q;
  gamma : list Q;
  sigma : list Q;
  lat : list Q;
  lon : list Q;
  v_WN_N : list (list Q);
  weight : list Q;
  mass : list Q;
  airspeed : list Q;
  command : userCommand.t;
  v_BN_W_c_hist : list Q;
  gamma_c_hist : list Q;
  sigma_c_hist : list Q;
  units : string;
  angles : string;
  V_err : pyfloat;
  xT : Q;
  hdot_err : pyfloat;
  Tc : Q;
  Thrust : list Q;
  xL : Q;
  Lc : Q;
  Lift : list Q;
  alpha_c : list Q;
  h_c : list Q;
  sigma_err : pyfloat;
  alpha : list Q;
  drag : list Q;
  mu : list Q;
  stdout : list diag
}.

Definition set_time (s : t) (x : list Q) : t :=
  mk (Vehicle s) (K_Tp s) (K_Ti s) (K_Lp s) (K_Li s) (K_mu_p s) (dt s) x
     (v_BN_W s) (h s) (gamma s) (sigma s) (lat s) (lon s) (v_WN_N s) (weight
     s) (mass s) (airspeed s) (command s) (v_BN_W_c_hist s) (gamma_c_hist s)
     (sigma_c_hist s) (units s) (angles s) (V_err s) (xT s) (hdot_err s) (Tc
     s) (Thrust s) (xL s) (Lc s) (Lift s) (alpha_c s) (h_c s) (sigma_err s)
     (alpha s) (drag s) (mu s) (stdout s).

Definition set_v_BN_W (s : t) (x : list Q) : t :=
  mk (Vehicle s) (K_Tp s) (K_Ti s) (K_Lp s) (K_Li s) (K_mu_p s) (dt s) (time
     s) x (h s) (gamma s) (sigma s) (lat s) (lon s) (v_WN_N s) (weight s)
     (mass s) (airspeed s) (command s) (v_BN_W_c_hist s) (gamma_c_hist s)
     (sigma_c_hist s) (units s) (angles s) (V_err s) (xT s) (hdot_err s) (Tc
     s) (Thrust s) (xL s) (Lc s) (Lift s) (alpha_c s) (h_c s) (sigma_err s)
     (alpha s) (drag s) (mu s) (stdout s).

Definition set_h (s : t) (x : list Q) : t :=
  mk (Vehicle s) (K_Tp s) (K_Ti s) (K_Lp s) (K_Li s) (K_mu_p s) (dt s) (time
     s) (v_BN_W s) x (gamma s) (sigma s) (lat s) (lon s) (v_WN_N s) (weight
     s) (mass s) (airspeed s) (command s) (v_BN_W_c_hist s) (gamma_c_hist s)
     (sigma_c_hist s) (units s) (angles s) (V_err s) (xT s) (hdot_err s) (Tc
     s) (Thrust s) (xL s) (Lc s) (Lift s) (alpha_c s) (h_c s) (sigma_err s)
     (alpha s) (drag s) (mu s) (stdout s).

Definition set_gamma (s : t) (x : list Q) : t :=
  mk (Vehicle s) (K_Tp s) (K_Ti s) (K_Lp s) (K_Li s) (K_mu_p s) (dt s) (time
     s) (v_BN_W s) (h s) x (sigma s) (lat s) (lon s) (v_WN_N s) (weight s)
     (mass s) (airspeed s) (command s) (v_BN_W_c_hist s) (gamma_c_hist s)
     (sigma_c_hist s) (units s) (angles s) (V_err s) (xT s) (hdot_err s) (Tc
     s) (Thrust s) (xL s) (Lc s) (Lift s) (alpha_c s) (h_c s) (sigma_err s)
     (alpha s) (drag s) (mu s) (stdout s).

Definition set_sigma (s : t) (x : list Q) : t :=
  mk (Vehicle s) (K_Tp s) (K_Ti s) (K_Lp s) (K_Li s) (K_mu_p s) (dt s) (time
     s) (v_BN_W s) (h s) (gamma s) x (lat s) (lon s) (v_WN_N s) (weight s)
     (mass s) (airspeed s) (command s) (v_BN_W_c_hist s) (gamma_c_hist s)
     (sigma_c_hist s) (units s) (angles s) (V_err s) (xT s) (hdot_err s) (Tc
     s) (Thrust s) (xL s) (Lc s) (Lift s) (alpha_c s) (h_c s) (sigma_err s)
     (alpha s) (drag s) (mu s) (stdout s).

Definition set_lat (s : t) (x : list Q) : t :=
  mk (Vehicle s) (K_Tp s) (K_Ti s) (K_Lp s) (K_Li s) (K_mu_p s) (dt s) (time
     s) (v_BN_W s) (h s) (gamma s) (sigma s) x (lon s) (v_WN_N s) (weight s)
     (mass s) (airspeed s) (command s) (v_BN_W_c_hist s) (gamma_c_hist s)
     (sigma_c_hist s) (units s) (angles s) (V_err s) (xT s) (hdot_err s) (Tc
     s) (Thrust s) (xL s) (Lc s) (Lift s) (alpha_c s) (h_c s) (sigma_err s)
     (alpha s) (drag s) (mu s) (stdout s).

Definition set_lon (s : t) (x : list Q) : t :=
  mk (Vehicle s) (K_Tp s) (K_Ti s) (K_Lp s) (K_Li s) (K_mu_p s) (dt s) (time
     s) (v_BN_W s) (h s) (gamma s) (sigma s) (lat s) x (v_WN_N s) (weight s)
     (mass s) (airspeed s) (command s) (v_BN_W_c_hist s) (gamma_c_hist s)
     (sigma_c_hist s) (units s) (angles s) (V_err s) (xT s) (hdot_err s) (Tc
     s) (Thrust s) (xL s) (Lc s) (Lift s) (alpha_c s) (h_c s) (sigma_err s)
     (alpha s) (drag s) (mu s) (stdout s).

Definition set_mass (s : t) (x : list Q) : t :=
  mk (Vehicle s) (K_Tp s) (K_Ti s) (K_Lp s) (K_Li s) (K_mu_p s) (dt s) (time
     s) (v_BN_W s) (h s) (gamma s) (sigma s) (lat s) (lon s) (v_WN_N s)
     (weight s) x (airspeed s) (command s) (v_BN_W_c_hist s) (gamma_c_hist
     s) (sigma_c_hist s) (units s) (angles s) (V_err s) (xT s) (hdot_err s)
     (Tc s) (Thrust s) (xL s) (Lc s) (Lift s) (alpha_c s) (h_c s) (sigma_err
     s) (alpha s) (drag s) (mu s) (stdout s).

Definition set_airspeed (s : t) (x : list Q) : t :=
  mk (Vehicle s) (K_Tp s) (K_Ti s) (K_Lp s) (K_Li s) (K_mu_p s) (dt s) (time
     s) (v_BN_W s) (h s) (gamma s) (sigma s) (lat s) (lon s) (v_WN_N s)
     (weight s) (mass s) x (command s) (v_BN_W_c_hist s) (gamma_c_hist s)
     (sigma_c_hist s) (units s) (angles s) (V_err s) (xT s) (hdot_err s) (Tc
     s) (Thrust s) (xL s) (Lc s) (Lift s) (alpha_c s) (h_c s) (sigma_err s)
     (alpha s) (drag s) (mu s) (stdout s).

Definition set_command (s : t) (x : userCommand.t) : t :=
  mk (Vehicle s) (K_Tp s) (K_Ti s) (K_Lp s) (K_Li s) (K_mu_p s) (dt s) (time
     s) (v_BN_W s) (h s) (gamma s) (sigma s) (lat s) (lon s) (v_WN_N s)
     (weight s) (mass s) (airspeed s) x (v_BN_W_c_hist s) (gamma_c_hist s)
     (sigma_c_hist s) (units s) (angles s) (V_err s) (xT s) (hdot_err s) (Tc
     s) (Thrust s) (xL s) (Lc s) (Lift s) (alpha_c s) (h_c s) (sigma_err s)
     (alpha s) (drag s) (mu s) (stdout s).

Definition set_V_err (s : t) (x : pyfloat) : t :=
  mk (Vehicle s) (K_Tp s) (K_Ti s) (K_Lp s) (K_Li s) (K_mu_p s) (dt s) (time
     s) (v_BN_W s) (h s) (gamma s) (sigma s) (lat s) (lon s) (v_WN_N s)
     (weight s) (mass s) (airspeed s) (command s) (v_BN_W_c_hist s)
     (gamma_c_hist s) (sigma_c_hist s) (units s) (angles s) x (xT s)
     (hdot_err s) (Tc s) (Thrust s) (xL s) (Lc s) (Lift s) (alpha_c s) (h_c
     s) (sigma_err s) (alpha s) (drag s) (mu s) (stdout s).

Definition set_xT (s : t) (x : Q) : t :=
  mk (Vehicle s) (K_Tp s) (K_Ti s) (K_Lp s) (K_Li s) (K_mu_p s) (dt s) (time
     s) (v_BN_W s) (h s) (gamma s) (sigma s) (lat s) (lon s) (v_WN_N s)
     (weight s) (mass s) (airspeed s) (command s) (v_BN_W_c_hist s)
     (gamma_c_hist s) (sigma_c_hist s) (units s) (angles s) (V_err s) x
     (hdot_err s) (Tc s) (Thrust s) (xL s) (Lc s) (Lift s) (alpha_c s) (h_c
     s) (sigma_err s) (alpha s) (drag s) (mu s) (stdout s).

Definition set_hdot_err (s : t) (x : pyfloat) : t :=
  mk (Vehicle s) (K_Tp s) (K_Ti s) (K_Lp s) (K_Li s) (K_mu_p s) (dt s) (time
     s) (v_BN_W s) (h s) (gamma s) (sigma s) (lat s) (lon s) (v_WN_N s)
     (weight s) (mass s) (airspeed s) (command s) (v_BN_W_c_hist s)
     (gamma_c_hist s) (sigma_c_hist s) (units s) (angles s) (V_err s) (xT s)
     x (Tc s) (Thrust s) (xL s) (Lc s) (Lift s) (alpha_c s) (h_c s)
     (sigma_err s) (alpha s) (drag s) (mu s) (stdout s).

Definition set_Tc (s : t) (x : Q) : t :=
  mk (Vehicle s) (K_Tp s) (K_Ti s) (K_Lp s) (K_Li s) (K_mu_p s) (dt s) (time
     s) (v_BN_W s) (h s) (gamma s) (sigma s) (lat s) (lon s) (v_WN_N s)
     (weight s) (mass s) (airspeed s) (command s) (v_BN_W_c_hist s)
     (gamma_c_hist s) (sigma_c_hist s) (units s) (angles s) (V_err s) (xT s)
     (hdot_err s) x (Thrust s) (xL s) (Lc s) (Lift s) (alpha_c s) (h_c s)
     (sigma_err s) (alpha s) (drag s) (mu s) (stdout s).

Definition set_Thrust (s : t) (x : list Q) : t :=
  mk (Vehicle s) (K_Tp s) (K_Ti s) (K_Lp s) (K_Li s) (K_mu_p s) (dt s) (time
     s) (v_BN_W s) (h s) (gamma s) (sigma s) (lat s) (lon s) (v_WN_N s)
     (weight s) (mass s) (airspeed s) (command s) (v_BN_W_c_hist s)
     (gamma_c_hist s) (sigma_c_hist s) (units s) (angles s) (V_err s) (xT s)
     (hdot_err s) (Tc s) x (xL s) (Lc s) (Lift s) (alpha_c s) (h_c s)
     (sigma_err s) (alpha s) (drag s) (mu s) (stdout s).

Definition set_xL (s : t) (x : Q) : t :=
  mk (Vehicle s) (K_Tp s) (K_Ti s) (K_Lp s) (K_Li s) (K_mu_p s) (dt s) (time
     s) (v_BN_W s) (h s) (gamma s) (sigma s) (lat s) (lon s) (v_WN_N s)
     (weight s) (mass s) (airspeed s) (command s) (v_BN_W_c_hist s)
     (gamma_c_hist s) (sigma_c_hist s) (units s) (angles s) (V_err s) (xT s)
     (hdot_err s) (Tc s) (Thrust s) x (Lc s) (Lift s) (alpha_c s) (h_c s)
     (sigma_err s) (alpha s) (drag s) (mu s) (stdout s).

Definition set_Lc (s : t) (x : Q) : t :=
  mk (Vehicle s) (K_Tp s) (K_Ti s) (K_Lp s) (K_Li s) (K_mu_p s) (dt s) (time
     s) (v_BN_W s) (h s) (gamma s) (sigma s) (lat s) (lon s) (v_WN_N s)
     (weight s) (mass s) (airspeed s) (command s) (v_BN_W_c_hist s)
     (gamma_c_hist s) (sigma_c_hist s) (units s) (angles s) (V_err s) (xT s)
     (hdot_err s) (Tc s) (Thrust s) (xL s) x (Lift s) (alpha_c s) (h_c s)
     (sigma_err s) (alpha s) (drag s) (mu s) (stdout s).

Definition set_Lift (s : t) (x : list Q) : t :=
  mk (Vehicle s) (K_Tp s) (K_Ti s) (K_Lp s) (K_Li s) (K_mu_p s) (dt s) (time
     s) (v_BN_W s) (h s) (gamma s) (sigma s) (lat s) (lon s) (v_WN_N s)
     (weight s) (mass s) (airspeed s) (command s) (v_BN_W_c_hist s)
     (gamma_c_hist s) (sigma_c_hist s) (units s) (angles s) (V_err s) (xT s)
     (hdot_err s) (Tc s) (Thrust s) (xL s) (Lc s) x (alpha_c s) (h_c s)
     (sigma_err s) (alpha s) (drag s) (mu s) (stdout s).

Definition set_alpha_c (s : t) (x : list Q) : t :=
  mk (Vehicle s) (K_Tp s) (K_Ti s) (K_Lp s) (K_Li s) (K_mu_p s) (dt s) (time
     s) (v_BN_W s) (h s) (gamma s) (sigma s) (lat s) (lon s) (v_WN_N s)
     (weight s) (mass s) (airspeed s) (command s) (v_BN_W_c_hist s)
     (gamma_c_hist s) (sigma_c_hist s) (units s) (angles s) (V_err s) (xT s)
     (hdot_err s) (Tc s) (Thrust s) (xL s) (Lc s) (Lift s) x (h_c s)
     (sigma_err s) (alpha s) (drag s) (mu s) (stdout s).

Definition set_h_c (s : t) (x : list Q) : t :=
  mk (Vehicle s) (K_Tp s) (K_Ti s) (K_Lp s) (K_Li s) (K_mu_p s) (dt s) (time
     s) (v_BN_W s) (h s) (gamma s) (sigma s) (lat s) (lon s) (v_WN_N s)
     (weight s) (mass s) (airspeed s) (command s) (v_BN_W_c_hist s)
     (gamma_c_hist s) (sigma_c_hist s) (units s) (angles s) (V_err s) (xT s)
     (hdot_err s) (Tc s) (Thrust s) (xL s) (Lc s) (Lift s) (alpha_c s) x
     (sigma_err s) (alpha s) (drag s) (mu s) (stdout s).

Definition set_sigma_err (s : t) (x : pyfloat) : t :=
  mk (Vehicle s) (K_Tp s) (K_Ti s) (K_Lp s) (K_Li s) (K_mu_p s) (dt s) (time
     s) (v_BN_W s) (h s) (gamma s) (sigma s) (lat s) (lon s) (v_WN_N s)
     (weight s) (mass s) (airspeed s) (command s) (v_BN_W_c_hist s)
     (gamma_c_hist s) (sigma_c_hist s) (units s) (angles s) (V_err s) (xT s)
     (hdot_err s) (Tc s) (Thrust s) (xL s) (Lc s) (Lift s) (alpha_c s) (h_c
     s) x (alpha s) (drag s) (mu s) (stdout s).

Definition set_alpha (s : t) (x : list Q) : t :=
  mk (Vehicle s) (K_Tp s) (K_Ti s) (K_Lp s) (K_Li s) (K_mu_p s) (dt s) (time
     s) (v_BN_W s) (h s) (gamma s) (sigma s) (lat s) (lon s) (v_WN_N s)
     (weight s) (mass s) (airspeed s) (command s) (v_BN_W_c_hist s)
     (gamma_c_hist s) (sigma_c_hist s) (units s) (angles s) (V_err s) (xT s)
     (hdot_err s) (Tc s) (Thrust s) (xL s) (Lc s) (Lift s) (alpha_c s) (h_c
     s) (sigma_err s) x (drag s) (mu s) (stdout s).

Definition set_drag (s : t) (x : list Q) : t :=
  mk (Vehicle s) (K_Tp s) (K_Ti s) (K_Lp s) (K_Li s) (K_mu_p s) (dt s) (time
     s) (v_BN_W s) (h s) (gamma s) (sigma s) (lat s) (lon s) (v_WN_N s)
     (weight s) (mass s) (airspeed s) (command s) (v_BN_W_c_hist s)
     (gamma_c_hist s) (sigma_c_hist s) (units s) (angles s) (V_err s) (xT s)
     (hdot_err s) (Tc s) (Thrust s) (xL s) (Lc s) (Lift s) (alpha_c s) (h_c
     s) (sigma_err s) (alpha s) x (mu s) (stdout s).

Definition set_mu (s : t) (x : list Q) : t :=
  mk (Vehicle s) (K_Tp s) (K_Ti s) (K_Lp s) (K_Li s) (K_mu_p s) (dt s) (time
     s) (v_BN_W s) (h s) (gamma s) (sigma s) (lat s) (lon s) (v_WN_N s)
     (weight s) (mass s) (airspeed s) (command s) (v_BN_W_c_hist s)
     (gamma_c_hist s) (sigma_c_hist s) (units s) (angles s) (V_err s) (xT s)
     (hdot_err s) (Tc s) (Thrust s) (xL s) (Lc s) (Lift s) (alpha_c s) (h_c
     s) (sigma_err s) (alpha s) (drag s) x (stdout s).

Definition set_stdout (s : t) (x : list diag) : t :=
  mk (Vehicle s) (K_Tp s) (K_Ti s) (K_Lp s) (K_Li s) (K_mu_p s) (dt s) (time
     s) (v_BN_W s) (h s) (gamma s) (sigma s) (lat s) (lon s) (v_WN_N s)
     (weight s) (mass s) (airspeed s) (command s) (v_BN_W_c_hist s)
     (gamma_c_hist s) (sigma_c_hist s) (units s) (angles s) (V_err s) (xT s)
     (hdot_err s) (Tc s) (Thrust s) (xL s) (Lc s) (Lift s) (alpha_c s) (h_c
     s) (sigma_err s) (alpha s) (drag s) (mu s) x.

Definition set_Vehicle (s : t) (x : FixedWingVehicle.t) : t :=
  mk x (K_Tp s) (K_Ti s) (K_Lp s) (K_Li s) (K_mu_p s) (dt s) (time s)
     (v_BN_W s) (h s) (gamma s) (sigma s) (lat s) (lon s) (v_WN_N s) (weight
     s) (mass s) (airspeed s) (command s) (v_BN_W_c_hist s) (gamma_c_hist s)
     (sigma_c_hist s) (units s) (angles s) (V_err s) (xT s) (hdot_err s) (Tc
     s) (Thrust s) (xL s) (Lc s) (Lift s) (alpha_c s) (h_c s) (sigma_err s)
     (alpha s) (drag s) (mu s) (stdout s).

End self.

Abbreviation State := self.t.

(** [print(...)] *)
Definition print (s : State) (d : diag) : State :=
  self.set_stdout s (self.stdout s ++ [d]).

(** The calls of the public interface. *)
Inductive call : Type :=
| SetCommandTrajectory (velocity flight_path_angle heading : pyfloat)
| StepTime (dt : option Q).

(** Read an attribute through the updates of a state. *)
Ltac sel :=
  cbn [self.Vehicle self.K_Tp self.K_Ti self.K_Lp self.K_Li self.K_mu_p
       self.dt self.time self.v_BN_W self.h self.gamma self.sigma self.lat
       self.lon self.v_WN_N self.weight self.mass self.airspeed self.command
       self.v_BN_W_c_hist self.gamma_c_hist self.sigma_c_hist self.units
       self.angles self.V_err self.xT self.hdot_err self.Tc self.Thrust
       self.xL self.Lc self.Lift self.alpha_c self.h_c self.sigma_err
       self.alpha self.drag self.mu self.stdout self.set_time
       self.set_v_BN_W self.set_h self.set_gamma self.set_sigma self.set_lat
       self.set_lon self.set_mass self.set_airspeed self.set_command
       self.set_V_err self.set_xT self.set_hdot_err self.set_Tc
       self.set_Thrust self.set_xL self.set_Lc self.set_Lift
       self.set_alpha_c self.set_h_c self.set_sigma_err self.set_alpha
       self.set_drag self.set_mu self.set_stdout self.set_Vehicle].

Ltac sel_in H :=
  cbn [self.Vehicle self.K_Tp self.K_Ti self.K_Lp self.K_Li self.K_mu_p
       self.dt self.time self.v_BN_W self.h self.gamma self.sigma self.lat
       self.lon self.v_WN_N self.weight self.mass self.airspeed self.command
       self.v_BN_W_c_hist self.gamma_c_hist self.sigma_c_hist self.units
       self.angles self.V_err self.xT self.hdot_err self.Tc self.Thrust
       self.xL self.Lc self.Lift self.alpha_c self.h_c self.sigma_err
       self.alpha self.drag self.mu self.stdout self.set_time
       self.set_v_BN_W self.set_h self.set_gamma self.set_sigma self.set_lat
       self.set_lon self.set_mass self.set_airspeed self.set_command
       self.set_V_err self.set_xT self.set_hdot_err self.set_Tc
       self.set_Thrust self.set_xL self.set_Lc self.set_Lift
       self.set_alpha_c self.set_h_c self.set_sigma_err self.set_alpha
       self.set_drag self.set_mu self.set_stdout self.set_Vehicle] in H.

(** ** A concrete instance: the C-130 of [run_FW_UAV_GNC_Test] *)

Module Example.

(** Rational stand-ins for numpy and [utils]. *)
Definition sin (x : Q) : Q := x - x ^ 3 / 6.
Definition cos (x : Q) : Q := 1 - x ^ 2 / 2.
Definition pi : Q := 355 # 113.
Definition const_gravity : Q := 32174 # 1000.
Definition const_density : Q := 23769 # 10000000.
Definition Re_bar : Q := 20902231.
Definition mph2fps : Q := 22 # 15.
Definition d2r : Q := pi / 180.
Definition wind_vector (v gamma sigma : Q) : Q := v.

(** A controller that accepts one step over the whole interval, and one
    that halves the interval. *)
Definition one_step (f : Q -> vec -> vec) (t0 tf : Q) (y0 : vec) : list Q :=
  [tf - t0].
Definition two_steps (f : Q -> vec -> vec) (t0 tf : Q) (y0 : vec) : list Q :=
  [(tf - t0) / 2; (tf - t0) / 2].

Definition my_acft : FixedWingVehicle.t :=
  {| FixedWingVehicle.weight_max := 327000;
     FixedWingVehicle.weight_min := 157000;
     FixedWingVehicle.speed_max := 600 * mph2fps;
     FixedWingVehicle.speed_min := 200 * mph2fps;
     FixedWingVehicle.Kf := 4 # 1000000;
     FixedWingVehicle.omega_T := 2;
     FixedWingVehicle.omega_L := 5 # 2;
     FixedWingVehicle.omega_mu := 1;
     FixedWingVehicle.T_max := 72000;
     FixedWingVehicle.K_Lmax := 26 # 10;
     FixedWingVehicle.mu_max := 30 * d2r;
     FixedWingVehicle.C_Do := 183 # 10000;
     FixedWingVehicle.C_Lalpha := (920 # 10000) / d2r;
     FixedWingVehicle.alpha_o := -(5 # 100) * d2r;
     FixedWingVehicle.wing_area := 1745;
     FixedWingVehicle.aspect_ratio := 101 # 10;
     FixedWingVehicle.wing_eff := 613 # 1000;
     FixedWingVehicle.units := "English";
     FixedWingVehicle.angles := "Radians" |}.

Definition init_cond : InitialConditions.t :=
  {| InitialConditions.v_BN_W := 400 * mph2fps;
     InitialConditions.h := 0;
     InitialConditions.gamma := 0;
     InitialConditions.sigma := 0;
     InitialConditions.lat := (332098 # 10000) * d2r;
     InitialConditions.lon := -(875692 # 10000) * d2r;
     InitialConditions.v_WN_N := [25 * mph2fps; 25 * mph2fps; 0];
     InitialConditions.weight := 300000 |}.

Definition TF : TF_constants.t :=
  {| TF_constants.K_Tp := 8 # 100;
     TF_constants.K_Ti := 2 # 1000;
     TF_constants.K_Lp := 1 # 2;
     TF_constants.K_Li := 1 # 100;
     TF_constants.K_mu_p := 75 # 1000 |}.

(** A small aircraft for computing by hand: unit gains, unit bandwidths, unit
    mass (with a unit acceleration of gravity), flying level at unit speed. *)
Definition toy_acft : FixedWingVehicle.t :=
  {| FixedWingVehicle.weight_max := 2;
     FixedWingVehicle.weight_min := 1;
     FixedWingVehicle.speed_max := 10;
     FixedWingVehicle.speed_min := 1;
     FixedWingVehicle.Kf := 1 # 10;
     FixedWingVehicle.omega_T := 1;
     FixedWingVehicle.omega_L := 1;
     FixedWingVehicle.omega_mu := 1;
     FixedWingVehicle.T_max := 100;
     FixedWingVehicle.K_Lmax := 100;
     FixedWingVehicle.mu_max := 1 # 2;
     FixedWingVehicle.C_Do := 1 # 100;
     FixedWingVehicle.C_Lalpha := 1;
     FixedWingVehicle.alpha_o := 0;
     FixedWingVehicle.wing_area := 1;
     FixedWingVehicle.aspect_ratio := 10;
     FixedWingVehicle.wing_eff := 1;
     FixedWingVehicle.units := "English";
     FixedWingVehicle.angles := "Radians" |}.

Definition toy_cond : InitialConditions.t :=
  {| InitialConditions.v_BN_W := 1;
     InitialConditions.h := 0;
     InitialConditions.gamma := 0;
     InitialConditions.sigma := 0;
     InitialConditions.lat := 0;
     InitialConditions.lon := 0;
     InitialConditions.v_WN_N := [0; 0; 0];
     InitialConditions.weight := 1 |}.

Definition toy_TF : TF_constants.t :=
  {| TF_constants.K_Tp := 1;
     TF_constants.K_Ti := 0;
     TF_constants.K_Lp := 1;
     TF_constants.K_Li := 0;
     TF_constants.K_mu_p := 1 |}.

End Example.

Section FW_NL_GuidanceSystem.

(** numpy *)
Variables np_sin np_cos : Q -> Q.
Variable np_pi : Q.

(** The module [utils] of the repository. *)
Variables const_gravity const_density Re_bar : Q.
Variable wind_vector : Q -> Q -> Q -> Q.

(** The step-size controller of the RK45 solver: the sizes of the accepted
    steps of an integration of [fun] from [t0] to [tf]. *)
Variable rk45_steps : (Q -> vec -> vec) -> Q -> Q -> vec -> list Q.

(** [solve_ivp(fun, [t0, tf], y0, method='RK45')]; the result is the
    solution at the last time point, [sol.y[:, -1]]. *)
Definition solve_ivp (f : Q -> vec -> vec) (t_span : Q * Q) (y0 : vec) : vec :=
  rk_run f (fst t_span) y0 (rk45_steps f (fst t_span) (snd t_span) y0).

Definition fwind_vector (v gamma sigma : pyfloat) : pyfloat :=
  match v, gamma, sigma with
  | Num a, Num b, Num c => Num (wind_vector a b c)
  | _, _, _ => NaN
  end.

Definition fsin := flift1 np_sin.

(** *** The right-hand sides *)

Definition __xT_dot_ode (s : State) (t : Q) (xT : vec) : vec :=
  [py_last (self.mass s) * num (self.V_err s)].

Definition __T_dot_ode (s : State) (t : Q) (T : vec) : vec :=
  map (fun T_i =>
         -(1) * FixedWingVehicle.omega_T (self.Vehicle s) * T_i
         + FixedWingVehicle.omega_T (self.Vehicle s) * self.Tc s) T.

Definition __xL_dot_ode (s : State) (t : Q) (xL : vec) : vec :=
  [py_last (self.mass s) * num (self.hdot_err s)].

Definition __L_dot_ode (s : State) (t : Q) (L : vec) : vec :=
  map (fun L_i =>
         -(1) * FixedWingVehicle.omega_L (self.Vehicle s) * L_i
         + FixedWingVehicle.omega_L (self.Vehicle s) * self.Lc s) L.

Definition __m_dot_ode (s : State) (t : Q) (m : vec) : vec :=
  [-(1) * FixedWingVehicle.Kf (self.Vehicle s) * py_last (self.Thrust s)].

Definition __eom_ode (s : State) (t : Q) (y0 : vec) : vec :=
  let v_BN_W_dot :=
    ((py_last (self.Thrust s) - py_last (self.drag s)) / py_last (self.mass s))
    - const_gravity * np_sin (py_last (self.gamma s)) in
  let gamma_dot :=
    (1 / py_last (self.v_BN_W s))
    * ((py_last (self.Lift s) * np_cos (py_last (self.mu s))
        / py_last (self.mass s))
       - const_gravity * np_cos (py_last (self.gamma s))) in
  let sigma_dot :=
    (1 / (py_last (self.v_BN_W s) * np_cos (py_last (self.gamma s))))
    * (py_last (self.Lift s) * np_sin (py_last (self.mu s))
       / py_last (self.mass s)) in
  [v_BN_W_dot; gamma_dot; sigma_dot].

Definition __ecef_ode (s : State) (t : Q) (y0 : vec) : vec :=
  let lat_dot :=
    py_last (self.v_BN_W s) * np_cos (py_last (self.gamma s))
    * np_cos (py_last (self.sigma s)) / (Re_bar + py_last (self.h s)) in
  let lon_dot :=
    py_last (self.v_BN_W s) * np_cos (py_last (self.gamma s))
    * np_sin (py_last (self.sigma s))
    / ((Re_bar + py_last (self.h s)) * np_cos (py_last (self.lat s))) in
  let h_dot := py_last (self.v_BN_W s) * np_sin (py_last (self.gamma s)) in
  [lat_dot; lon_dot; h_dot].

(** *** Algebraic outputs *)

Definition _calculateAlpha (s : State) : Q :=
  ((2 * py_last (self.Lift s))
   / (const_density * FixedWingVehicle.wing_area (self.Vehicle s)
      * FixedWingVehicle.C_Lalpha (self.Vehicle s)
      * py_last (self.airspeed s) ^ 2))
  + FixedWingVehicle.alpha_o (self.Vehicle s).

Definition _calculateDrag (s : State) : Q :=
  (1 # 2) * const_density * FixedWingVehicle.wing_area (self.Vehicle s)
  * FixedWingVehicle.C_Do (self.Vehicle s) * py_last (self.airspeed s) ^ 2
  + (2 * py_last (self.Lift s) ^ 2)
    / (const_density * FixedWingVehicle.wing_area (self.Vehicle s) * np_pi
       * FixedWingVehicle.aspect_ratio (self.Vehicle s)
       * FixedWingVehicle.wing_eff (self.Vehicle s)
       * py_last (self.airspeed s) ^ 2).

Definition _calculateMu (s : State) : pyfloat :=
  fmul (fmul (Num (self.K_mu_p s))
             (fdiv (userCommand.v_BN_W (self.command s)) (Num const_gravity)))
       (self.sigma_err s).

(** *** The constructor *)

(** [userCommand(v_BN_W, gamma, sigma)] *)
Definition userCommand__init__ (v_BN_W gamma sigma : pyfloat) : userCommand.t :=
  let airspeed := fwind_vector v_BN_W gamma sigma in
  userCommand.mk v_BN_W gamma sigma [v_BN_W] [gamma] [sigma]
                 airspeed [airspeed].

(** [FW_NL_GuidanceSystem(vehicle, TF_constants, InitialConditions, time, dt)];
    [None] stands for an omitted optional argument. *)
Definition __init__ (vehicle : FixedWingVehicle.t) (TF : TF_constants.t)
           (IC : InitialConditions.t) (time dt : option Q) : State :=
  let time := match time with Some t => t | None => 0 end in
  let dt := match dt with Some d => d | None => 1 # 100 end in
  let v_BN_W := InitialConditions.v_BN_W IC in
  let gamma := InitialConditions.gamma IC in
  let sigma := InitialConditions.sigma IC in
  let s :=
    {| self.Vehicle := vehicle;
       self.K_Tp := TF_constants.K_Tp TF;
       self.K_Ti := TF_constants.K_Ti TF;
       self.K_Lp := TF_constants.K_Lp TF;
       self.K_Li := TF_constants.K_Li TF;
       self.K_mu_p := TF_constants.K_mu_p TF;
       self.dt := dt;
       self.time := [time];
       self.v_BN_W := [v_BN_W];
       self.h := [InitialConditions.h IC];
       self.gamma := [gamma];
       self.sigma := [sigma];
       self.lat := [InitialConditions.lat IC];
       self.lon := [InitialConditions.lon IC];
       self.v_WN_N := [InitialConditions.v_WN_N IC];
       self.weight := [InitialConditions.weight IC];
       self.mass := [InitialConditions.weight IC / const_gravity];
       self.airspeed := [wind_vector v_BN_W gamma sigma];
       self.command := userCommand__init__ (Num v_BN_W) (Num gamma) (Num sigma);
       self.v_BN_W_c_hist := [0];
       self.gamma_c_hist := [0];
       self.sigma_c_hist := [0];
       self.units := FixedWingVehicle.units vehicle;
       self.angles := FixedWingVehicle.angles vehicle;
       self.V_err := Num 0;
       self.xT := 0;
       self.hdot_err := Num 0;
       self.Tc := 0;
       self.Thrust := [0];
       self.xL := 0;
       self.Lc := 0;
       self.Lift := [0];
       self.alpha_c := [0];
       self.h_c := [0];
       self.sigma_err := Num 0;
       self.alpha := [];
       self.drag := [];
       self.mu := [];
       self.stdout := [] |} in
  let s := self.set_alpha s [_calculateAlpha s] in
  let s := self.set_drag s [_calculateDrag s] in
  let s := self.set_mu s [num (_calculateMu s)] in
  s.

(** *** setCommandTrajectory *)

Definition setCommandTrajectory (s : State)
           (velocity flight_path_angle heading : pyfloat) : State :=
  let c := self.command s in
  let c :=
    userCommand.mk velocity flight_path_angle heading
                   (userCommand.v_BN_W_history c)
                   (userCommand.gamma_history c)
                   (userCommand.sigma_history c)
                   (fwind_vector velocity flight_path_angle heading)
                   (userCommand.airspeed_history c) in
  let s := self.set_command s c in
  let s :=
    self.set_V_err s
      (fsub (userCommand.v_BN_W (self.command s))
            (Num (py_last (self.v_BN_W s)))) in
  let s :=
    self.set_hdot_err s
      (fmul (userCommand.v_BN_W (self.command s))
            (fsub (fsin (userCommand.gamma (self.command s)))
                  (fsin (Num (py_last (self.gamma s)))))) in
  let s :=
    self.set_sigma_err s
      (fsub (userCommand.sigma (self.command s))
            (Num (py_last (self.sigma s)))) in
  s.

(** *** The guidance laws *)

(** The interval [[self.time[-1], self.time[-1] + dt]]. *)
Definition t_span (s : State) (dt : Q) : Q * Q :=
  (py_last (self.time s), py_last (self.time s) + dt).

Definition _thrustGuidanceSystem (s : State) (dt : Q) : State :=
  let xT_old := self.xT s in
  let s :=
    self.set_V_err s
      (fsub (userCommand.v_BN_W (self.command s))
            (Num (py_last (self.v_BN_W s)))) in
  let sol := solve_ivp (__xT_dot_ode s) (t_span s dt) [xT_old] in
  let s := self.set_xT s (py_last sol) in
  let s :=
    self.set_Tc s
      (self.K_Ti s * self.xT s
       + self.K_Tp s * py_last (self.mass s) * num (self.V_err s)) in
  let s :=
    if Qgtb (self.Tc s) (FixedWingVehicle.T_max (self.Vehicle s)) then
      let s :=
        print s (ThrustExceeds (self.Tc s)
                               (FixedWingVehicle.T_max (self.Vehicle s))) in
      self.set_Tc s (FixedWingVehicle.T_max (self.Vehicle s))
    else s in
  let sol := solve_ivp (__T_dot_ode s) (t_span s dt) [py_last (self.Thrust s)] in
  let s := self.set_Thrust s (append (self.Thrust s) (py_last sol)) in
  let s :=
    if Qgtb (py_last (self.Thrust s)) (FixedWingVehicle.T_max (self.Vehicle s))
    then
      self.set_Thrust s
        (set_last (self.Thrust s) (FixedWingVehicle.T_max (self.Vehicle s)))
    else s in
  s.

Definition _liftGuidanceSystem (s : State) (dt : Q) : State :=
  let L_max :=
    py_last (self.v_BN_W s) ^ 2 * FixedWingVehicle.K_Lmax (self.Vehicle s) in
  let xL_old := self.xL s in
  let s :=
    self.set_hdot_err s
      (fmul (userCommand.v_BN_W (self.command s))
            (fsub (fsin (userCommand.gamma (self.command s)))
                  (fsin (Num (py_last (self.gamma s)))))) in
  let sol := solve_ivp (__xL_dot_ode s) (t_span s dt) [xL_old] in
  let s := self.set_xL s (py_last sol) in
  let s :=
    self.set_Lc s
      (self.K_Li s * self.xL s
       + self.K_Lp s * py_last (self.mass s) * num (self.hdot_err s)) in
  let s :=
    if Qgtb (self.Lc s) L_max then
      let s := print s (LiftExceeds (self.Lc s) L_max) in
      self.set_Lc s L_max
    else s in
  let sol := solve_ivp (__L_dot_ode s) (t_span s dt) [py_last (self.Lift s)] in
  let s := self.set_Lift s (append (self.Lift s) (py_last sol)) in
  let s :=
    if Qgtb (py_last (self.Lift s)) L_max then
      self.set_Lift s (set_last (self.Lift s) L_max)
    else s in
  let alpha_c :=
    2 * self.Lc s
    / (const_density * FixedWingVehicle.wing_area (self.Vehicle s)
       * FixedWingVehicle.C_Lalpha (self.Vehicle s)
       * py_last (self.airspeed s) ^ 2)
    + FixedWingVehicle.alpha_o (self.Vehicle s) in
  let s := self.set_alpha_c s (append (self.alpha_c s) alpha_c) in
  let h_c :=
    num (fsin (userCommand.gamma (self.command s)))
    * num (userCommand.v_BN_W (self.command s))
    * (py_last (self.time s) + dt)
    + hd 0 (self.h s) in
  let s := self.set_h_c s (append (self.h_c s) h_c) in
  s.

Definition _headingGuidanceSystem (s : State) (dt : Q) : State :=
  let s :=
    self.set_sigma_err s
      (fsub (userCommand.sigma (self.command s))
            (Num (py_last (self.sigma s)))) in
  let mu := num (_calculateMu s) in
  let '(s, mu) :=
    if Qgtb (Qabs mu) (FixedWingVehicle.mu_max (self.Vehicle s)) then
      (print s (BankExceeds mu (FixedWingVehicle.mu_max (self.Vehicle s))),
       np_sign mu * FixedWingVehicle.mu_max (self.Vehicle s))
    else (s, mu) in
  let s := self.set_mu s (append (self.mu s) mu) in
  s.

Definition getGuidanceCommands (s : State) (dt : option Q) : State :=
  if np_nan_in [userCommand.v_BN_W (self.command s);
                userCommand.gamma (self.command s);
                userCommand.sigma (self.command s)]
  then print s NoUserTrajectory
  else
    let dt := match dt with Some d => d | None => self.dt s end in
    let s := _thrustGuidanceSystem s dt in
    let s := _liftGuidanceSystem s dt in
    let s := _headingGuidanceSystem s dt in
    s.

(** *** The ideal equations of motion *)

Definition getEquationsOfMotion_Ideal (s : State) (dt : option Q) : State :=
  let dt := match dt with Some d => d | None => self.dt s end in
  let sol := solve_ivp (__m_dot_ode s) (t_span s dt) [py_last (self.mass s)] in
  let s := self.set_mass s (append (self.mass s) (py_last sol)) in
  let a := _calculateAlpha s in
  let d := _calculateDrag s in
  let s := self.set_alpha s (append (self.alpha s) a) in
  let s := self.set_drag s (append (self.drag s) d) in
  let y0 :=
    [py_last (self.v_BN_W s); py_last (self.gamma s); py_last (self.sigma s)] in
  let sol := solve_ivp (__eom_ode s) (t_span s dt) y0 in
  let s := self.set_v_BN_W s (append (self.v_BN_W s) (nth 0 sol 0)) in
  let s := self.set_gamma s (append (self.gamma s) (nth 1 sol 0)) in
  let s := self.set_sigma s (append (self.sigma s) (nth 2 sol 0)) in
  let s :=
    self.set_airspeed s
      (append (self.airspeed s)
              (wind_vector (py_last (self.v_BN_W s)) (py_last (self.gamma s))
                           (py_last (self.sigma s)))) in
  let y0 := [py_last (self.lat s); py_last (self.lon s); py_last (self.h s)] in
  let sol := solve_ivp (__ecef_ode s) (t_span s dt) y0 in
  let s := self.set_lat s (append (self.lat s) (nth 0 sol 0)) in
  let s := self.set_lon s (append (self.lon s) (nth 1 sol 0)) in
  let s := self.set_h s (append (self.h s) (nth 2 sol 0)) in
  s.

(** *** stepTime *)

Definition stepTime (s : State) (dt : option Q) : State :=
  let dt := match dt with Some d => d | None => self.dt s end in
  let s := getGuidanceCommands s (Some dt) in
  let s := getEquationsOfMotion_Ideal s (Some dt) in
  let s := self.set_command s (userCommand.save_history (self.command s)) in
  let s := self.set_time s (append (self.time s) (py_last (self.time s) + dt)) in
  s.

(** *** Runs *)

Definition perform (s : State) (c : call) : State :=
  match c with
  | SetCommandTrajectory v g h => setCommandTrajectory s v g h
  | StepTime dt => stepTime s dt
  end.

Definition run (s : State) (cs : list call) : State := fold_left perform cs s.

(** The number of steps of a run. *)
Definition steps_taken (cs : list call) : nat :=
  List.length (filter (fun c => match c with StepTime _ => true | _ => false end) cs).

(** ** Notions used by the statements *)

(** The commanded trajectory holds numbers. *)
Definition numeric_command (s : State) : Prop :=
  forallb is_num [userCommand.v_BN_W (self.command s);
                  userCommand.gamma (self.command s);
                  userCommand.sigma (self.command s)] = true.

Definition numeric_call (c : call) : Prop :=
  match c with
  | SetCommandTrajectory v g h => forallb is_num [v; g; h] = true
  | StepTime _ => True
  end.

(** The guard of [getGuidanceCommands] lets the laws run: the object
    [np.nan] is not among the commanded values. *)
Definition guard_passes (s : State) : Prop :=
  np_nan_in [userCommand.v_BN_W (self.command s);
             userCommand.gamma (self.command s);
             userCommand.sigma (self.command s)] = false.

(** The effective step size of [stepTime(dt)]. *)
Definition step_size (s : State) (dt : option Q) : Q :=
  match dt with Some d => d | None => self.dt s end.

(** [l'] is [l] with one more element. *)
Definition grows (l l' : list Q) : Prop := exists x, l' = append l x.

(** The fourteen time-indexed histories all have length [n]. *)
Definition hist_lengths (s : State) (n : nat) : Prop :=
  List.length (self.time s) = n /\ List.length (self.mass s) = n /\
  List.length (self.v_BN_W s) = n /\ List.length (self.gamma s) = n /\
  List.length (self.sigma s) = n /\ List.length (self.lat s) = n /\
  List.length (self.lon s) = n /\ List.length (self.h s) = n /\
  List.length (self.airspeed s) = n /\ List.length (self.alpha s) = n /\
  List.length (self.drag s) = n /\ List.length (self.mu s) = n /\
  List.length (self.Thrust s) = n /\ List.length (self.Lift s) = n.

(** Each of the fourteen histories of [s'] is the one of [s] with one more
    element. *)
Definition step_appends (s s' : State) : Prop :=
  grows (self.time s) (self.time s') /\ grows (self.mass s) (self.mass s') /\
  grows (self.v_BN_W s) (self.v_BN_W s') /\
  grows (self.gamma s) (self.gamma s') /\
  grows (self.sigma s) (self.sigma s') /\ grows (self.lat s) (self.lat s') /\
  grows (self.lon s) (self.lon s') /\ grows (self.h s) (self.h s') /\
  grows (self.airspeed s) (self.airspeed s') /\
  grows (self.alpha s) (self.alpha s') /\ grows (self.drag s) (self.drag s') /\
  grows (self.mu s) (self.mu s') /\ grows (self.Thrust s) (self.Thrust s') /\
  grows (self.Lift s) (self.Lift s').

(** ** What each stage computes

    The attributes a stage writes, as functions of the state it receives. *)

Definition thrust_V_err (s : State) : pyfloat :=
  fsub (userCommand.v_BN_W (self.command s)) (Num (py_last (self.v_BN_W s))).

Definition thrust_xT (s : State) (dt : Q) : Q :=
  py_last (solve_ivp (__xT_dot_ode (self.set_V_err s (thrust_V_err s)))
                     (t_span s dt) [self.xT s]).

(** The thrust command before its saturation. *)
Definition thrust_Tc_raw (s : State) (dt : Q) : Q :=
  self.K_Ti s * thrust_xT s dt
  + self.K_Tp s * py_last (self.mass s) * num (thrust_V_err s).

Definition thrust_Tc (s : State) (dt : Q) : Q :=
  if Qgtb (thrust_Tc_raw s dt) (FixedWingVehicle.T_max (self.Vehicle s))
  then FixedWingVehicle.T_max (self.Vehicle s)
  else thrust_Tc_raw s dt.

(** The output of the thrust lag filter before its saturation. *)
Definition thrust_lag (s : State) (dt : Q) : Q :=
  py_last (solve_ivp (__T_dot_ode (self.set_Tc s (thrust_Tc s dt)))
                     (t_span s dt) [py_last (self.Thrust s)]).

Definition thrust_Thrust (s : State) (dt : Q) : Q :=
  if Qgtb (thrust_lag s dt) (FixedWingVehicle.T_max (self.Vehicle s))
  then FixedWingVehicle.T_max (self.Vehicle s)
  else thrust_lag s dt.

Definition thrust_stdout (s : State) (dt : Q) : list diag :=
  if Qgtb (thrust_Tc_raw s dt) (FixedWingVehicle.T_max (self.Vehicle s))
  then self.stdout s
       ++ [ThrustExceeds (thrust_Tc_raw s dt)
                         (FixedWingVehicle.T_max (self.Vehicle s))]
  else self.stdout s.

Definition lift_L_max (s : State) : Q :=
  py_last (self.v_BN_W s) ^ 2 * FixedWingVehicle.K_Lmax (self.Vehicle s).

Definition lift_hdot_err (s : State) : pyfloat :=
  fmul (userCommand.v_BN_W (self.command s))
       (fsub (fsin (userCommand.gamma (self.command s)))
             (fsin (Num (py_last (self.gamma s))))).

Definition lift_xL (s : State) (dt : Q) : Q :=
  py_last (solve_ivp (__xL_dot_ode (self.set_hdot_err s (lift_hdot_err s)))
                     (t_span s dt) [self.xL s]).

(** The lift command before its saturation. *)
Definition lift_Lc_raw (s : State) (dt : Q) : Q :=
  self.K_Li s * lift_xL s dt
  + self.K_Lp s * py_last (self.mass s) * num (lift_hdot_err s).

Definition lift_Lc (s : State) (dt : Q) : Q :=
  if Qgtb (lift_Lc_raw s dt) (lift_L_max s) then lift_L_max s
  else lift_Lc_raw s dt.

(** The output of the lift lag filter before its saturation. *)
Definition lift_lag (s : State) (dt : Q) : Q :=
  py_last (solve_ivp (__L_dot_ode (self.set_Lc s (lift_Lc s dt)))
                     (t_span s dt) [py_last (self.Lift s)]).

Definition lift_Lift (s : State) (dt : Q) : Q :=
  if Qgtb (lift_lag s dt) (lift_L_max s) then lift_L_max s else lift_lag s dt.

Definition lift_alpha_c (s : State) (dt : Q) : Q :=
  2 * lift_Lc s dt
  / (const_density * FixedWingVehicle.wing_area (self.Vehicle s)
     * FixedWingVehicle.C_Lalpha (self.Vehicle s)
     * py_last (self.airspeed s) ^ 2)
  + FixedWingVehicle.alpha_o (self.Vehicle s).

Definition lift_h_c (s : State) (dt : Q) : Q :=
  num (fsin (userCommand.gamma (self.command s)))
  * num (userCommand.v_BN_W (self.command s))
  * (py_last (self.time s) + dt)
  + hd 0 (self.h s).

Definition lift_stdout (s : State) (dt : Q) : list diag :=
  if Qgtb (lift_Lc_raw s dt) (lift_L_max s)
  then self.stdout s ++ [LiftExceeds (lift_Lc_raw s dt) (lift_L_max s)]
  else self.stdout s.

Definition heading_sigma_err (s : State) : pyfloat :=
  fsub (userCommand.sigma (self.command s)) (Num (py_last (self.sigma s))).

(** The bank angle before its saturation. *)
Definition heading_mu_raw (s : State) : Q :=
  num (_calculateMu (self.set_sigma_err s (heading_sigma_err s))).

Definition heading_mu (s : State) : Q :=
  if Qgtb (Qabs (heading_mu_raw s))
          (FixedWingVehicle.mu_max (self.Vehicle s))
  then np_sign (heading_mu_raw s) * FixedWingVehicle.mu_max (self.Vehicle s)
  else heading_mu_raw s.

Definition heading_stdout (s : State) : list diag :=
  if Qgtb (Qabs (heading_mu_raw s))
          (FixedWingVehicle.mu_max (self.Vehicle s))
  then self.stdout s
       ++ [BankExceeds (heading_mu_raw s)
                       (FixedWingVehicle.mu_max (self.Vehicle s))]
  else self.stdout s.

Definition eom_mass (s : State) (dt : Q) : Q :=
  py_last (solve_ivp (__m_dot_ode s) (t_span s dt) [py_last (self.mass s)]).

(** The state the translational dynamics read: the new mass and drag are
    already in the histories. *)
Definition eom_state (s : State) (dt : Q) : State :=
  self.set_drag
    (self.set_mass s (append (self.mass s) (eom_mass s dt)))
    (append (self.drag s) (_calculateDrag s)).

Definition eom_sol (s : State) (dt : Q) : vec :=
  solve_ivp (__eom_ode (eom_state s dt)) (t_span s dt)
            [py_last (self.v_BN_W s); py_last (self.gamma s);
             py_last (self.sigma s)].

(** The state the geodetic kinematics read: the new velocity, flight-path
    angle and heading are already in the histories. *)
Definition ecef_state (s : State) (dt : Q) : State :=
  self.set_sigma
    (self.set_gamma
       (self.set_v_BN_W s (append (self.v_BN_W s) (nth 0 (eom_sol s dt) 0)))
       (append (self.gamma s) (nth 1 (eom_sol s dt) 0)))
    (append (self.sigma s) (nth 2 (eom_sol s dt) 0)).

Definition ecef_sol (s : State) (dt : Q) : vec :=
  solve_ivp (__ecef_ode (ecef_state s dt)) (t_span s dt)
            [py_last (self.lat s); py_last (self.lon s); py_last (self.h s)].

(** The three laws as [getGuidanceCommands] runs them behind its guard. *)
Definition guidance (s : State) (dt : Q) : State :=
  _headingGuidanceSystem
    (_liftGuidanceSystem (_thrustGuidanceSystem s dt) dt) dt.

(** What the lift law reads. *)
Definition lift_reads (a b : State) : Prop :=
  self.command a = self.command b /\ self.gamma a = self.gamma b /\
  self.xL a = self.xL b /\ self.mass a = self.mass b /\
  self.K_Li a = self.K_Li b /\ self.K_Lp a = self.K_Lp b /\
  self.v_BN_W a = self.v_BN_W b /\ self.Vehicle a = self.Vehicle b /\
  self.Lift a = self.Lift b /\ self.time a = self.time b /\
  self.airspeed a = self.airspeed b /\ self.h a = self.h b.

(** What the heading law reads. *)
Definition heading_reads (a b : State) : Prop :=
  self.command a = self.command b /\ self.sigma a = self.sigma b /\
  self.K_mu_p a = self.K_mu_p b /\
  FixedWingVehicle.mu_max (self.Vehicle a)
  = FixedWingVehicle.mu_max (self.Vehicle b).

(** The attributes [setCommandTrajectory] leaves: every one but the command
    and the three error terms. *)
Definition setCommandTrajectory_frame (s s' : State) : Prop :=
  self.Vehicle s' = self.Vehicle s /\
  self.K_Tp s' = self.K_Tp s /\
  self.K_Ti s' = self.K_Ti s /\
  self.K_Lp s' = self.K_Lp s /\
  self.K_Li s' = self.K_Li s /\
  self.K_mu_p s' = self.K_mu_p s /\
  self.dt s' = self.dt s /\
  self.time s' = self.time s /\
  self.v_BN_W s' = self.v_BN_W s /\
  self.h s' = self.h s /\
  self.gamma s' = self.gamma s /\
  self.sigma s' = self.sigma s /\
  self.lat s' = self.lat s /\
  self.lon s' = self.lon s /\
  self.v_WN_N s' = self.v_WN_N s /\
  self.weight s' = self.weight s /\
  self.mass s' = self.mass s /\
  self.airspeed s' = self.airspeed s /\
  self.v_BN_W_c_hist s' = self.v_BN_W_c_hist s /\
  self.gamma_c_hist s' = self.gamma_c_hist s /\
  self.sigma_c_hist s' = self.sigma_c_hist s /\
  self.units s' = self.units s /\
  self.angles s' = self.angles s /\
  self.xT s' = self.xT s /\
  self.Tc s' = self.Tc s /\
  self.Thrust s' = self.Thrust s /\
  self.xL s' = self.xL s /\
  self.Lc s' = self.Lc s /\
  self.Lift s' = self.Lift s /\
  self.alpha_c s' = self.alpha_c s /\
  self.h_c s' = self.h_c s /\
  self.alpha s' = self.alpha s /\
  self.drag s' = self.drag s /\
  self.mu s' = self.mu s /\
  self.stdout s' = self.stdout s.

(** Every element is at most the one before it. *)
Fixpoint nonincreasing (l : list Q) : Prop :=
  match l with
  | a :: ((b :: _) as l') => b <= a /\ nonincreasing l'
  | _ => True
  end.

(** The step size of every step of a run is positive. *)
Definition positive_step (s : State) (c : call) : Prop :=
  match c with
  | StepTime dt => 0 < step_size s dt
  | SetCommandTrajectory _ _ _ => True
  end.


(** ** Notions for whole runs *)

(** The histories every step appends to, whatever the command holds: the
    clock, the ten histories of the equations of motion and the four
    histories of the command. *)
Definition motion_lengths (s : State) (n : nat) : Prop :=
  List.length (self.time s) = n /\ List.length (self.mass s) = n /\
  List.length (self.v_BN_W s) = n /\ List.length (self.gamma s) = n /\
  List.length (self.sigma s) = n /\ List.length (self.lat s) = n /\
  List.length (self.lon s) = n /\ List.length (self.h s) = n /\
  List.length (self.airspeed s) = n /\ List.length (self.alpha s) = n /\
  List.length (self.drag s) = n /\
  List.length (userCommand.v_BN_W_history (self.command s)) = n /\
  List.length (userCommand.gamma_history (self.command s)) = n /\
  List.length (userCommand.sigma_history (self.command s)) = n /\
  List.length (userCommand.airspeed_history (self.command s)) = n.

(** The histories the guidance laws append to. *)
Definition guidance_lengths (s : State) (n : nat) : Prop :=
  List.length (self.Thrust s) = n /\ List.length (self.Lift s) = n /\
  List.length (self.mu s) = n /\ List.length (self.alpha_c s) = n /\
  List.length (self.h_c s) = n.

(** Every commanded value of the call is a number or the object
    [np.nan]. *)
Definition plain_call (c : call) : Prop :=
  match c with
  | SetCommandTrajectory v g h =>
      forallb (fun x => is_num x || is_np_nan x) [v; g; h] = true
  | StepTime _ => True
  end.

(** No commanded value of the call is the object [np.nan]. *)
Definition np_nan_free_call (c : call) : Prop :=
  match c with
  | SetCommandTrajectory v g h => np_nan_in [v; g; h] = false
  | StepTime _ => True
  end.

(** The steps of a run taken while the command holds numbers; [numeric]
    tells whether the command in force does. *)
Fixpoint guided_steps (numeric : bool) (cs : list call) : nat :=
  match cs with
  | [] => 0
  | SetCommandTrajectory v g h :: cs' =>
      guided_steps (forallb is_num [v; g; h]) cs'
  | StepTime _ :: cs' =>
      ((if numeric then 1 else 0) + guided_steps numeric cs')%nat
  end.

(** The steps of a run that pass the guard of [getGuidanceCommands];
    [open] tells whether the command in force passes it. *)
Fixpoint passed_steps (open : bool) (cs : list call) : nat :=
  match cs with
  | [] => 0
  | SetCommandTrajectory v g h :: cs' =>
      passed_steps (negb (np_nan_in [v; g; h])) cs'
  | StepTime _ :: cs' =>
      ((if open then 1 else 0) + passed_steps open cs')%nat
  end.

(** A step whose guidance laws were skipped: the clock and the histories of
    the equations of motion have one more element, thrust, lift and bank
    angle are as they were. *)
Definition skipped_step (s s' : State) : Prop :=
  grows (self.time s) (self.time s') /\ grows (self.mass s) (self.mass s') /\
  grows (self.v_BN_W s) (self.v_BN_W s') /\
  grows (self.gamma s) (self.gamma s') /\
  grows (self.sigma s) (self.sigma s') /\ grows (self.lat s) (self.lat s') /\
  grows (self.lon s) (self.lon s') /\ grows (self.h s) (self.h s') /\
  grows (self.airspeed s) (self.airspeed s') /\
  grows (self.alpha s) (self.alpha s') /\ grows (self.drag s) (self.drag s') /\
  self.Thrust s' = self.Thrust s /\ self.Lift s' = self.Lift s /\
  self.mu s' = self.mu s.

(** The attributes written by the constructor only. *)
Definition configuration_kept (s s' : State) : Prop :=
  self.Vehicle s' = self.Vehicle s /\
  self.K_Tp s' = self.K_Tp s /\ self.K_Ti s' = self.K_Ti s /\
  self.K_Lp s' = self.K_Lp s /\ self.K_Li s' = self.K_Li s /\
  self.K_mu_p s' = self.K_mu_p s /\ self.dt s' = self.dt s /\
  self.v_WN_N s' = self.v_WN_N s /\ self.weight s' = self.weight s /\
  self.v_BN_W_c_hist s' = self.v_BN_W_c_hist s /\
  self.gamma_c_hist s' = self.gamma_c_hist s /\
  self.sigma_c_hist s' = self.sigma_c_hist s /\
  self.units s' = self.units s /\ self.angles s' = self.angles s.

(** The step sizes of the steps of a run, for the configured step size
    [dt0]. *)
Fixpoint step_sizes (dt0 : Q) (cs : list call) : list Q :=
  match cs with
  | [] => []
  | SetCommandTrajectory _ _ _ :: cs' => step_sizes dt0 cs'
  | StepTime None :: cs' => dt0 :: step_sizes dt0 cs'
  | StepTime (Some d) :: cs' => d :: step_sizes dt0 cs'
  end.

(** Every element is greater than the one before it. *)
Fixpoint increasing (l : list Q) : Prop :=
  match l with
  | a :: ((b :: _) as l') => a < b /\ increasing l'
  | _ => True
  end.

(** [[f(a, b, c) for a, b, c in zip(u, v, w)]] *)
Fixpoint map3 (f : Q -> Q -> Q -> Q) (u v w : list Q) : list Q :=
  match u, v, w with
  | a :: u', b :: v', c :: w' => f a b c :: map3 f u' v' w'
  | _, _, _ => []
  end.

(** ** The lag filters under the Runge-Kutta method *)

(** The stability polynomial of the Dormand-Prince method: one step of size
    [h] on [y' = -omega*y] multiplies [y] by [RK45_R (-(omega*h))]. *)
Definition RK45_R (z : Q) : Q :=
  1 + z + z ^ 2 * (1 # 2) + z ^ 3 * (1 # 6) + z ^ 4 * (1 # 24)
  + z ^ 5 * (1 # 120) + z ^ 6 * (1 # 600).

Fixpoint Qprod (l : list Q) : Q :=
  match l with
  | [] => 1
  | x :: l' => x * Qprod l'
  end.

(** What is left of the distance to the command after the accepted steps
    [hs] of a lag filter of bandwidth [omega]. *)
Definition lag_factor (omega : Q) (hs : list Q) : Q :=
  Qprod (map (fun h => RK45_R (-(omega * h))) hs).

(** ** What a step prints *)

Definition thrust_events (s : State) (dt : Q) : list diag :=
  if Qgtb (thrust_Tc_raw s dt) (FixedWingVehicle.T_max (self.Vehicle s))
  then [ThrustExceeds (thrust_Tc_raw s dt)
                      (FixedWingVehicle.T_max (self.Vehicle s))]
  else [].

Definition lift_events (s : State) (dt : Q) : list diag :=
  if Qgtb (lift_Lc_raw s dt) (lift_L_max s)
  then [LiftExceeds (lift_Lc_raw s dt) (lift_L_max s)]
  else [].

Definition heading_events (s : State) : list diag :=
  if Qgtb (Qabs (heading_mu_raw s)) (FixedWingVehicle.mu_max (self.Vehicle s))
  then [BankExceeds (heading_mu_raw s)
                    (FixedWingVehicle.mu_max (self.Vehicle s))]
  else [].


(** The guard of [getGuidanceCommands] as a test: the object [np.nan] is
    not among the commanded values. *)
Definition guard_open (s : State) : bool :=
  negb (np_nan_in [userCommand.v_BN_W (self.command s);
                   userCommand.gamma (self.command s);
                   userCommand.sigma (self.command s)]).

(** The airspeeds are derived from the velocity and the angles they belong
    to. *)
Definition airspeed_derived (s : State) : Prop :=
  self.airspeed s
  = map3 wind_vector (self.v_BN_W s) (self.gamma s) (self.sigma s) /\
  List.length (self.v_BN_W s) = List.length (self.gamma s) /\
  List.length (self.gamma s) = List.length (self.sigma s) /\
  userCommand.airspeed (self.command s)
  = fwind_vector (userCommand.v_BN_W (self.command s))
                 (userCommand.gamma (self.command s))
                 (userCommand.sigma (self.command s)).

(** The steps the solver accepts in the two lag filters of a step. *)
Definition thrust_steps (s : State) (dt : Q) : list Q :=
  rk45_steps (__T_dot_ode (self.set_Tc s (thrust_Tc s dt)))
             (py_last (self.time s)) (py_last (self.time s) + dt)
             [py_last (self.Thrust s)].

Definition lift_steps (s : State) (dt : Q) : list Q :=
  rk45_steps (__L_dot_ode (self.set_Lc s (lift_Lc s dt)))
             (py_last (self.time s)) (py_last (self.time s) + dt)
             [py_last (self.Lift s)].

(** ** The command a step runs with *)

(** The three commanded values. *)
Definition command_values (c : userCommand.t) : pyfloat * pyfloat * pyfloat :=
  (userCommand.v_BN_W c, userCommand.gamma c, userCommand.sigma c).

(** The commanded values in force at each step of a run that starts with
    the commanded values [c]. *)
Fixpoint commands_in_force (c : pyfloat * pyfloat * pyfloat) (cs : list call)
  : list (pyfloat * pyfloat * pyfloat) :=
  match cs with
  | [] => []
  | SetCommandTrajectory v g h :: cs' => commands_in_force (v, g, h) cs'
  | StepTime _ :: cs' => c :: commands_in_force c cs'
  end.

Definition commanded_airspeed (c : pyfloat * pyfloat * pyfloat) : pyfloat :=
  fwind_vector (fst (fst c)) (snd (fst c)) (snd c).

(** * Properties *)

(** Two states with the same attributes are equal. *)
Lemma state_ext (s s' : self.t) :
  self.Vehicle s = self.Vehicle s' ->
  self.K_Tp s = self.K_Tp s' ->
  self.K_Ti s = self.K_Ti s' ->
  self.K_Lp s = self.K_Lp s' ->
  self.K_Li s = self.K_Li s' ->
  self.K_mu_p s = self.K_mu_p s' ->
  self.dt s = self.dt s' ->
  self.time s = self.time s' ->
  self.v_BN_W s = self.v_BN_W s' ->
  self.h s = self.h s' ->
  self.gamma s = self.gamma s' ->
  self.sigma s = self.sigma s' ->
  self.lat s = self.lat s' ->
  self.lon s = self.lon s' ->
  self.v_WN_N s = self.v_WN_N s' ->
  self.weight s = self.weight s' ->
  self.mass s = self.mass s' ->
  self.airspeed s = self.airspeed s' ->
  self.command s = self.command s' ->
  self.v_BN_W_c_hist s = self.v_BN_W_c_hist s' ->
  self.gamma_c_hist s = self.gamma_c_hist s' ->
  self.sigma_c_hist s = self.sigma_c_hist s' ->
  self.units s = self.units s' ->
  self.angles s = self.angles s' ->
  self.V_err s = self.V_err s' ->
  self.xT s = self.xT s' ->
  self.hdot_err s = self.hdot_err s' ->
  self.Tc s = self.Tc s' ->
  self.Thrust s = self.Thrust s' ->
  self.xL s = self.xL s' ->
  self.Lc s = self.Lc s' ->
  self.Lift s = self.Lift s' ->
  self.alpha_c s = self.alpha_c s' ->
  self.h_c s = self.h_c s' ->
  self.sigma_err s = self.sigma_err s' ->
  self.alpha s = self.alpha s' ->
  self.drag s = self.drag s' ->
  self.mu s = self.mu s' ->
  self.stdout s = self.stdout s' ->
  s = s'.
Proof.
  destruct s, s'; cbn; intros; subst; reflexivity.
Qed.

Ltac by_attributes := apply state_ext; sel; reflexivity.

(** ** The solver on a right-hand side that ignores its arguments *)

Lemma veq_refl u : veq u u.
Proof. induction u; constructor; auto with qarith. Qed.

Lemma veq_trans u v w : veq u v -> veq v w -> veq u w.
Proof.
  intros H; revert w. induction H; intros w Hw; inversion Hw; subst; constructor.
  - etransitivity; eauto.
  - apply IHForall2; assumption.
Qed.

Lemma vadd_vscale_veq y y' c a b :
  veq y y' -> a == b -> veq (vadd y (vscale a c)) (vadd y' (vscale b c)).
Proof.
  intros Hy; revert c.
  induction Hy as [|p q l l' Hpq Hl IH]; intros c Hab; destruct c;
    cbn [vadd vscale map]; constructor.
  - rewrite Hpq, Hab. reflexivity.
  - apply IH; assumption.
Qed.

Lemma vadd_vscale_assoc y c a b :
  veq (vadd (vadd y (vscale a c)) (vscale b c)) (vadd y (vscale (a + b) c)).
Proof.
  revert c. induction y; intros c; destruct c; cbn [vadd vscale map];
    constructor.
  - ring.
  - apply IHy.
Qed.

Lemma vadd_vscale_0 y c : length y = length c -> veq (vadd y (vscale 0 c)) y.
Proof.
  revert c. induction y; intros c Hl; destruct c; try discriminate;
    cbn [vadd vscale map]; constructor.
  - ring.
  - apply IHy. simpl in Hl. congruence.
Qed.

(** A weighted sum of equal stages. *)
Lemma rk_combine_const h c a K y0 y s :
  Forall (eq c) K -> length a = length K ->
  veq y (vadd y0 (vscale s c)) ->
  veq (rk_combine h a K y) (vadd y0 (vscale (s + h * Qsum a) c)).
Proof.
  unfold rk_combine. revert K y s.
  induction a as [|a1 a IH]; intros K y s HK Hlen Hy.
  - cbn [combine fold_left Qsum].
    eapply veq_trans; [exact Hy|].
    apply vadd_vscale_veq; [apply veq_refl | ring].
  - destruct K as [|k K]; [discriminate|].
    inversion HK as [|? ? Hk HK']; subst.
    cbn [combine fold_left].
    eapply veq_trans.
    + apply IH; [assumption | simpl in Hlen; congruence |].
      eapply veq_trans; [apply vadd_vscale_veq; [exact Hy | reflexivity]|].
      apply vadd_vscale_assoc.
    + apply vadd_vscale_veq; [apply veq_refl|].
      cbn [Qsum]. ring.
Qed.

(** One Runge-Kutta step of a right-hand side that ignores its arguments is
    the extrapolation [y + h*c]: the weights [RK45_B] sum to one. *)
Lemma rk_step_const f c t y h :
  (forall t' y', f t' y' = c) -> veq (rk_step f t y h) (vadd y (vscale h c)).
Proof.
  intros Hf. unfold rk_step.
  cbn [RK45_A RK45_C combine tl rk_stages app].
  rewrite !Hf. unfold RK45_B, rk_combine at 1. cbn [combine fold_left].
  eapply veq_trans.
  - apply (rk_combine_const h c (tl RK45_B) [c; c; c; c; c] y
             (vadd y (vscale (h * (35 # 384)) c)) (h * (35 # 384))).
    + repeat constructor.
    + reflexivity.
    + apply veq_refl.
  - apply vadd_vscale_veq; [apply veq_refl|].
    cbn [RK45_B tl Qsum]. ring.
Qed.

(** Any sequence of accepted steps, for such a right-hand side. *)
Lemma rk_run_const f c hs : forall t y y0 s,
  (forall t' y', f t' y' = c) ->
  veq y (vadd y0 (vscale s c)) ->
  veq (rk_run f t y hs) (vadd y0 (vscale (s + Qsum hs) c)).
Proof.
  induction hs as [|h hs IH]; intros t y y0 s Hf Hy.
  - cbn [rk_run Qsum].
    eapply veq_trans; [exact Hy|].
    apply vadd_vscale_veq; [apply veq_refl | ring].
  - cbn [rk_run].
    eapply veq_trans.
    + apply IH with (y0 := y0) (s := s + h); [assumption|].
      eapply veq_trans; [apply (rk_step_const f c); exact Hf|].
      eapply veq_trans; [apply vadd_vscale_veq; [exact Hy | reflexivity]|].
      apply vadd_vscale_assoc.
    + apply vadd_vscale_veq; [apply veq_refl|].
      cbn [Qsum]. ring.
Qed.

Lemma veq_sym u v : veq u v -> veq v u.
Proof. induction 1; constructor; auto with qarith. Qed.

(** ** Basic facts *)

Lemma py_last_append l x : py_last (append l x) = x.
Proof. unfold py_last, append. apply last_last. Qed.

Lemma set_last_append {A} (l : list A) x y : set_last (append l x) y = append l y.
Proof. unfold set_last, append. rewrite removelast_last. reflexivity. Qed.

Lemma length_append {A} (l : list A) x : List.length (append l x) = S (List.length l).
Proof. unfold append. rewrite length_app. simpl. lia. Qed.

Lemma Qgtb_true x y : Qgtb x y = true <-> y < x.
Proof.
  unfold Qgtb. rewrite negb_true_iff, <- not_true_iff_false, Qle_bool_iff.
  split; [apply Qnot_le_lt | apply Qlt_not_le].
Qed.

Lemma Qgtb_false x y : Qgtb x y = false <-> x <= y.
Proof. unfold Qgtb. rewrite negb_false_iff. apply Qle_bool_iff. Qed.

(** A value clamped from above, as the two saturation tests do. *)
Lemma clamp_le x m : (if Qgtb x m then m else x) <= m.
Proof.
  destruct (Qgtb x m) eqn:E.
  - apply Qle_refl.
  - apply Qgtb_false. exact E.
Qed.

Lemma numeric_values v g h :
  forallb is_num [v; g; h] = true ->
  exists a b c, v = Num a /\ g = Num b /\ h = Num c.
Proof.
  destruct v as [a| |], g as [b| |], h as [c| |]; cbn; try discriminate.
  intros _. exists a, b, c. repeat split.
Qed.

(** Numbers pass the guard. *)
Lemma numeric_np_nan_in v g h :
  forallb is_num [v; g; h] = true -> np_nan_in [v; g; h] = false.
Proof.
  destruct v as [a| |], g as [b| |], h as [c| |]; cbn; try discriminate.
  reflexivity.
Qed.

(** ** What each stage writes

    Each stage is a sequence of attribute updates of the state it receives.
    Its normal form is one update per attribute it writes, with the values of
    the last section; every other attribute is read through it by
    computation. *)

(** Name the outermost [let] of the goal. *)
Ltac name_let :=
  match goal with
  | |- context C [let x := ?v in @?b x] =>
      let y := fresh "st" in
      pose (y := v);
      let t := eval cbv beta in (b y) in
      let g := context C [t] in
      change g
  end.

Ltac split_ifs_eqn :=
  repeat match goal with
         | |- context [if ?b then _ else _] =>
             let E := fresh "E" in destruct b eqn:E
         end.

(** Replay the updates from the last one, keeping the outcome of each test. *)
Ltac replay_eqn :=
  repeat match goal with
         | x := _ : self.t |- _ =>
             subst x; cbv zeta; split_ifs_eqn; unfold print, t_span in *; sel;
             rewrite ?set_last_append;
             repeat match goal with
                    | H : _ = true |- _ => progress sel_in H
                    | H : _ = false |- _ => progress sel_in H
                    end
         end.

Ltac values f :=
  cbv beta delta [f]; repeat name_let;
  split_ifs_eqn; cbv beta iota zeta; replay_eqn;
  repeat match goal with x := _ |- _ => subst x end;
  sel;
  repeat match goal with
         | H : _ = true |- _ => progress sel_in H
         | H : _ = false |- _ => progress sel_in H
         end.

(** Read the attributes inside the right-hand sides, use the outcomes of the
    tests, and compare attribute by attribute. *)
Ltac finish :=
  unfold __xT_dot_ode, __T_dot_ode, __xL_dot_ode, __L_dot_ode, __m_dot_ode,
    __eom_ode, __ecef_ode in *;
  sel;
  repeat match goal with
         | H : _ = true |- _ => progress sel_in H
         | H : _ = false |- _ => progress sel_in H
         end;
  rewrite ?py_last_append in *;
  repeat match goal with
         | H : _ = true |- _ => rewrite H
         | H : _ = false |- _ => rewrite H
         end;
  by_attributes.

Lemma thrust_normal s dt :
  _thrustGuidanceSystem s dt =
  self.set_stdout
    (self.set_Thrust
       (self.set_Tc
          (self.set_xT (self.set_V_err s (thrust_V_err s)) (thrust_xT s dt))
          (thrust_Tc s dt))
       (append (self.Thrust s) (thrust_Thrust s dt)))
    (thrust_stdout s dt).
Proof.
  values _thrustGuidanceSystem.
  all: unfold thrust_stdout, thrust_Thrust, thrust_lag, thrust_Tc,
         thrust_Tc_raw, thrust_xT, thrust_V_err, t_span.
  all: finish.
Qed.

Lemma lift_normal s dt :
  _liftGuidanceSystem s dt =
  self.set_stdout
    (self.set_h_c
       (self.set_alpha_c
          (self.set_Lift
             (self.set_Lc
                (self.set_xL (self.set_hdot_err s (lift_hdot_err s))
                             (lift_xL s dt))
                (lift_Lc s dt))
             (append (self.Lift s) (lift_Lift s dt)))
          (append (self.alpha_c s) (lift_alpha_c s dt)))
       (append (self.h_c s) (lift_h_c s dt)))
    (lift_stdout s dt).
Proof.
  values _liftGuidanceSystem.
  all: unfold lift_stdout, lift_h_c, lift_alpha_c, lift_Lift, lift_lag,
         lift_Lc, lift_Lc_raw, lift_xL, lift_hdot_err, lift_L_max, t_span.
  all: finish.
Qed.

Lemma heading_normal s dt :
  _headingGuidanceSystem s dt =
  self.set_stdout
    (self.set_mu (self.set_sigma_err s (heading_sigma_err s))
                 (append (self.mu s) (heading_mu s)))
    (heading_stdout s).
Proof.
  values _headingGuidanceSystem.
  all: unfold heading_stdout, heading_mu, heading_mu_raw, heading_sigma_err,
         _calculateMu in *.
  all: finish.
Qed.

Lemma eom_normal s dt :
  getEquationsOfMotion_Ideal s dt =
  let d := step_size s dt in
  self.set_h
    (self.set_lon
       (self.set_lat
          (self.set_airspeed
             (self.set_sigma
                (self.set_gamma
                   (self.set_v_BN_W
                      (self.set_drag
                         (self.set_alpha
                            (self.set_mass
                               s (append (self.mass s) (eom_mass s d)))
                            (append (self.alpha s) (_calculateAlpha s)))
                         (append (self.drag s) (_calculateDrag s)))
                      (append (self.v_BN_W s) (nth 0 (eom_sol s d) 0)))
                   (append (self.gamma s) (nth 1 (eom_sol s d) 0)))
                (append (self.sigma s) (nth 2 (eom_sol s d) 0)))
             (append (self.airspeed s)
                     (wind_vector (nth 0 (eom_sol s d) 0)
                                  (nth 1 (eom_sol s d) 0)
                                  (nth 2 (eom_sol s d) 0))))
          (append (self.lat s) (nth 0 (ecef_sol s d) 0)))
       (append (self.lon s) (nth 1 (ecef_sol s d) 0)))
    (append (self.h s) (nth 2 (ecef_sol s d) 0)).
Proof.
  values getEquationsOfMotion_Ideal.
  cbv zeta.
  unfold ecef_sol, ecef_state, eom_sol, eom_state, eom_mass, step_size,
    _calculateAlpha, _calculateDrag, t_span.
  finish.
Qed.

(** ** The guard and the order of a step *)

Lemma numeric_guard s : numeric_command s -> guard_passes s.
Proof. apply numeric_np_nan_in. Qed.

Lemma getGuidanceCommands_passes s dt :
  guard_passes s -> getGuidanceCommands s dt = guidance s (step_size s dt).
Proof.
  unfold guard_passes, getGuidanceCommands, guidance, step_size.
  intros ->. reflexivity.
Qed.

Lemma getGuidanceCommands_guidance s dt :
  numeric_command s ->
  getGuidanceCommands s dt = guidance s (step_size s dt).
Proof.
  intros H. apply getGuidanceCommands_passes, numeric_guard, H.
Qed.

Lemma getGuidanceCommands_nan s dt :
  guard_passes s \/ getGuidanceCommands s dt = print s NoUserTrajectory.
Proof.
  unfold guard_passes, getGuidanceCommands.
  destruct (np_nan_in _); [right | left]; reflexivity.
Qed.

Lemma stepTime_unfold s dt :
  stepTime s dt =
  let d := step_size s dt in
  let g := getGuidanceCommands s (Some d) in
  let e := getEquationsOfMotion_Ideal g (Some d) in
  let c := self.set_command e (userCommand.save_history (self.command e)) in
  self.set_time c (append (self.time c) (py_last (self.time c) + d)).
Proof. reflexivity. Qed.


(** ** What each stage reads *)

Ltac unfold_values :=
  unfold thrust_stdout, thrust_Thrust, thrust_lag, thrust_Tc, thrust_Tc_raw,
    thrust_xT, thrust_V_err,
    lift_stdout, lift_h_c, lift_alpha_c, lift_Lift, lift_lag, lift_Lc,
    lift_Lc_raw, lift_xL, lift_hdot_err, lift_L_max,
    heading_stdout, heading_mu, heading_mu_raw, heading_sigma_err,
    _calculateMu, t_span,
    __xT_dot_ode, __T_dot_ode, __xL_dot_ode, __L_dot_ode in *.

Lemma lift_frame a b dt :
  lift_reads a b ->
  lift_hdot_err a = lift_hdot_err b /\ lift_xL a dt = lift_xL b dt /\
  lift_Lc a dt = lift_Lc b dt /\ lift_Lift a dt = lift_Lift b dt /\
  lift_L_max a = lift_L_max b.
Proof.
  intros (Hc & Hg & Hx & Hm & Hi & Hp & Hv & HV & HL & Ht & Ha & Hh).
  unfold_values. sel. rewrite Hc, Hg, Hx, Hm, Hi, Hp, Hv, HV, HL, Ht.
  repeat split.
Qed.

Lemma heading_frame a b :
  heading_reads a b ->
  heading_sigma_err a = heading_sigma_err b /\ heading_mu a = heading_mu b.
Proof.
  intros (Hc & Hs & Hk & Hm).
  unfold_values. sel. rewrite Hc, Hs, Hk, Hm. repeat split.
Qed.

(** The attributes of the state after the three laws. *)
Lemma guidance_attributes s dt :
  let g := guidance s dt in
  self.Thrust g = append (self.Thrust s) (thrust_Thrust s dt) /\
  self.Lift g = append (self.Lift s) (lift_Lift s dt) /\
  self.mu g = append (self.mu s) (heading_mu s) /\
  self.V_err g = thrust_V_err s /\
  self.hdot_err g = lift_hdot_err s /\
  self.sigma_err g = heading_sigma_err s /\
  self.xT g = thrust_xT s dt /\ self.Tc g = thrust_Tc s dt /\
  self.xL g = lift_xL s dt /\ self.Lc g = lift_Lc s dt /\
  self.Vehicle g = self.Vehicle s /\ self.mass g = self.mass s /\
  self.time g = self.time s /\ self.command g = self.command s /\
  self.dt g = self.dt s.
Proof.
  cbv zeta. unfold guidance.
  rewrite thrust_normal, lift_normal, heading_normal. sel.
  match goal with
  | |- context [lift_Lift ?a dt] =>
      destruct (lift_frame a s dt) as (-> & -> & -> & -> & _);
      [unfold lift_reads; sel; repeat split|]
  end.
  match goal with
  | |- context [heading_mu ?a] =>
      destruct (heading_frame a s) as (-> & ->);
      [unfold heading_reads; sel; repeat split|]
  end.
  repeat split.
Qed.

(** The attributes the guidance laws leave. *)
Lemma guidance_frame s dt :
  let g := guidance s dt in
  self.time g = self.time s /\ self.mass g = self.mass s /\
  self.v_BN_W g = self.v_BN_W s /\ self.gamma g = self.gamma s /\
  self.sigma g = self.sigma s /\ self.lat g = self.lat s /\
  self.lon g = self.lon s /\ self.h g = self.h s /\
  self.airspeed g = self.airspeed s /\ self.alpha g = self.alpha s /\
  self.drag g = self.drag s.
Proof.
  cbv zeta. unfold guidance.
  rewrite thrust_normal, lift_normal, heading_normal. sel. repeat split.
Qed.

Lemma getGuidanceCommands_frame s dt :
  let g := getGuidanceCommands s dt in
  self.mass g = self.mass s /\ self.time g = self.time s /\
  self.command g = self.command s /\ self.Vehicle g = self.Vehicle s /\
  self.dt g = self.dt s.
Proof.
  cbv zeta. destruct (getGuidanceCommands_nan s dt) as [H | ->].
  - rewrite getGuidanceCommands_passes by exact H.
    destruct (guidance_attributes s (step_size s dt))
      as (_ & _ & _ & _ & _ & _ & _ & _ & _ & _ & -> & -> & -> & -> & ->).
    repeat split.
  - repeat split.
Qed.

(** The equations of motion and the bookkeeping of [stepTime] leave what the
    guidance laws wrote. *)
Lemma stepTime_guidance_attributes s dt :
  let d := step_size s dt in
  let g := getGuidanceCommands s (Some d) in
  let s' := stepTime s dt in
  self.Thrust s' = self.Thrust g /\ self.Lift s' = self.Lift g /\
  self.mu s' = self.mu g /\ self.V_err s' = self.V_err g /\
  self.hdot_err s' = self.hdot_err g /\ self.sigma_err s' = self.sigma_err g /\
  self.xT s' = self.xT g /\ self.Tc s' = self.Tc g /\
  self.xL s' = self.xL g /\ self.Lc s' = self.Lc g /\
  self.Vehicle s' = self.Vehicle g /\ self.dt s' = self.dt g /\
  self.stdout s' = self.stdout g /\
  self.mass s' = append (self.mass g) (eom_mass g d) /\
  self.time s' = append (self.time g) (py_last (self.time g) + d).
Proof.
  cbv zeta. rewrite stepTime_unfold. cbv zeta.
  change (step_size s (Some (step_size s dt))) with (step_size s dt).
  generalize (getGuidanceCommands s (Some (step_size s dt))). intros g.
  rewrite eom_normal. cbv zeta. sel. repeat split.
Qed.


(** The histories the equations of motion and the clock append to. *)
Lemma stepTime_eom_attributes s dt :
  let d := step_size s dt in
  let g := getGuidanceCommands s (Some d) in
  let s' := stepTime s dt in
  grows (self.mass g) (self.mass s') /\
  grows (self.v_BN_W g) (self.v_BN_W s') /\
  grows (self.gamma g) (self.gamma s') /\
  grows (self.sigma g) (self.sigma s') /\
  grows (self.lat g) (self.lat s') /\ grows (self.lon g) (self.lon s') /\
  grows (self.h g) (self.h s') /\
  grows (self.airspeed g) (self.airspeed s') /\
  grows (self.alpha g) (self.alpha s') /\ grows (self.drag g) (self.drag s') /\
  grows (self.time g) (self.time s') /\
  userCommand.v_BN_W (self.command s') = userCommand.v_BN_W (self.command g) /\
  userCommand.gamma (self.command s') = userCommand.gamma (self.command g) /\
  userCommand.sigma (self.command s') = userCommand.sigma (self.command g) /\
  userCommand.v_BN_W_history (self.command s')
  = append (userCommand.v_BN_W_history (self.command g))
           (userCommand.v_BN_W (self.command g)) /\
  userCommand.gamma_history (self.command s')
  = append (userCommand.gamma_history (self.command g))
           (userCommand.gamma (self.command g)) /\
  userCommand.sigma_history (self.command s')
  = append (userCommand.sigma_history (self.command g))
           (userCommand.sigma (self.command g)).
Proof.
  cbv zeta. rewrite stepTime_unfold. cbv zeta.
  change (step_size s (Some (step_size s dt))) with (step_size s dt).
  generalize (getGuidanceCommands s (Some (step_size s dt))). intros g.
  rewrite eom_normal. cbv zeta. sel. unfold grows.
  repeat split; eexists; reflexivity.
Qed.

(** ** The histories *)

Lemma grows_length l l' n : grows l l' -> List.length l = n -> List.length l' = S n.
Proof. intros [x ->] <-. apply length_append. Qed.

Lemma step_appends_lengths s s' n :
  step_appends s s' -> hist_lengths s n -> hist_lengths s' (S n).
Proof.
  unfold step_appends, hist_lengths. intros H L.
  repeat match goal with
         | H : _ /\ _ |- _ => destruct H
         end.
  repeat split; eapply grows_length; eassumption.
Qed.

Lemma stepTime_appends s dt :
  numeric_command s -> step_appends s (stepTime s dt).
Proof.
  intros Hn.
  destruct (stepTime_eom_attributes s dt)
    as (Hm & Hv & Hg & Hs & Hla & Hlo & Hh & Ha & Hal & Hd & Ht & _).
  destruct (stepTime_guidance_attributes s dt) as (HT & HL & Hmu & _).
  cbv zeta in *.
  rewrite getGuidanceCommands_guidance in * by exact Hn.
  change (step_size s (Some (step_size s dt))) with (step_size s dt) in *.
  destruct (guidance_frame s (step_size s dt))
    as (Ft & Fm & Fv & Fg & Fs & Fla & Flo & Fh & Fa & Fal & Fd).
  destruct (guidance_attributes s (step_size s dt))
    as (GT & GL & Gmu & _).
  cbv zeta in *.
  rewrite Ft in Ht. rewrite Fm in Hm. rewrite Fv in Hv. rewrite Fg in Hg.
  rewrite Fs in Hs. rewrite Fla in Hla. rewrite Flo in Hlo. rewrite Fh in Hh.
  rewrite Fa in Ha. rewrite Fal in Hal. rewrite Fd in Hd.
  unfold step_appends. rewrite HT, HL, Hmu, GT, GL, Gmu.
  repeat split; try assumption; eexists; reflexivity.
Qed.

(** The guard fires: the guidance histories stay, the clock advances. *)
Lemma stepTime_nan s dt :
  ~ guard_passes s ->
  self.time (stepTime s dt)
  = append (self.time s) (py_last (self.time s) + step_size s dt) /\
  self.Thrust (stepTime s dt) = self.Thrust s /\
  self.Lift (stepTime s dt) = self.Lift s /\
  self.mu (stepTime s dt) = self.mu s /\
  self.stdout (stepTime s dt) = self.stdout s ++ [NoUserTrajectory].
Proof.
  intros Hn.
  destruct (stepTime_guidance_attributes s dt)
    as (-> & -> & -> & _ & _ & _ & _ & _ & _ & _ & _ & _ & -> & _ & ->).
  destruct (getGuidanceCommands_nan s (Some (step_size s dt))) as [H | ->];
    [contradiction|].
  repeat split.
Qed.

(** The commanded values are written by [setCommandTrajectory] only. *)
Lemma stepTime_numeric s dt :
  numeric_command s -> numeric_command (stepTime s dt).
Proof.
  unfold numeric_command.
  destruct (stepTime_eom_attributes s dt)
    as (_ & _ & _ & _ & _ & _ & _ & _ & _ & _ & _ & -> & -> & -> & _).
  destruct (getGuidanceCommands_frame s (Some (step_size s dt)))
    as (_ & _ & -> & _).
  trivial.
Qed.

Lemma setCommandTrajectory_numeric s v g h :
  forallb is_num [v; g; h] = true ->
  numeric_command (setCommandTrajectory s v g h).
Proof. intros H. exact H. Qed.

Lemma setCommandTrajectory_lengths s v g h n :
  hist_lengths s n -> hist_lengths (setCommandTrajectory s v g h) n.
Proof. intros H. exact H. Qed.

Lemma init_lengths vehicle TF IC time dt :
  hist_lengths (__init__ vehicle TF IC time dt) 1.
Proof. repeat split. Qed.

Lemma init_numeric vehicle TF IC time dt :
  numeric_command (__init__ vehicle TF IC time dt).
Proof. reflexivity. Qed.

Lemma run_lengths cs : forall s n,
  Forall numeric_call cs -> numeric_command s -> hist_lengths s n ->
  hist_lengths (run s cs) (n + steps_taken cs).
Proof.
  induction cs as [|c cs IH]; intros s n Hcs Hs L.
  - cbn. rewrite Nat.add_0_r. exact L.
  - inversion Hcs as [|? ? Hc Hcs']; subst.
    destruct c as [v g h | dt].
    + cbn [run fold_left perform]. change (steps_taken _) with (steps_taken cs).
      apply IH; [assumption | | ].
      * apply setCommandTrajectory_numeric. exact Hc.
      * apply setCommandTrajectory_lengths. exact L.
    + cbn [run fold_left perform].
      change (steps_taken (StepTime dt :: cs)) with (S (steps_taken cs)).
      rewrite Nat.add_succ_r. change (S (n + steps_taken cs))
        with (S n + steps_taken cs)%nat.
      apply IH; [assumption | | ].
      * apply stepTime_numeric. exact Hs.
      * eapply step_appends_lengths; [apply stepTime_appends|]; assumption.
Qed.

Lemma run_app s cs1 cs2 : run s (cs1 ++ cs2) = run (run s cs1) cs2.
Proof. apply fold_left_app. Qed.

Lemma run_numeric cs : forall s,
  Forall numeric_call cs -> numeric_command s -> numeric_command (run s cs).
Proof.
  induction cs as [|c cs IH]; intros s Hcs Hs; [exact Hs|].
  inversion Hcs as [|? ? Hc Hcs']; subst.
  cbn [run fold_left]. apply IH; [exact Hcs'|].
  destruct c as [v g h | dt]; cbn [perform].
  - apply setCommandTrajectory_numeric. exact Hc.
  - apply stepTime_numeric. exact Hs.
Qed.

(** The guard finds the object [np.nan]: the laws are skipped, the rest of
    the step runs. *)
Lemma getGuidanceCommands_fires s dt :
  np_nan_in [userCommand.v_BN_W (self.command s);
             userCommand.gamma (self.command s);
             userCommand.sigma (self.command s)] = true ->
  getGuidanceCommands s dt = print s NoUserTrajectory.
Proof. unfold getGuidanceCommands. intros ->. reflexivity. Qed.

Lemma stepTime_skips s dt :
  np_nan_in [userCommand.v_BN_W (self.command s);
             userCommand.gamma (self.command s);
             userCommand.sigma (self.command s)] = true ->
  skipped_step s (stepTime s dt).
Proof.
  intros Hn.
  destruct (stepTime_eom_attributes s dt)
    as (Hm & Hv & Hg & Hs & Hla & Hlo & Hh & Ha & Hal & Hd & Ht & _).
  destruct (stepTime_guidance_attributes s dt) as (HT & HL & Hmu & _).
  cbv zeta in *.
  rewrite getGuidanceCommands_fires in * by exact Hn.
  unfold print in *. sel_in Hm. sel_in Hv. sel_in Hg. sel_in Hs. sel_in Hla.
  sel_in Hlo. sel_in Hh. sel_in Ha. sel_in Hal. sel_in Hd. sel_in Ht.
  sel_in HT. sel_in HL. sel_in Hmu.
  unfold skipped_step. rewrite HT, HL, Hmu.
  repeat split; assumption.
Qed.

(** C2 (amended).  After construction and after every call of a run whose
    commanded trajectories hold numbers, the fourteen time-indexed histories
    (time, mass, inertial velocity, flight-path angle, heading, latitude,
    longitude, altitude, airspeed, angle of attack, drag, bank angle, thrust,
    lift) have the same length, the number of steps taken plus one; and each
    step of the run appends exactly one element to each of them.  The
    equality is lost when the object [np.nan] is commanded: the guard of
    [getGuidanceCommands], a membership test that only that object satisfies,
    then skips the guidance laws, and the step appends one element to the
    time, the mass, the velocity, the two angles, the position, the
    airspeed, the angle of attack and the drag, and none to the thrust, the
    lift and the bank angle. *)
Theorem history_lengths vehicle TF IC time dt cs :
  Forall numeric_call cs ->
  let s0 := __init__ vehicle TF IC time dt in
  hist_lengths (run s0 cs) (S (steps_taken cs)) /\
  (forall cs1 c cs2,
      cs = cs1 ++ StepTime c :: cs2 ->
      step_appends (run s0 cs1) (run s0 (cs1 ++ [StepTime c]))) /\
  (forall (s : State) (d : option Q),
      np_nan_in [userCommand.v_BN_W (self.command s);
                 userCommand.gamma (self.command s);
                 userCommand.sigma (self.command s)] = true ->
      skipped_step s (stepTime s d) /\
      List.length (self.time (stepTime s d)) = S (List.length (self.time s)) /\
      List.length (self.Thrust (stepTime s d)) = List.length (self.Thrust s)).
Proof.
  intros Hcs s0. split; [|split].
  - apply (run_lengths cs _ 1%nat Hcs).
    + apply init_numeric.
    + apply init_lengths.
  - intros cs1 c cs2 E. rewrite run_app. cbn [run fold_left perform].
    apply stepTime_appends. apply run_numeric; [|apply init_numeric].
    rewrite E in Hcs. apply Forall_app in Hcs. apply Hcs.
  - intros s d Hn. pose proof (stepTime_skips s d Hn) as H.
    split; [exact H|].
    destruct H as ((x & ->) & _ & _ & _ & _ & _ & _ & _ & _ & _ & _ & ->
                   & _).
    split; [apply length_append | reflexivity].
Qed.

(** ** Saturation *)

Lemma Qabs_sign_mult x m : 0 <= m -> Qabs (np_sign x * m) <= m.
Proof.
  intros Hm. unfold np_sign.
  destruct (Qgtb x 0); [|destruct (Qgtb 0 x)]; rewrite Qabs_Qmult;
    rewrite (Qabs_pos m Hm).
  - change (Qabs 1) with 1. lra.
  - change (Qabs (-(1))) with 1. lra.
  - change (Qabs 0) with 0. lra.
Qed.

Lemma heading_mu_bound s :
  0 <= FixedWingVehicle.mu_max (self.Vehicle s) ->
  Qabs (heading_mu s) <= FixedWingVehicle.mu_max (self.Vehicle s).
Proof.
  intros Hm. unfold heading_mu.
  destruct (Qgtb _ _) eqn:E.
  - apply Qabs_sign_mult. exact Hm.
  - apply Qgtb_false. exact E.
Qed.

(** C1 (amended).  After every step taken with a commanded trajectory of
    numbers, the newest thrust is at most [T_max], the newest lift is at most
    [v^2 * K_Lmax] for the inertial velocity [v] committed before the step,
    and, for a non-negative [mu_max], the newest bank angle is within
    [[-mu_max, mu_max]].  A value above its limit is replaced by the limit and
    any other value is kept as it is; the step is never refused. *)
Theorem saturation_upper_bounds (s : State) (dt : option Q) :
  numeric_command s ->
  0 <= FixedWingVehicle.mu_max (self.Vehicle s) ->
  let s' := stepTime s dt in
  let d := step_size s dt in
  let T_max := FixedWingVehicle.T_max (self.Vehicle s) in
  let L_max :=
    py_last (self.v_BN_W s) ^ 2 * FixedWingVehicle.K_Lmax (self.Vehicle s) in
  let mu_max := FixedWingVehicle.mu_max (self.Vehicle s) in
  py_last (self.Thrust s') <= T_max /\
  py_last (self.Lift s') <= L_max /\
  Qabs (py_last (self.mu s')) <= mu_max /\
  py_last (self.Thrust s')
  = (if Qgtb (thrust_lag s d) T_max then T_max else thrust_lag s d) /\
  py_last (self.Lift s')
  = (if Qgtb (lift_lag s d) L_max then L_max else lift_lag s d) /\
  py_last (self.mu s')
  = (if Qgtb (Qabs (heading_mu_raw s)) mu_max
     then np_sign (heading_mu_raw s) * mu_max else heading_mu_raw s).
Proof.
  intros Hn Hm. cbv zeta.
  destruct (stepTime_guidance_attributes s dt)
    as (-> & -> & -> & _).
  rewrite getGuidanceCommands_guidance by assumption.
  change (step_size s (Some (step_size s dt))) with (step_size s dt).
  destruct (guidance_attributes s (step_size s dt))
    as (-> & -> & -> & _).
  rewrite !py_last_append.
  split; [apply clamp_le|].
  split; [apply clamp_le|].
  split; [apply heading_mu_bound; exact Hm|].
  repeat split.
Qed.

(** C4.  The thrust command is [K_Ti*xT + K_Tp*mass*V_err], with the updated
    integral memory [xT] and the velocity error of this evaluation, replaced
    by [T_max] when it exceeds [T_max] and kept otherwise: a negative command
    is not raised to zero. *)
Theorem thrust_command_saturation (s : State) (dt vc : Q) :
  userCommand.v_BN_W (self.command s) = Num vc ->
  let s' := _thrustGuidanceSystem s dt in
  let V_err := vc - py_last (self.v_BN_W s) in
  let Tc := self.K_Ti s * self.xT s'
            + self.K_Tp s * py_last (self.mass s) * V_err in
  let T_max := FixedWingVehicle.T_max (self.Vehicle s) in
  self.V_err s' = Num V_err /\
  self.Tc s' = (if Qgtb Tc T_max then T_max else Tc) /\
  (Tc <= T_max -> self.Tc s' = Tc) /\
  (T_max < Tc -> self.Tc s' = T_max) /\
  (Tc < 0 -> 0 <= T_max -> self.Tc s' = Tc /\ self.Tc s' < 0).
Proof.
  intros Hv. cbv zeta. rewrite thrust_normal. sel.
  unfold thrust_Tc, thrust_Tc_raw, thrust_V_err. rewrite Hv.
  cbn [fsub flift2 num].
  set (Tc := self.K_Ti s * thrust_xT s dt
             + self.K_Tp s * py_last (self.mass s)
               * (vc - py_last (self.v_BN_W s))).
  split; [reflexivity|]. split; [reflexivity|].
  split; [|split].
  - intros H. apply Qgtb_false in H. rewrite H. reflexivity.
  - intros H. apply Qgtb_true in H. rewrite H. reflexivity.
  - intros H0 HT.
    assert (H : Qgtb Tc (FixedWingVehicle.T_max (self.Vehicle s)) = false)
      by (apply Qgtb_false; lra).
    rewrite H. split; [reflexivity | exact H0].
Qed.

(** ** The bank angle *)

Lemma np_sign_nonneg x : 0 <= x -> 0 <= np_sign x.
Proof.
  intros H. unfold np_sign.
  destruct (Qgtb x 0); [lra|].
  destruct (Qgtb 0 x) eqn:E; [|lra].
  apply Qgtb_true in E. lra.
Qed.

Lemma np_sign_nonpos x : x <= 0 -> np_sign x <= 0.
Proof.
  intros H. unfold np_sign.
  destruct (Qgtb x 0) eqn:E; [apply Qgtb_true in E; lra|].
  destruct (Qgtb 0 x); lra.
Qed.

(** C6.  The bank angle is [K_mu_p * (v_c / g) * sigma_err], replaced by
    [sign * mu_max] when its magnitude exceeds [mu_max]: for a non-negative
    [mu_max] it lies in [[-mu_max, mu_max]] and keeps its sign.  The loop
    writes the heading error, the bank-angle history and the diagnostics and
    nothing else: no integral memory, no lag filter.  It reads the gain, the
    command, the newest heading and [mu_max]; it reads neither [omega_mu], nor
    the step size, nor the earlier bank angles. *)
Theorem bank_angle_law (s : State) (dt vc sc : Q) :
  userCommand.v_BN_W (self.command s) = Num vc ->
  userCommand.sigma (self.command s) = Num sc ->
  0 <= FixedWingVehicle.mu_max (self.Vehicle s) ->
  let s' := _headingGuidanceSystem s dt in
  let mu_max := FixedWingVehicle.mu_max (self.Vehicle s) in
  let sigma_err := sc - py_last (self.sigma s) in
  let mu := self.K_mu_p s * (vc / const_gravity) * sigma_err in
  self.sigma_err s' = Num sigma_err /\
  self.mu s'
  = append (self.mu s)
           (if Qgtb (Qabs mu) mu_max then np_sign mu * mu_max else mu) /\
  - mu_max <= py_last (self.mu s') <= mu_max /\
  (0 <= mu -> 0 <= py_last (self.mu s')) /\
  (mu <= 0 -> py_last (self.mu s') <= 0) /\
  (self.xT s' = self.xT s /\ self.xL s' = self.xL s /\
   self.Tc s' = self.Tc s /\ self.Lc s' = self.Lc s /\
   self.Thrust s' = self.Thrust s /\ self.Lift s' = self.Lift s) /\
  (forall (a : State) (dt' : Q),
      heading_reads a s ->
      py_last (self.mu (_headingGuidanceSystem a dt')) = py_last (self.mu s'))
  /\
  (forall w : Q,
      heading_reads
        (self.set_Vehicle
           s (FixedWingVehicle.set_omega_mu (self.Vehicle s) w)) s).
Proof.
  intros Hv Hs Hm. cbv zeta. rewrite heading_normal. sel.
  rewrite py_last_append.
  assert (Hraw : heading_mu_raw s
                 = self.K_mu_p s * (vc / const_gravity)
                   * (sc - py_last (self.sigma s))).
  { unfold heading_mu_raw, heading_sigma_err, _calculateMu. sel.
    rewrite Hv, Hs. reflexivity. }
  pose proof (heading_mu_bound s Hm) as Hb.
  unfold heading_mu in *. rewrite Hraw in *.
  set (mu := self.K_mu_p s * (vc / const_gravity)
             * (sc - py_last (self.sigma s))) in *.
  split; [unfold heading_sigma_err; rewrite Hs; reflexivity|].
  split; [reflexivity|].
  split; [apply Qabs_Qle_condition; exact Hb|].
  split; [|split; [|split; [repeat split|split]]].
  - intros H0. destruct (Qgtb _ _); [|exact H0].
    apply Qmult_le_0_compat; [apply np_sign_nonneg; exact H0 | exact Hm].
  - intros H0. destruct (Qgtb _ _); [|exact H0].
    pose proof (np_sign_nonpos mu H0).
    setoid_replace 0 with (0 * FixedWingVehicle.mu_max (self.Vehicle s))
      by ring.
    apply Qmult_le_compat_r; assumption.
  - intros a dt' Ha. rewrite heading_normal. sel. rewrite py_last_append.
    destruct (heading_frame a s Ha) as (_ & ->).
    unfold heading_mu. rewrite Hraw. reflexivity.
  - intros w. unfold heading_reads. sel. repeat split.
Qed.

(** ** setCommandTrajectory *)

(** C5.  [setCommandTrajectory(velocity, flight_path_angle, heading)] stores
    the three values, recomputes the commanded airspeed from them, and
    recomputes the three error terms against the newest committed state:
    velocity error = commanded - current inertial velocity, climb-rate error
    = commanded velocity * (sin(commanded gamma) - sin(current gamma)),
    heading error = commanded sigma - current sigma.  It appends to no
    history: the command acts at the next step, whose guidance laws read
    it. *)
Theorem setCommandTrajectory_spec (s : State) (velocity fpa heading : Q)
        (dt : option Q) :
  let s' := setCommandTrajectory s (Num velocity) (Num fpa) (Num heading) in
  userCommand.v_BN_W (self.command s') = Num velocity /\
  userCommand.gamma (self.command s') = Num fpa /\
  userCommand.sigma (self.command s') = Num heading /\
  userCommand.airspeed (self.command s')
  = Num (wind_vector velocity fpa heading) /\
  self.V_err s' = Num (velocity - py_last (self.v_BN_W s)) /\
  self.hdot_err s'
  = Num (velocity * (np_sin fpa - np_sin (py_last (self.gamma s)))) /\
  self.sigma_err s' = Num (heading - py_last (self.sigma s)) /\
  (self.time s' = self.time s /\ self.Thrust s' = self.Thrust s /\
   self.Lift s' = self.Lift s /\ self.mu s' = self.mu s /\
   self.v_BN_W s' = self.v_BN_W s /\ self.gamma s' = self.gamma s /\
   self.sigma s' = self.sigma s /\ self.mass s' = self.mass s) /\
  (self.V_err (stepTime s' dt) = Num (velocity - py_last (self.v_BN_W s)) /\
   self.hdot_err (stepTime s' dt)
   = Num (velocity * (np_sin fpa - np_sin (py_last (self.gamma s)))) /\
   self.sigma_err (stepTime s' dt)
   = Num (heading - py_last (self.sigma s))).
Proof.
  cbv zeta.
  assert (Hn : numeric_command
                 (setCommandTrajectory s (Num velocity) (Num fpa)
                                       (Num heading))) by reflexivity.
  do 7 (split; [reflexivity|]).
  split; [repeat split|].
  destruct (stepTime_guidance_attributes
              (setCommandTrajectory s (Num velocity) (Num fpa) (Num heading))
              dt) as (_ & _ & _ & -> & -> & -> & _).
  rewrite getGuidanceCommands_guidance by exact Hn.
  destruct (guidance_attributes
              (setCommandTrajectory s (Num velocity) (Num fpa) (Num heading))
              (step_size
                 (setCommandTrajectory s (Num velocity) (Num fpa)
                                       (Num heading))
                 (Some
                    (step_size
                       (setCommandTrajectory s (Num velocity) (Num fpa)
                                             (Num heading)) dt))))
    as (_ & _ & _ & -> & -> & -> & _).
  repeat split.
Qed.

(** C10.  [setCommandTrajectory] writes the commanded velocity, flight-path
    angle, heading and airspeed and the three error terms, and nothing else:
    every history, the integrator memories [xT] and [xL], the time, the step
    size and the histories of the command itself are as before the call. *)
Theorem setCommandTrajectory_writes (s : State)
        (velocity flight_path_angle heading : pyfloat) :
  let s' := setCommandTrajectory s velocity flight_path_angle heading in
  setCommandTrajectory_frame s s' /\
  userCommand.v_BN_W_history (self.command s')
  = userCommand.v_BN_W_history (self.command s) /\
  userCommand.gamma_history (self.command s')
  = userCommand.gamma_history (self.command s) /\
  userCommand.sigma_history (self.command s')
  = userCommand.sigma_history (self.command s) /\
  userCommand.airspeed_history (self.command s')
  = userCommand.airspeed_history (self.command s) /\
  s' = self.set_sigma_err
         (self.set_hdot_err
            (self.set_V_err
               (self.set_command s (self.command s')) (self.V_err s'))
            (self.hdot_err s'))
         (self.sigma_err s').
Proof.
  cbv zeta. unfold setCommandTrajectory_frame. repeat split.
Qed.

(** ** The order of a step *)

(** C9.  A step evaluates the guidance laws, then integrates the equations
    of motion, then appends the command to its history, then advances the
    clock by [dt].  The guidance laws of the step compute their error terms
    from the command and the state committed before the step; the fuel burn
    integrates the thrust the guidance laws of the same step appended; the
    command recorded is the one the step ran with; the new time is the old
    one plus [dt]. *)
Theorem step_order (s : State) (dt : option Q) :
  let d := step_size s dt in
  let g := getGuidanceCommands s (Some d) in
  let e := getEquationsOfMotion_Ideal g (Some d) in
  let c := self.set_command e (userCommand.save_history (self.command e)) in
  let s' := stepTime s dt in
  s' = self.set_time c (append (self.time c) (py_last (self.time c) + d)) /\
  (numeric_command s ->
   self.V_err s'
   = fsub (userCommand.v_BN_W (self.command s))
          (Num (py_last (self.v_BN_W s))) /\
   self.hdot_err s'
   = fmul (userCommand.v_BN_W (self.command s))
          (fsub (fsin (userCommand.gamma (self.command s)))
                (fsin (Num (py_last (self.gamma s))))) /\
   self.sigma_err s'
   = fsub (userCommand.sigma (self.command s))
          (Num (py_last (self.sigma s)))) /\
  self.mass s'
  = append (self.mass s)
           (py_last
              (solve_ivp (__m_dot_ode g) (t_span s d)
                         [py_last (self.mass s)])) /\
  py_last (self.Thrust s') = py_last (self.Thrust g) /\
  userCommand.v_BN_W_history (self.command s')
  = append (userCommand.v_BN_W_history (self.command s))
           (userCommand.v_BN_W (self.command s)) /\
  userCommand.gamma_history (self.command s')
  = append (userCommand.gamma_history (self.command s))
           (userCommand.gamma (self.command s)) /\
  userCommand.sigma_history (self.command s')
  = append (userCommand.sigma_history (self.command s))
           (userCommand.sigma (self.command s)) /\
  self.time s' = append (self.time s) (py_last (self.time s) + d).
Proof.
  cbv zeta. split; [apply stepTime_unfold|].
  destruct (stepTime_guidance_attributes s dt)
    as (HT & _ & _ & HV & Hh & Hs & _ & _ & _ & _ & _ & _ & _ & Hm & Ht).
  cbv zeta in *.
  destruct (getGuidanceCommands_frame s (Some (step_size s dt)))
    as (Gm & Gt & Gc & GV & Gd).
  split; [|split; [|split; [|split; [|split; [|split]]]]].
  - intros Hn. rewrite HV, Hh, Hs.
    rewrite getGuidanceCommands_guidance by exact Hn.
    destruct (guidance_attributes
                s (step_size s (Some (step_size s dt))))
      as (_ & _ & _ & -> & -> & -> & _).
    repeat split.
  - rewrite Hm, Gm. unfold eom_mass, t_span. rewrite Gm, Gt. reflexivity.
  - rewrite HT. reflexivity.
  - rewrite stepTime_unfold. cbv zeta.
    generalize (getGuidanceCommands s (Some (step_size s dt))) Gc.
    intros g Hg. rewrite eom_normal. cbv zeta. sel. rewrite Hg. reflexivity.
  - rewrite stepTime_unfold. cbv zeta.
    generalize (getGuidanceCommands s (Some (step_size s dt))) Gc.
    intros g Hg. rewrite eom_normal. cbv zeta. sel. rewrite Hg. reflexivity.
  - rewrite stepTime_unfold. cbv zeta.
    generalize (getGuidanceCommands s (Some (step_size s dt))) Gc.
    intros g Hg. rewrite eom_normal. cbv zeta. sel. rewrite Hg. reflexivity.
  - rewrite Ht, Gt. reflexivity.
Qed.

(** ** Stepping before any command *)

Lemma stage_stdout a dt :
  self.stdout (_thrustGuidanceSystem a dt) = thrust_stdout a dt /\
  self.stdout (_liftGuidanceSystem a dt) = lift_stdout a dt /\
  self.stdout (_headingGuidanceSystem a dt) = heading_stdout a.
Proof.
  rewrite thrust_normal, lift_normal, heading_normal. sel. repeat split.
Qed.

Lemma In_snoc_NoUserTrajectory (l : list diag) d :
  d <> NoUserTrajectory ->
  In NoUserTrajectory (l ++ [d]) -> In NoUserTrajectory l.
Proof.
  intros Hd H. apply in_app_or in H. destruct H as [H | [H | []]];
    [exact H | contradiction].
Qed.

Lemma stage_stdout_In a dt :
  (In NoUserTrajectory (self.stdout (_thrustGuidanceSystem a dt)) ->
   In NoUserTrajectory (self.stdout a)) /\
  (In NoUserTrajectory (self.stdout (_liftGuidanceSystem a dt)) ->
   In NoUserTrajectory (self.stdout a)) /\
  (In NoUserTrajectory (self.stdout (_headingGuidanceSystem a dt)) ->
   In NoUserTrajectory (self.stdout a)).
Proof.
  destruct (stage_stdout a dt) as (-> & -> & ->).
  unfold thrust_stdout, lift_stdout, heading_stdout.
  repeat split; intros H.
  - destruct (Qgtb (thrust_Tc_raw a dt) _); [|exact H].
    eapply In_snoc_NoUserTrajectory; [|exact H]. discriminate.
  - destruct (Qgtb (lift_Lc_raw a dt) _); [|exact H].
    eapply In_snoc_NoUserTrajectory; [|exact H]. discriminate.
  - destruct (Qgtb (Qabs (heading_mu_raw a)) _); [|exact H].
    eapply In_snoc_NoUserTrajectory; [|exact H]. discriminate.
Qed.

Lemma guidance_stdout s dt :
  In NoUserTrajectory (self.stdout (guidance s dt)) ->
  In NoUserTrajectory (self.stdout s).
Proof.
  unfold guidance. intros H.
  apply (proj2 (proj2 (stage_stdout_In _ dt))) in H.
  apply (proj1 (proj2 (stage_stdout_In _ dt))) in H.
  apply (proj1 (stage_stdout_In _ dt)) in H.
  exact H.
Qed.

(** The diagnostic of the guard is printed by the guard only. *)
Lemma stepTime_passes_stdout s dt :
  guard_passes s ->
  In NoUserTrajectory (self.stdout (stepTime s dt)) ->
  In NoUserTrajectory (self.stdout s).
Proof.
  intros Hg.
  destruct (stepTime_guidance_attributes s dt)
    as (_ & _ & _ & _ & _ & _ & _ & _ & _ & _ & _ & _ & -> & _).
  rewrite getGuidanceCommands_passes by exact Hg.
  apply guidance_stdout.
Qed.

Lemma stepTime_guard_passes s dt :
  guard_passes s -> guard_passes (stepTime s dt).
Proof.
  unfold guard_passes.
  destruct (stepTime_eom_attributes s dt)
    as (_ & _ & _ & _ & _ & _ & _ & _ & _ & _ & _ & -> & -> & -> & _).
  destruct (getGuidanceCommands_frame s (Some (step_size s dt)))
    as (_ & _ & -> & _).
  trivial.
Qed.

Lemma run_guard_line cs : forall s,
  Forall np_nan_free_call cs -> guard_passes s ->
  In NoUserTrajectory (self.stdout (run s cs)) ->
  In NoUserTrajectory (self.stdout s).
Proof.
  induction cs as [|c cs IH]; intros s Hcs Hs H; [exact H|].
  inversion Hcs as [|? ? Hc Hcs']; subst.
  cbn [run fold_left] in H. destruct c as [v g h | dt]; cbn [perform] in H.
  - apply (IH (setCommandTrajectory s v g h) Hcs') in H; [exact H | exact Hc].
  - apply (IH (stepTime s dt) Hcs') in H.
    + apply (stepTime_passes_stdout s dt Hs H).
    + apply stepTime_guard_passes. exact Hs.
Qed.

(** C8 (amended).  The constructor records the initial velocity, flight-path
    angle and heading as the command.  A step taken before any call of
    [setCommandTrajectory] therefore evaluates the guidance laws against that
    command: thrust, lift and bank angle are appended like every other
    history, the three errors are the initial values minus themselves, and
    no diagnostic about a missing command is printed.  The guidance laws are
    skipped when the guard finds the object [np.nan] among the three commanded
    values: the step then prints that one diagnostic, raises no error, leaves
    thrust, lift and bank angle and the memories of the laws as they were,
    and still integrates the equations of motion and advances the clock.  A
    step with a command of numbers is never skipped.  Only a call of
    [setCommandTrajectory] with the object [np.nan] brings the guard to fire:
    in a run from construction without such a call the diagnostic is never
    printed. *)
Theorem step_before_any_command
        (vehicle : FixedWingVehicle.t) (TF : TF_constants.t)
        (IC : InitialConditions.t) (time dt d : option Q) :
  let s0 := __init__ vehicle TF IC time dt in
  let v0 := InitialConditions.v_BN_W IC in
  let g0 := InitialConditions.gamma IC in
  let h0 := InitialConditions.sigma IC in
  (userCommand.v_BN_W (self.command s0) = Num v0 /\
   userCommand.gamma (self.command s0) = Num g0 /\
   userCommand.sigma (self.command s0) = Num h0) /\
  getGuidanceCommands s0 d = guidance s0 (step_size s0 d) /\
  step_appends s0 (stepTime s0 d) /\
  (self.V_err (stepTime s0 d) = Num (v0 - v0) /\
   self.hdot_err (stepTime s0 d) = Num (v0 * (np_sin g0 - np_sin g0)) /\
   self.sigma_err (stepTime s0 d) = Num (h0 - h0)) /\
  ~ In NoUserTrajectory (self.stdout (stepTime s0 d)) /\
  (forall (s : State) (d' : option Q),
      np_nan_in [userCommand.v_BN_W (self.command s);
                 userCommand.gamma (self.command s);
                 userCommand.sigma (self.command s)] = true ->
      self.stdout (stepTime s d') = self.stdout s ++ [NoUserTrajectory] /\
      skipped_step s (stepTime s d') /\
      self.xT (stepTime s d') = self.xT s /\
      self.Tc (stepTime s d') = self.Tc s /\
      self.xL (stepTime s d') = self.xL s /\
      self.Lc (stepTime s d') = self.Lc s) /\
  (forall (s : State) (d' : option Q),
      numeric_command s ->
      step_appends s (stepTime s d') /\
      (In NoUserTrajectory (self.stdout (stepTime s d')) ->
       In NoUserTrajectory (self.stdout s))) /\
  (forall cs : list call,
      Forall np_nan_free_call cs ->
      ~ In NoUserTrajectory (self.stdout (run s0 cs))).
Proof.
  cbv zeta.
  assert (Hn : numeric_command (__init__ vehicle TF IC time dt))
    by apply init_numeric.
  split; [repeat split|].
  split; [apply getGuidanceCommands_guidance; exact Hn|].
  split; [apply stepTime_appends; exact Hn|].
  split.
  { destruct (stepTime_guidance_attributes (__init__ vehicle TF IC time dt) d)
      as (_ & _ & _ & -> & -> & -> & _).
    rewrite getGuidanceCommands_guidance by exact Hn.
    destruct (guidance_attributes
                (__init__ vehicle TF IC time dt)
                (step_size (__init__ vehicle TF IC time dt)
                           (Some (step_size (__init__ vehicle TF IC time dt)
                                            d))))
      as (_ & _ & _ & -> & -> & -> & _).
    repeat split. }
  split.
  { intros H.
    apply (stepTime_passes_stdout _ d (numeric_guard _ Hn)) in H.
    exact H. }
  split; [|split].
  - intros s d' E.
    destruct (stepTime_guidance_attributes s d')
      as (_ & _ & _ & _ & _ & _ & -> & -> & -> & -> & _ & _ & -> & _).
    rewrite getGuidanceCommands_fires by exact E.
    split; [reflexivity|].
    split; [apply stepTime_skips; exact E | repeat split].
  - intros s d' Hs.
    split; [apply stepTime_appends; exact Hs|].
    apply stepTime_passes_stdout, numeric_guard, Hs.
  - intros cs Hcs H.
    apply (run_guard_line cs _ Hcs (numeric_guard _ Hn)) in H.
    exact H.
Qed.

(** ** Integrating a right-hand side that ignores the solver's variable *)

Section Frozen.

(** The accepted steps of the solver cover the interval of integration. *)
Hypothesis rk45_steps_span :
  forall f t0 tf y0, Qsum (rk45_steps f t0 tf y0) == tf - t0.

Lemma solve_ivp_const f c t0 tf y0 :
  (forall t y, f t y = c) -> List.length y0 = List.length c ->
  veq (solve_ivp f (t0, tf) y0) (vadd y0 (vscale (tf - t0) c)).
Proof.
  intros Hf Hlen. unfold solve_ivp. cbn [fst snd].
  eapply veq_trans.
  - apply (rk_run_const f c) with (y0 := y0) (s := 0); [exact Hf|].
    apply veq_sym, vadd_vscale_0, Hlen.
  - apply vadd_vscale_veq; [apply veq_refl|].
    rewrite rk45_steps_span. ring.
Qed.

Lemma solve_ivp_const1 f c t dt x :
  (forall t' y, f t' y = [c]) ->
  py_last (solve_ivp f (t, t + dt) [x]) == x + c * dt.
Proof.
  intros Hf.
  pose proof (solve_ivp_const f [c] t (t + dt) [x] Hf eq_refl) as H.
  cbn [vadd vscale map] in H.
  inversion H as [|r r' l l' Hr Hl]; subst. inversion Hl; subst.
  cbn [py_last last]. rewrite Hr. ring.
Qed.

Lemma solve_ivp_const3 f c0 c1 c2 t dt x0 x1 x2 :
  (forall t' y, f t' y = [c0; c1; c2]) ->
  let sol := solve_ivp f (t, t + dt) [x0; x1; x2] in
  nth 0 sol 0 == x0 + c0 * dt /\
  nth 1 sol 0 == x1 + c1 * dt /\
  nth 2 sol 0 == x2 + c2 * dt.
Proof.
  intros Hf. cbv zeta.
  pose proof (solve_ivp_const f [c0; c1; c2] t (t + dt) [x0; x1; x2]
                              Hf eq_refl) as H.
  cbn [vadd vscale map] in H.
  destruct (solve_ivp f (t, t + dt) [x0; x1; x2]) as [|r0 [|r1 [|r2 [|r3 l]]]];
    inversion H as [|a0 b0 l0 l0' H0 Hl0]; subst;
    inversion Hl0 as [|a1 b1 l1 l1' H1 Hl1]; subst;
    inversion Hl1 as [|a2 b2 l2 l2' H2 Hl2]; subst;
    inversion Hl2; subst.
  cbn [nth]. rewrite H0, H1, H2. repeat split; ring.
Qed.

(** C3 (amended).  The right-hand sides of the two integral memories, of the
    fuel burn, of the translational and attitude dynamics and of the geodetic
    kinematics read committed attributes only, never the solver's variable,
    so each of these integrations over [t, t+dt] is the single extrapolation
    [y(t+dt) = y(t) + f * dt], whatever steps the solver takes to cover the
    interval; in particular [xT(t+dt) = xT(t) + mass*V_err*dt] and
    [xL(t+dt) = xL(t) + mass*hdot_err*dt].  (The two lag filters are not
    among them.) *)
Theorem frozen_rhs_extrapolation (s : State) (dt : Q) :
  let sT := _thrustGuidanceSystem s dt in
  let sL := _liftGuidanceSystem s dt in
  let s' := getEquationsOfMotion_Ideal s (Some dt) in
  let v := py_last (self.v_BN_W s) in
  let gam := py_last (self.gamma s) in
  let v' := py_last (self.v_BN_W s') in
  let gam' := py_last (self.gamma s') in
  let sig' := py_last (self.sigma s') in
  let m' := py_last (self.mass s') in
  (forall t1 y1 t2 y2,
      __xT_dot_ode s t1 y1 = __xT_dot_ode s t2 y2 /\
      __xL_dot_ode s t1 y1 = __xL_dot_ode s t2 y2 /\
      __m_dot_ode s t1 y1 = __m_dot_ode s t2 y2 /\
      __eom_ode s t1 y1 = __eom_ode s t2 y2 /\
      __ecef_ode s t1 y1 = __ecef_ode s t2 y2) /\
  self.xT sT == self.xT s + py_last (self.mass s) * num (self.V_err sT) * dt /\
  self.xL sL
  == self.xL s + py_last (self.mass s) * num (self.hdot_err sL) * dt /\
  m' == py_last (self.mass s)
        + -(1) * FixedWingVehicle.Kf (self.Vehicle s)
          * py_last (self.Thrust s) * dt /\
  v' == v + ((py_last (self.Thrust s) - py_last (self.drag s')) / m'
             - const_gravity * np_sin gam) * dt /\
  gam' == gam + (1 / v)
                * ((py_last (self.Lift s) * np_cos (py_last (self.mu s)) / m')
                   - const_gravity * np_cos gam) * dt /\
  sig' == py_last (self.sigma s)
          + (1 / (v * np_cos gam))
            * (py_last (self.Lift s) * np_sin (py_last (self.mu s)) / m')
            * dt /\
  py_last (self.lat s')
  == py_last (self.lat s)
     + v' * np_cos gam' * np_cos sig' / (Re_bar + py_last (self.h s)) * dt /\
  py_last (self.lon s')
  == py_last (self.lon s)
     + v' * np_cos gam' * np_sin sig'
       / ((Re_bar + py_last (self.h s)) * np_cos (py_last (self.lat s))) * dt /\
  py_last (self.h s') == py_last (self.h s) + v' * np_sin gam' * dt.
Proof.
  cbv zeta. rewrite thrust_normal, lift_normal, eom_normal. cbv zeta. sel.
  rewrite !py_last_append. change (step_size s (Some dt)) with dt.
  split; [intros; repeat split|].
  split; [apply solve_ivp_const1; reflexivity|].
  split; [apply solve_ivp_const1; reflexivity|].
  split; [apply solve_ivp_const1; reflexivity|].
  pose proof (solve_ivp_const3 (__eom_ode (eom_state s dt))
                _ _ _ (py_last (self.time s)) dt
                (py_last (self.v_BN_W s)) (py_last (self.gamma s))
                (py_last (self.sigma s))
                (fun _ _ => eq_refl)) as (Hv & Hg & Hs).
  pose proof (solve_ivp_const3 (__ecef_ode (ecef_state s dt))
                _ _ _ (py_last (self.time s)) dt
                (py_last (self.lat s)) (py_last (self.lon s))
                (py_last (self.h s))
                (fun _ _ => eq_refl)) as (Hla & Hlo & Hh).
  unfold eom_state, ecef_state in Hv, Hg, Hs, Hla, Hlo, Hh.
  sel_in Hv. sel_in Hg. sel_in Hs. sel_in Hla. sel_in Hlo. sel_in Hh.
  rewrite ?py_last_append in Hv. rewrite ?py_last_append in Hg.
  rewrite ?py_last_append in Hs. rewrite ?py_last_append in Hla.
  rewrite ?py_last_append in Hlo. rewrite ?py_last_append in Hh.
  repeat split; assumption.
Qed.

End Frozen.

(** ** Fuel burn *)

Lemma nonincreasing_append l x :
  nonincreasing l -> x <= py_last l \/ l = [] -> nonincreasing (append l x).
Proof.
  unfold append, py_last.
  induction l as [|a [|b l] IH]; intros Hl Hx.
  - exact I.
  - destruct Hx as [Hx | Hx]; [|discriminate]. cbn in *. split; [exact Hx | exact I].
  - destruct Hl as (Hba & Hl).
    destruct Hx as [Hx | Hx]; [|discriminate].
    change (b <= a /\ nonincreasing ((b :: l) ++ [x])).
    split; [exact Hba|]. apply IH; [exact Hl | left; exact Hx].
Qed.

Lemma Forall_py_last (P : Q -> Prop) l : P 0 -> Forall P l -> P (py_last l).
Proof.
  intros H0 H. unfold py_last.
  induction H as [|a l Ha Hl IH]; [exact H0|].
  destruct l; [exact Ha | exact IH].
Qed.

(** What a call keeps, and how the thrust history grows. *)
Lemma perform_invariants s c :
  self.Vehicle (perform s c) = self.Vehicle s /\
  self.dt (perform s c) = self.dt s /\
  exists l, self.Thrust (perform s c) = self.Thrust s ++ l.
Proof.
  destruct c as [v g h | dt]; cbn [perform].
  - repeat split. exists []. symmetry. apply app_nil_r.
  - destruct (stepTime_guidance_attributes s dt)
      as (-> & _ & _ & _ & _ & _ & _ & _ & _ & _ & -> & -> & _).
    destruct (getGuidanceCommands_frame s (Some (step_size s dt)))
      as (_ & _ & _ & -> & ->).
    split; [reflexivity|]. split; [reflexivity|].
    destruct (getGuidanceCommands_nan s (Some (step_size s dt))) as [H | ->].
    + rewrite getGuidanceCommands_passes by exact H.
      destruct (guidance_attributes s (step_size s (Some (step_size s dt))))
        as (-> & _).
      eexists. reflexivity.
    + exists []. symmetry. apply app_nil_r.
Qed.

Lemma run_Thrust_extends cs : forall s,
  exists l, self.Thrust (run s cs) = self.Thrust s ++ l.
Proof.
  induction cs as [|c cs IH]; intros s.
  - exists []. symmetry. apply app_nil_r.
  - cbn [run fold_left]. destruct (IH (perform s c)) as (l & Hl).
    destruct (perform_invariants s c) as (_ & _ & l' & Hl').
    exists (l' ++ l). unfold run in Hl. rewrite Hl, Hl'.
    symmetry. apply app_assoc.
Qed.

Section FuelBurn.

Hypothesis rk45_steps_span :
  forall f t0 tf y0, Qsum (rk45_steps f t0 tf y0) == tf - t0.

(** The mass a step appends: the fuel-burn law over the step, with the
    thrust the step appended (or left, when its guard fired). *)
Lemma stepTime_mass s dt :
  exists m,
    self.mass (stepTime s dt) = append (self.mass s) m /\
    m == py_last (self.mass s)
         + -(1) * FixedWingVehicle.Kf (self.Vehicle s)
           * py_last (self.Thrust (stepTime s dt)) * step_size s dt.
Proof.
  destruct (step_order s dt) as (_ & _ & Hm & HT & _). cbv zeta in *.
  destruct (getGuidanceCommands_frame s (Some (step_size s dt)))
    as (_ & _ & _ & GV & _).
  eexists. split; [exact Hm|].
  rewrite HT, <- GV. unfold t_span.
  apply (solve_ivp_const1 rk45_steps_span). reflexivity.
Qed.

Lemma perform_mass s c :
  0 <= FixedWingVehicle.Kf (self.Vehicle s) ->
  positive_step s c ->
  nonincreasing (self.mass s) ->
  Forall (Qle 0) (self.Thrust (perform s c)) ->
  nonincreasing (self.mass (perform s c)).
Proof.
  intros HK Hc Hm HT. destruct c as [v g h | dt]; cbn [perform] in *.
  - exact Hm.
  - destruct (stepTime_mass s dt) as (m & -> & Em).
    apply nonincreasing_append; [exact Hm|]. left.
    pose proof (Forall_py_last (Qle 0) _ (Qle_refl 0) HT) as H0.
    cbn [positive_step] in Hc. rewrite Em.
    set (T := py_last (self.Thrust (stepTime s dt))) in *.
    set (K := FixedWingVehicle.Kf (self.Vehicle s)) in *.
    set (d := step_size s dt) in *.
    assert (0 <= K * T * d).
    { apply Qmult_le_0_compat; [apply Qmult_le_0_compat; assumption|].
      apply Qlt_le_weak. exact Hc. }
    lra.
Qed.

Lemma run_mass cs : forall s,
  0 <= FixedWingVehicle.Kf (self.Vehicle s) ->
  Forall (positive_step s) cs ->
  nonincreasing (self.mass s) ->
  Forall (Qle 0) (self.Thrust (run s cs)) ->
  nonincreasing (self.mass (run s cs)).
Proof.
  induction cs as [|c cs IH]; intros s HK Hcs Hm HT.
  - exact Hm.
  - inversion Hcs as [|? ? Hc Hcs']; subst.
    cbn [run fold_left] in *.
    destruct (perform_invariants s c) as (EV & Ed & _).
    destruct (run_Thrust_extends cs (perform s c)) as (l & El).
    unfold run in El.
    apply IH.
    + rewrite EV. exact HK.
    + eapply Forall_impl; [|exact Hcs'].
      intros [v g h | dt]; cbn [positive_step]; [trivial|].
      unfold step_size. rewrite Ed. trivial.
    + apply perform_mass; try assumption.
      rewrite El in HT. apply Forall_app in HT. apply HT.
    + exact HT.
Qed.

(** C7.  The mass history is written by the fuel-burn law
    [dmass/dt = -Kf * Thrust] only: each step appends the newest mass minus
    [Kf * Thrust * dt].  In every run from construction with [Kf >= 0] and
    positive step sizes in which all thrusts are non-negative, the mass
    history is non-increasing. *)
Theorem mass_nonincreasing
        (vehicle : FixedWingVehicle.t) (TF : TF_constants.t)
        (IC : InitialConditions.t) (time dt : option Q) (cs : list call) :
  let s0 := __init__ vehicle TF IC time dt in
  0 <= FixedWingVehicle.Kf vehicle ->
  Forall (positive_step s0) cs ->
  Forall (Qle 0) (self.Thrust (run s0 cs)) ->
  nonincreasing (self.mass (run s0 cs)) /\
  (forall s c,
      exists m,
        self.mass (stepTime s c) = append (self.mass s) m /\
        m == py_last (self.mass s)
             + -(1) * FixedWingVehicle.Kf (self.Vehicle s)
               * py_last (self.Thrust (stepTime s c)) * step_size s c).
Proof.
  intros s0 HK Hcs HT. split.
  - apply run_mass; try assumption. exact I.
  - intros s c. apply stepTime_mass.
Qed.

End FuelBurn.

(** * Further properties *)

(** ** The attributes of a step, continued *)

Lemma lift_outputs_frame a b dt :
  lift_reads a b ->
  lift_Lc_raw a dt = lift_Lc_raw b dt /\
  lift_alpha_c a dt = lift_alpha_c b dt /\ lift_h_c a dt = lift_h_c b dt.
Proof.
  intros (Hc & Hg & Hx & Hm & Hi & Hp & Hv & HV & HL & Ht & Ha & Hh).
  unfold lift_alpha_c, lift_h_c.
  unfold_values. sel. rewrite Hc, Hg, Hx, Hm, Hi, Hp, Hv, HV, Ht, Ha, Hh.
  repeat split.
Qed.

Lemma heading_raw_frame a b :
  heading_reads a b -> heading_mu_raw a = heading_mu_raw b.
Proof.
  intros (Hc & Hs & Hk & Hm).
  unfold_values. sel. rewrite Hc, Hs, Hk. reflexivity.
Qed.

Lemma stage_events a dt :
  thrust_stdout a dt = self.stdout a ++ thrust_events a dt /\
  lift_stdout a dt = self.stdout a ++ lift_events a dt /\
  heading_stdout a = self.stdout a ++ heading_events a.
Proof.
  unfold thrust_stdout, thrust_events, lift_stdout, lift_events,
    heading_stdout, heading_events.
  repeat split.
  - destruct (Qgtb (thrust_Tc_raw a dt) _);
      [reflexivity | symmetry; apply app_nil_r].
  - destruct (Qgtb (lift_Lc_raw a dt) _);
      [reflexivity | symmetry; apply app_nil_r].
  - destruct (Qgtb (Qabs (heading_mu_raw a)) _);
      [reflexivity | symmetry; apply app_nil_r].
Qed.

Lemma lift_events_frame a b dt :
  lift_reads a b -> lift_events a dt = lift_events b dt.
Proof.
  intros H. unfold lift_events.
  destruct (lift_outputs_frame a b dt H) as (-> & _).
  destruct (lift_frame a b dt H) as (_ & _ & _ & _ & ->).
  reflexivity.
Qed.

Lemma heading_events_frame a b :
  heading_reads a b -> heading_events a = heading_events b.
Proof.
  intros H. unfold heading_events.
  rewrite (heading_raw_frame a b H).
  destruct H as (_ & _ & _ & ->). reflexivity.
Qed.

Lemma heading_reads_trans a b c :
  heading_reads a b -> heading_reads b c -> heading_reads a c.
Proof.
  unfold heading_reads. intros H1 H2.
  repeat match goal with H : _ /\ _ |- _ => destruct H end.
  repeat split; etransitivity; eassumption.
Qed.

Lemma configuration_kept_refl s : configuration_kept s s.
Proof. unfold configuration_kept. repeat split. Qed.

Lemma configuration_kept_trans a b c :
  configuration_kept a b -> configuration_kept b c -> configuration_kept a c.
Proof.
  unfold configuration_kept. intros H1 H2.
  repeat match goal with H : _ /\ _ |- _ => destruct H end.
  repeat split; etransitivity; eassumption.
Qed.

(** Each law: what it leaves for the next ones, and what it prints. *)
Lemma thrust_stage a dt :
  let a' := _thrustGuidanceSystem a dt in
  lift_reads a' a /\ heading_reads a' a /\ configuration_kept a a' /\
  self.alpha_c a' = self.alpha_c a /\ self.h_c a' = self.h_c a /\
  self.stdout a' = self.stdout a ++ thrust_events a dt.
Proof.
  cbv zeta. rewrite thrust_normal.
  unfold lift_reads, heading_reads, configuration_kept. sel.
  destruct (stage_events a dt) as (-> & _ & _).
  repeat split.
Qed.

Lemma lift_stage a dt :
  let a' := _liftGuidanceSystem a dt in
  heading_reads a' a /\ configuration_kept a a' /\
  self.alpha_c a' = append (self.alpha_c a) (lift_alpha_c a dt) /\
  self.h_c a' = append (self.h_c a) (lift_h_c a dt) /\
  self.stdout a' = self.stdout a ++ lift_events a dt.
Proof.
  cbv zeta. rewrite lift_normal.
  unfold heading_reads, configuration_kept. sel.
  destruct (stage_events a dt) as (_ & -> & _).
  repeat split.
Qed.

Lemma heading_stage a dt :
  let a' := _headingGuidanceSystem a dt in
  configuration_kept a a' /\
  self.alpha_c a' = self.alpha_c a /\ self.h_c a' = self.h_c a /\
  self.stdout a' = self.stdout a ++ heading_events a.
Proof.
  cbv zeta. rewrite heading_normal.
  unfold configuration_kept. sel.
  destruct (stage_events a dt) as (_ & _ & ->).
  repeat split.
Qed.

(** The commanded outputs, the diagnostics and the configuration after the
    three laws. *)
Lemma guidance_outputs s dt :
  let g := guidance s dt in
  self.alpha_c g = append (self.alpha_c s) (lift_alpha_c s dt) /\
  self.h_c g = append (self.h_c s) (lift_h_c s dt) /\
  self.stdout g
  = self.stdout s ++ thrust_events s dt ++ lift_events s dt
    ++ heading_events s /\
  configuration_kept s g.
Proof.
  cbv zeta. unfold guidance.
  generalize (thrust_stage s dt). cbv zeta.
  generalize (_thrustGuidanceSystem s dt).
  intros a (Ra & Ha & Ka & Aa & Ca & Oa).
  generalize (lift_stage a dt). cbv zeta.
  generalize (_liftGuidanceSystem a dt).
  intros b (Hb & Kb & Ab & Cb & Ob).
  generalize (heading_stage b dt). cbv zeta.
  generalize (_headingGuidanceSystem b dt).
  intros c (Kc & Ac & Cc & Oc).
  rewrite Ac, Cc, Oc, Ab, Cb, Ob, Aa, Ca, Oa.
  destruct (lift_outputs_frame a s dt Ra) as (_ & -> & ->).
  rewrite (lift_events_frame a s dt Ra).
  rewrite (heading_events_frame b s (heading_reads_trans _ _ _ Hb Ha)).
  rewrite <- !app_assoc.
  split; [reflexivity|]. split; [reflexivity|]. split; [reflexivity|].
  eapply configuration_kept_trans; [exact Ka|].
  eapply configuration_kept_trans; [exact Kb | exact Kc].
Qed.

(** What the guard and the laws leave, whatever the command holds. *)
Lemma getGuidanceCommands_keeps s dt :
  let g := getGuidanceCommands s dt in
  configuration_kept s g /\
  self.time g = self.time s /\ self.mass g = self.mass s /\
  self.v_BN_W g = self.v_BN_W s /\ self.gamma g = self.gamma s /\
  self.sigma g = self.sigma s /\ self.lat g = self.lat s /\
  self.lon g = self.lon s /\ self.h g = self.h s /\
  self.airspeed g = self.airspeed s /\ self.alpha g = self.alpha s /\
  self.drag g = self.drag s /\ self.command g = self.command s.
Proof.
  cbv zeta. destruct (getGuidanceCommands_nan s dt) as [H | ->].
  - rewrite getGuidanceCommands_passes by exact H.
    destruct (guidance_outputs s (step_size s dt)) as (_ & _ & _ & Hk).
    destruct (guidance_frame s (step_size s dt))
      as (-> & -> & -> & -> & -> & -> & -> & -> & -> & -> & ->).
    destruct (guidance_attributes s (step_size s dt))
      as (_ & _ & _ & _ & _ & _ & _ & _ & _ & _ & _ & _ & _ & -> & _).
    split; [exact Hk | repeat split].
  - unfold configuration_kept, print. sel. repeat split.
Qed.

(** What the equations of motion and the bookkeeping of a step leave. *)
Lemma stepTime_keeps s dt :
  let d := step_size s dt in
  let g := getGuidanceCommands s (Some d) in
  let s' := stepTime s dt in
  configuration_kept g s' /\
  self.alpha_c s' = self.alpha_c g /\ self.h_c s' = self.h_c g /\
  userCommand.airspeed (self.command s')
  = userCommand.airspeed (self.command g) /\
  userCommand.airspeed_history (self.command s')
  = append (userCommand.airspeed_history (self.command g))
           (userCommand.airspeed (self.command g)).
Proof.
  cbv zeta. rewrite stepTime_unfold. cbv zeta.
  change (step_size s (Some (step_size s dt))) with (step_size s dt).
  generalize (getGuidanceCommands s (Some (step_size s dt))). intros g.
  rewrite eom_normal. cbv zeta. unfold configuration_kept. sel.
  repeat split.
Qed.

(** ** Whole runs *)

Lemma perform_keeps s c : configuration_kept s (perform s c).
Proof.
  destruct c as [v g h | dt]; cbn [perform].
  - unfold configuration_kept. repeat split.
  - eapply configuration_kept_trans.
    + exact (proj1 (getGuidanceCommands_keeps s (Some (step_size s dt)))).
    + exact (proj1 (stepTime_keeps s dt)).
Qed.

Lemma run_keeps cs : forall s, configuration_kept s (run s cs).
Proof.
  induction cs as [|c cs IH]; intros s.
  - apply configuration_kept_refl.
  - cbn [run fold_left]. eapply configuration_kept_trans.
    + apply perform_keeps.
    + apply IH.
Qed.

(** X1.  The vehicle, the five gains, the configured step size, the wind, the
    weight, the unit labels and the three lists [v_BN_W_c_hist],
    [gamma_c_hist], [sigma_c_hist] are written by the constructor only: after
    any sequence of calls they hold what the constructor stored.  In
    particular a step size passed to [stepTime] is used for that step and
    does not replace the configured one, and the three [_c_hist] lists stay
    [[0]]. *)
Theorem configuration_is_kept
        (vehicle : FixedWingVehicle.t) (TF : TF_constants.t)
        (IC : InitialConditions.t) (time dt : option Q) (cs : list call) :
  let s := run (__init__ vehicle TF IC time dt) cs in
  self.Vehicle s = vehicle /\
  self.K_Tp s = TF_constants.K_Tp TF /\ self.K_Ti s = TF_constants.K_Ti TF /\
  self.K_Lp s = TF_constants.K_Lp TF /\ self.K_Li s = TF_constants.K_Li TF /\
  self.K_mu_p s = TF_constants.K_mu_p TF /\
  self.dt s = match dt with Some d => d | None => 1 # 100 end /\
  self.v_WN_N s = [InitialConditions.v_WN_N IC] /\
  self.weight s = [InitialConditions.weight IC] /\
  self.v_BN_W_c_hist s = [0] /\ self.gamma_c_hist s = [0] /\
  self.sigma_c_hist s = [0] /\
  self.units s = FixedWingVehicle.units vehicle /\
  self.angles s = FixedWingVehicle.angles vehicle.
Proof.
  cbv zeta.
  destruct (run_keeps cs (__init__ vehicle TF IC time dt))
    as (-> & -> & -> & -> & -> & -> & -> & -> & -> & -> & -> & -> & -> & ->).
  repeat split.
Qed.

(** *** The two groups of histories *)

Lemma guard_open_iff s : guard_open s = true <-> guard_passes s.
Proof.
  unfold guard_open, guard_passes. apply negb_true_iff.
Qed.

Lemma stepTime_guard_open s dt :
  guard_open (stepTime s dt) = guard_open s.
Proof.
  unfold guard_open.
  destruct (stepTime_eom_attributes s dt)
    as (_ & _ & _ & _ & _ & _ & _ & _ & _ & _ & _ & -> & -> & -> & _).
  destruct (getGuidanceCommands_frame s (Some (step_size s dt)))
    as (_ & _ & -> & _).
  reflexivity.
Qed.

Lemma stepTime_motion_lengths s dt n :
  motion_lengths s n -> motion_lengths (stepTime s dt) (S n).
Proof.
  unfold motion_lengths.
  destruct (stepTime_eom_attributes s dt)
    as (Hm & Hv & Hg & Hs & Hla & Hlo & Hh & Ha & Hal & Hd & Ht & _ & _ & _
        & Cv & Cg & Cs).
  destruct (stepTime_keeps s dt) as (_ & _ & _ & _ & Ca).
  cbv zeta in *.
  destruct (getGuidanceCommands_keeps s (Some (step_size s dt)))
    as (_ & Ft & Fm & Fv & Fg & Fs & Fla & Flo & Fh & Fa & Fal & Fd & Fc).
  cbv zeta in *.
  change (step_size s (Some (step_size s dt))) with (step_size s dt) in *.
  rewrite Ft in Ht. rewrite Fm in Hm. rewrite Fv in Hv. rewrite Fg in Hg.
  rewrite Fs in Hs. rewrite Fla in Hla. rewrite Flo in Hlo. rewrite Fh in Hh.
  rewrite Fa in Ha. rewrite Fal in Hal. rewrite Fd in Hd.
  rewrite Fc in Cv, Cg, Cs, Ca.
  rewrite Cv, Cg, Cs, Ca. rewrite !length_append.
  intros (Lt & Lm & Lv & Lg & Ls & Lla & Llo & Lh & La & Lal & Ld
          & -> & -> & -> & ->).
  split; [exact (grows_length _ _ _ Ht Lt)|].
  split; [exact (grows_length _ _ _ Hm Lm)|].
  split; [exact (grows_length _ _ _ Hv Lv)|].
  split; [exact (grows_length _ _ _ Hg Lg)|].
  split; [exact (grows_length _ _ _ Hs Ls)|].
  split; [exact (grows_length _ _ _ Hla Lla)|].
  split; [exact (grows_length _ _ _ Hlo Llo)|].
  split; [exact (grows_length _ _ _ Hh Lh)|].
  split; [exact (grows_length _ _ _ Ha La)|].
  split; [exact (grows_length _ _ _ Hal Lal)|].
  split; [exact (grows_length _ _ _ Hd Ld)|].
  repeat split.
Qed.

Lemma getGuidanceCommands_guard s dt :
  guard_open s = false ->
  getGuidanceCommands s dt = print s NoUserTrajectory.
Proof.
  unfold guard_open, getGuidanceCommands.
  destruct (np_nan_in _); [reflexivity | discriminate].
Qed.

Lemma stepTime_guidance_lengths s dt n :
  guidance_lengths s n ->
  guidance_lengths (stepTime s dt)
                   ((if guard_open s then 1 else 0) + n).
Proof.
  unfold guidance_lengths.
  destruct (stepTime_guidance_attributes s dt) as (-> & -> & -> & _).
  destruct (stepTime_keeps s dt) as (_ & -> & -> & _).
  destruct (guard_open s) eqn:E.
  - apply guard_open_iff in E.
    rewrite getGuidanceCommands_passes by exact E.
    destruct (guidance_attributes s (step_size s (Some (step_size s dt))))
      as (-> & -> & -> & _).
    destruct (guidance_outputs s (step_size s (Some (step_size s dt))))
      as (-> & -> & _).
    rewrite !length_append. intros (-> & -> & -> & -> & ->). repeat split.
  - rewrite getGuidanceCommands_guard by exact E.
    unfold print. sel. intros L. exact L.
Qed.

Lemma guided_steps_le cs : forall b, (guided_steps b cs <= steps_taken cs)%nat.
Proof.
  induction cs as [|c cs IH]; intros b; [apply Nat.le_refl|].
  destruct c as [v g h | dt].
  - apply IH.
  - cbn [guided_steps].
    change (steps_taken (StepTime dt :: cs)) with (S (steps_taken cs)).
    specialize (IH b). destruct b; lia.
Qed.

Lemma guided_steps_numeric cs :
  Forall numeric_call cs -> guided_steps true cs = steps_taken cs.
Proof.
  induction 1 as [|c cs Hc Hcs IH]; [reflexivity|].
  destruct c as [v g h | dt].
  - cbn [guided_steps]. change (forallb is_num [v; g; h] = true) in Hc.
    rewrite Hc. exact IH.
  - cbn [guided_steps]. rewrite IH. reflexivity.
Qed.

(** When every commanded value is a number or the object [np.nan], the
    steps that pass the guard are the steps with a command of numbers. *)
Lemma plain_values v g h :
  forallb (fun x => is_num x || is_np_nan x) [v; g; h] = true ->
  negb (np_nan_in [v; g; h]) = forallb is_num [v; g; h].
Proof.
  destruct v as [a| |], g as [b| |], h as [c| |]; cbn;
    try discriminate; reflexivity.
Qed.

Lemma passed_steps_plain cs : forall b,
  Forall plain_call cs -> passed_steps b cs = guided_steps b cs.
Proof.
  induction cs as [|c cs IH]; intros b Hcs; [reflexivity|].
  inversion Hcs as [|? ? Hc Hcs']; subst.
  destruct c as [v g h | dt]; cbn [passed_steps guided_steps].
  - rewrite (plain_values v g h Hc). apply IH. exact Hcs'.
  - rewrite IH by exact Hcs'. reflexivity.
Qed.

Lemma run_group_lengths cs : forall s n m,
  motion_lengths s n -> guidance_lengths s m ->
  motion_lengths (run s cs) (n + steps_taken cs) /\
  guidance_lengths (run s cs) (m + passed_steps (guard_open s) cs).
Proof.
  induction cs as [|c cs IH]; intros s n m Ln Lm.
  - cbn. rewrite !Nat.add_0_r. split; assumption.
  - destruct c as [v g h | dt].
    + cbn [run fold_left perform passed_steps].
      change (steps_taken _) with (steps_taken cs).
      apply (IH (setCommandTrajectory s v g h) n m); assumption.
    + cbn [run fold_left perform passed_steps].
      change (steps_taken (StepTime dt :: cs)) with (S (steps_taken cs)).
      rewrite Nat.add_succ_r, Nat.add_assoc.
      rewrite <- (stepTime_guard_open s dt).
      rewrite (Nat.add_comm m).
      apply (IH (stepTime s dt) (S n)).
      * apply stepTime_motion_lengths. exact Ln.
      * rewrite stepTime_guard_open.
        apply stepTime_guidance_lengths. exact Lm.
Qed.

(** X2.  The histories fall into two groups.  In a run whose commanded
    values are numbers or the object [np.nan], the clock, the ten histories
    of the equations of motion and the four histories of the command grow by
    one in every step: after the run their length is the number of steps plus
    one.  Thrust, lift, bank angle, commanded angle of attack and commanded
    altitude grow by one in the steps taken while the command holds numbers
    and not at all in the steps taken while it holds the object [np.nan],
    which the guard of [getGuidanceCommands] finds: their common length is
    one plus the number of steps taken with a command of numbers.  The
    second group is never longer than the first, and as long when every
    command of the run holds numbers. *)
Theorem history_groups
        (vehicle : FixedWingVehicle.t) (TF : TF_constants.t)
        (IC : InitialConditions.t) (time dt : option Q) (cs : list call) :
  Forall plain_call cs ->
  let s := run (__init__ vehicle TF IC time dt) cs in
  motion_lengths s (S (steps_taken cs)) /\
  guidance_lengths s (S (guided_steps true cs)) /\
  (guided_steps true cs <= steps_taken cs)%nat /\
  (Forall numeric_call cs -> guided_steps true cs = steps_taken cs).
Proof.
  intros Hcs. cbv zeta.
  destruct (run_group_lengths cs (__init__ vehicle TF IC time dt) 1%nat 1%nat)
    as (H1 & H2).
  - repeat split.
  - repeat split.
  - change (guard_open (__init__ vehicle TF IC time dt)) with true in H2.
    rewrite (passed_steps_plain cs true Hcs) in H2.
    split; [exact H1|]. split; [exact H2|].
    split; [apply guided_steps_le | apply guided_steps_numeric].
Qed.

(** *** The clock *)

Lemma perform_time s c :
  self.dt (perform s c) = self.dt s /\
  match c with
  | SetCommandTrajectory _ _ _ => self.time (perform s c) = self.time s
  | StepTime dt =>
      self.time (perform s c)
      = append (self.time s) (py_last (self.time s) + step_size s dt)
  end.
Proof.
  split.
  - destruct (perform_keeps s c) as (_ & _ & _ & _ & _ & _ & H & _). exact H.
  - destruct c as [v g h | dt]; cbn [perform]; [reflexivity|].
    destruct (stepTime_guidance_attributes s dt)
      as (_ & _ & _ & _ & _ & _ & _ & _ & _ & _ & _ & _ & _ & _ & ->).
    destruct (getGuidanceCommands_frame s (Some (step_size s dt)))
      as (_ & -> & _).
    reflexivity.
Qed.

Lemma increasing_append l x :
  increasing l -> py_last l < x \/ l = [] -> increasing (append l x).
Proof.
  unfold append, py_last.
  induction l as [|a [|b l] IH]; intros Hl Hx.
  - exact I.
  - destruct Hx as [Hx | Hx]; [|discriminate].
    cbn in *. split; [exact Hx | exact I].
  - destruct Hl as (Hab & Hl).
    destruct Hx as [Hx | Hx]; [|discriminate].
    change (a < b /\ increasing ((b :: l) ++ [x])).
    split; [exact Hab|]. apply IH; [exact Hl | left; exact Hx].
Qed.

Lemma hd_append (l : list Q) x : l <> [] -> hd 0 (append l x) = hd 0 l.
Proof. destruct l; [congruence | reflexivity]. Qed.

Lemma append_not_nil (l : list Q) x : append l x <> [].
Proof. unfold append. destruct l; discriminate. Qed.

Lemma run_clock cs : forall s,
  self.time s <> [] ->
  py_last (self.time (run s cs))
  == py_last (self.time s) + Qsum (step_sizes (self.dt s) cs) /\
  hd 0 (self.time (run s cs)) = hd 0 (self.time s) /\
  (increasing (self.time s) ->
   Forall (fun d => 0 < d) (step_sizes (self.dt s) cs) ->
   increasing (self.time (run s cs))).
Proof.
  induction cs as [|c cs IH]; intros s Hs.
  - cbn [run fold_left step_sizes Qsum].
    split; [ring|]. split; [reflexivity|]. intros H _. exact H.
  - cbn [run fold_left].
    destruct (perform_time s c) as (Hdt & Ht).
    destruct c as [v g h | dt].
    + cbn [step_sizes].
      destruct (IH (perform s (SetCommandTrajectory v g h))) as (H1 & H2 & H3).
      * rewrite Ht. exact Hs.
      * rewrite Hdt, Ht in *. split; [exact H1|]. split; [exact H2 | exact H3].
    + destruct (IH (perform s (StepTime dt))) as (H1 & H2 & H3).
      * rewrite Ht. apply append_not_nil.
      * rewrite Hdt, Ht in *. rewrite py_last_append in H1.
        rewrite hd_append in H2 by exact Hs.
        assert (E : step_sizes (self.dt s) (StepTime dt :: cs)
                    = step_size s dt :: step_sizes (self.dt s) cs)
          by (destruct dt; reflexivity).
        rewrite E. cbn [Qsum].
        split; [rewrite H1; ring|]. split; [exact H2|].
        intros Hi Hp. inversion Hp as [|? ? Hd Hp']; subst.
        apply H3; [|exact Hp'].
        apply increasing_append; [exact Hi|]. left.
        rewrite <- (Qplus_0_r (py_last (self.time s))) at 1.
        apply Qplus_lt_r. exact Hd.
Qed.

(** X3.  The clock.  After any run the newest time is the time of
    construction plus the sum of the step sizes of the steps taken (the
    configured step size for [stepTime()], the given one for
    [stepTime(dt)]); the first entry of the time history stays the time of
    construction; and when every step size is positive the time history is
    strictly increasing.  Neither a NaN command nor [setCommandTrajectory]
    touches the clock. *)
Theorem clock_of_a_run
        (vehicle : FixedWingVehicle.t) (TF : TF_constants.t)
        (IC : InitialConditions.t) (time dt : option Q) (cs : list call) :
  let t0 := match time with Some t => t | None => 0 end in
  let dt0 := match dt with Some d => d | None => 1 # 100 end in
  let s := run (__init__ vehicle TF IC time dt) cs in
  py_last (self.time s) == t0 + Qsum (step_sizes dt0 cs) /\
  hd 0 (self.time s) = t0 /\
  (Forall (fun d => 0 < d) (step_sizes dt0 cs) -> increasing (self.time s)).
Proof.
  cbv zeta.
  destruct (run_clock cs (__init__ vehicle TF IC time dt)) as (H1 & H2 & H3).
  - discriminate.
  - split; [exact H1|]. split; [exact H2|].
    intros Hp. apply H3; [exact I | exact Hp].
Qed.

(** *** The airspeed *)

Lemma map3_append f u v w a b c :
  List.length u = List.length v -> List.length v = List.length w ->
  map3 f (append u a) (append v b) (append w c)
  = append (map3 f u v w) (f a b c).
Proof.
  unfold append. revert v w.
  induction u as [|x u IH]; intros [|y v] [|z w] H1 H2; try discriminate.
  - reflexivity.
  - cbn [app map3]. rewrite IH; [reflexivity | |]; simpl in *; congruence.
Qed.

(** The velocity, the angles and the airspeed a step appends. *)
Lemma stepTime_airspeed s dt :
  exists v gamma sigma,
    self.v_BN_W (stepTime s dt) = append (self.v_BN_W s) v /\
    self.gamma (stepTime s dt) = append (self.gamma s) gamma /\
    self.sigma (stepTime s dt) = append (self.sigma s) sigma /\
    self.airspeed (stepTime s dt)
    = append (self.airspeed s) (wind_vector v gamma sigma) /\
    self.command (stepTime s dt) = userCommand.save_history (self.command s).
Proof.
  destruct (getGuidanceCommands_keeps s (Some (step_size s dt)))
    as (_ & _ & _ & Fv & Fg & Fs & _ & _ & _ & Fa & _ & _ & Fc).
  revert Fv Fg Fs Fa Fc.
  rewrite stepTime_unfold. cbv zeta.
  change (step_size s (Some (step_size s dt))) with (step_size s dt).
  generalize (getGuidanceCommands s (Some (step_size s dt))). intros g.
  rewrite eom_normal. cbv zeta. sel.
  intros <- <- <- <- <-.
  eexists _, _, _. repeat split.
Qed.

Lemma perform_airspeed s c :
  airspeed_derived s -> airspeed_derived (perform s c).
Proof.
  unfold airspeed_derived. intros (Ha & L1 & L2 & Hc).
  destruct c as [v g h | dt]; cbn [perform].
  - repeat split; assumption.
  - destruct (stepTime_airspeed s dt)
      as (x & y & z & -> & -> & -> & -> & ->).
    rewrite map3_append by assumption. rewrite Ha, !length_append.
    repeat split; [congruence | congruence | exact Hc].
Qed.

Lemma run_airspeed cs : forall s,
  airspeed_derived s -> airspeed_derived (run s cs).
Proof.
  induction cs as [|c cs IH]; intros s H; [exact H|].
  cbn [run fold_left]. apply IH. apply perform_airspeed. exact H.
Qed.

(** X4.  The airspeed is never integrated.  After any run every entry of the
    airspeed history is [utils.wind_vector] of the entries of the velocity,
    flight-path-angle and heading histories at the same index (the three
    histories have one length), and the commanded airspeed is the same
    function of the three commanded values. *)
Theorem airspeed_is_recomputed
        (vehicle : FixedWingVehicle.t) (TF : TF_constants.t)
        (IC : InitialConditions.t) (time dt : option Q) (cs : list call) :
  let s := run (__init__ vehicle TF IC time dt) cs in
  self.airspeed s
  = map3 wind_vector (self.v_BN_W s) (self.gamma s) (self.sigma s) /\
  List.length (self.airspeed s) = List.length (self.v_BN_W s) /\
  userCommand.airspeed (self.command s)
  = fwind_vector (userCommand.v_BN_W (self.command s))
                 (userCommand.gamma (self.command s))
                 (userCommand.sigma (self.command s)).
Proof.
  cbv zeta.
  destruct (run_airspeed cs (__init__ vehicle TF IC time dt))
    as (Ha & L1 & L2 & Hc).
  - repeat split.
  - split; [exact Ha|]. split; [|exact Hc].
    destruct (run_group_lengths cs (__init__ vehicle TF IC time dt)
                                1%nat 1%nat) as ((_ & _ & Lv & _ & _ & _ & _ & _ & La & _) & _);
      [repeat split | repeat split |].
    congruence.
Qed.

(** ** The lag filters *)

(** One Runge-Kutta step on [y' = -omega*y + omega*c]. *)
Lemma rk_step_lag f omega c t y h :
  (forall t' T, f t' T = map (fun T_i => -(1) * omega * T_i + omega * c) T) ->
  exists y',
    rk_step f t [y] h = [y'] /\
    y' == c + (y - c) * RK45_R (-(omega * h)).
Proof.
  intros Hf. eexists. split.
  - unfold rk_step. cbn [RK45_A RK45_C combine tl rk_stages app].
    unfold rk_combine.
    repeat (progress (rewrite ?Hf;
                      cbn [RK45_B combine fold_left vadd vscale map])).
    reflexivity.
  - unfold RK45_R. ring.
Qed.

Lemma rk_run_lag f omega c hs :
  (forall t' T, f t' T = map (fun T_i => -(1) * omega * T_i + omega * c) T) ->
  forall t y,
  exists y',
    rk_run f t [y] hs = [y'] /\ y' == c + (y - c) * lag_factor omega hs.
Proof.
  intros Hf. unfold lag_factor.
  induction hs as [|h hs IH]; intros t y.
  - exists y. split; [reflexivity|]. cbn [map Qprod]. ring.
  - cbn [rk_run map Qprod].
    destruct (rk_step_lag f omega c t y h Hf) as (y1 & -> & E1).
    destruct (IH (t + h) y1) as (y' & -> & E).
    exists y'. split; [reflexivity|]. rewrite E, E1. ring.
Qed.

Lemma Qgtb_wd x y m : x == y -> Qgtb x m = Qgtb y m.
Proof. intros H. unfold Qgtb. rewrite H. reflexivity. Qed.

Lemma clamp_wd x y m :
  x == y -> (if Qgtb x m then m else x) == (if Qgtb y m then m else y).
Proof.
  intros H. rewrite (Qgtb_wd x y m H).
  destruct (Qgtb y m); [reflexivity | exact H].
Qed.

Lemma thrust_lag_closed s dt :
  thrust_lag s dt
  == thrust_Tc s dt
     + (py_last (self.Thrust s) - thrust_Tc s dt)
       * lag_factor (FixedWingVehicle.omega_T (self.Vehicle s))
                    (thrust_steps s dt).
Proof.
  unfold thrust_lag, thrust_steps, solve_ivp, t_span. cbn [fst snd].
  destruct (rk_run_lag
              (__T_dot_ode (self.set_Tc s (thrust_Tc s dt)))
              (FixedWingVehicle.omega_T (self.Vehicle s)) (thrust_Tc s dt)
              (rk45_steps (__T_dot_ode (self.set_Tc s (thrust_Tc s dt)))
                          (py_last (self.time s)) (py_last (self.time s) + dt)
                          [py_last (self.Thrust s)]))
    with (t := py_last (self.time s)) (y := py_last (self.Thrust s))
    as (y' & -> & E).
  - intros t' T. reflexivity.
  - exact E.
Qed.

Lemma lift_lag_closed s dt :
  lift_lag s dt
  == lift_Lc s dt
     + (py_last (self.Lift s) - lift_Lc s dt)
       * lag_factor (FixedWingVehicle.omega_L (self.Vehicle s))
                    (lift_steps s dt).
Proof.
  unfold lift_lag, lift_steps, solve_ivp, t_span. cbn [fst snd].
  destruct (rk_run_lag
              (__L_dot_ode (self.set_Lc s (lift_Lc s dt)))
              (FixedWingVehicle.omega_L (self.Vehicle s)) (lift_Lc s dt)
              (rk45_steps (__L_dot_ode (self.set_Lc s (lift_Lc s dt)))
                          (py_last (self.time s)) (py_last (self.time s) + dt)
                          [py_last (self.Lift s)]))
    with (t := py_last (self.time s)) (y := py_last (self.Lift s))
    as (y' & -> & E).
  - intros t' T. reflexivity.
  - exact E.
Qed.

(** X5.  The lag filters in closed form.  The right-hand side of a lag filter
    is linear in the solver's variable, so each accepted Runge-Kutta step of
    size [h] multiplies the distance to the command by the stability
    polynomial [RK45_R(-omega*h)]: before its saturation the thrust a step
    appends is [Tc + (T - Tc) * R(-omega_T*h1) * ... * R(-omega_T*hn)], with
    [T] the newest committed thrust, [Tc] the saturated command of this
    step and [h1..hn] the accepted steps; the same holds for the lift with
    [omega_L], [Lc] and [L_max].  A thrust (lift) that equals the command is
    kept. *)
Theorem lag_filters_closed_form (s : State) (dt : Q) :
  let sT := _thrustGuidanceSystem s dt in
  let T := py_last (self.Thrust s) in
  let T_max := FixedWingVehicle.T_max (self.Vehicle s) in
  let T' := self.Tc sT
            + (T - self.Tc sT)
              * lag_factor (FixedWingVehicle.omega_T (self.Vehicle s))
                           (thrust_steps s dt) in
  let sL := _liftGuidanceSystem s dt in
  let L := py_last (self.Lift s) in
  let L_max :=
    py_last (self.v_BN_W s) ^ 2 * FixedWingVehicle.K_Lmax (self.Vehicle s) in
  let L' := self.Lc sL
            + (L - self.Lc sL)
              * lag_factor (FixedWingVehicle.omega_L (self.Vehicle s))
                           (lift_steps s dt) in
  py_last (self.Thrust sT) == (if Qgtb T' T_max then T_max else T') /\
  py_last (self.Lift sL) == (if Qgtb L' L_max then L_max else L') /\
  (T == self.Tc sT -> py_last (self.Thrust sT) == T) /\
  (L == self.Lc sL -> py_last (self.Lift sL) == L).
Proof.
  cbv zeta. rewrite thrust_normal, lift_normal. sel.
  rewrite !py_last_append.
  pose proof (thrust_lag_closed s dt) as HT.
  pose proof (lift_lag_closed s dt) as HL.
  assert (CT : thrust_Tc s dt <= FixedWingVehicle.T_max (self.Vehicle s))
    by apply clamp_le.
  assert (CL : lift_Lc s dt <= lift_L_max s) by apply clamp_le.
  unfold thrust_Thrust, lift_Lift. fold (lift_L_max s).
  split; [apply clamp_wd; exact HT|].
  split; [apply clamp_wd; exact HL|].
  split.
  - intros E.
    assert (H : thrust_lag s dt == thrust_Tc s dt)
      by (rewrite HT, E; ring).
    rewrite (Qgtb_wd _ _ _ H).
    apply Qgtb_false in CT. rewrite CT. rewrite H, E. reflexivity.
  - intros E.
    assert (H : lift_lag s dt == lift_Lc s dt)
      by (rewrite HL, E; ring).
    rewrite (Qgtb_wd _ _ _ H).
    apply Qgtb_false in CL. rewrite CL. rewrite H, E. reflexivity.
Qed.

(** ** Holding the current state *)

(** The solver on a scalar right-hand side that ignores its arguments,
    whatever the accepted steps. *)
Lemma solve_ivp_frozen1 f c t tf x :
  (forall t' y, f t' y = [c]) ->
  py_last (solve_ivp f (t, tf) [x])
  == x + c * Qsum (rk45_steps f t tf [x]).
Proof.
  intros Hf. unfold solve_ivp. cbn [fst snd].
  assert (H0 : veq [x] (vadd [x] (vscale 0 [c]))).
  { cbn [vadd vscale map]. constructor; [ring | constructor]. }
  pose proof (rk_run_const f [c] (rk45_steps f t tf [x]) t [x] [x] 0 Hf H0)
    as H.
  cbn [vadd vscale map] in H.
  inversion H as [|r r' l l' Hr Hl]; subst. inversion Hl; subst.
  cbn [py_last last]. rewrite Hr. ring.
Qed.

(** The thrust law when the commanded velocity is the newest velocity. *)
Lemma thrust_hold a dt :
  userCommand.v_BN_W (self.command a) = Num (py_last (self.v_BN_W a)) ->
  num (thrust_V_err a) == 0 /\
  thrust_xT a dt == self.xT a /\
  thrust_Tc_raw a dt == self.K_Ti a * self.xT a.
Proof.
  intros Hv.
  assert (HE : num (thrust_V_err a) == 0).
  { unfold thrust_V_err. rewrite Hv. cbn [fsub flift2 num]. ring. }
  assert (HX : thrust_xT a dt == self.xT a).
  { unfold thrust_xT, t_span.
    etransitivity; [apply solve_ivp_frozen1; intros; reflexivity|].
    sel. rewrite HE. ring. }
  split; [exact HE|]. split; [exact HX|].
  unfold thrust_Tc_raw. rewrite HX, HE. ring.
Qed.

(** The lift law when the commanded flight-path angle is the newest one. *)
Lemma lift_hold a dt :
  userCommand.gamma (self.command a) = Num (py_last (self.gamma a)) ->
  numeric_command a ->
  num (lift_hdot_err a) == 0 /\
  lift_xL a dt == self.xL a /\
  lift_Lc_raw a dt == self.K_Li a * self.xL a.
Proof.
  intros Hg Hn.
  destruct (numeric_values _ _ _ Hn) as (vc & gc & sc & Hv & _ & _).
  assert (HE : num (lift_hdot_err a) == 0).
  { unfold lift_hdot_err, fsin. rewrite Hv, Hg.
    cbn [fmul fsub flift1 flift2 num]. ring. }
  assert (HX : lift_xL a dt == self.xL a).
  { unfold lift_xL, t_span.
    etransitivity; [apply solve_ivp_frozen1; intros; reflexivity|].
    sel. rewrite HE. ring. }
  split; [exact HE|]. split; [exact HX|].
  unfold lift_Lc_raw. rewrite HX, HE. ring.
Qed.

(** The heading law when the commanded heading is the newest one. *)
Lemma heading_hold a :
  userCommand.sigma (self.command a) = Num (py_last (self.sigma a)) ->
  numeric_command a ->
  0 <= FixedWingVehicle.mu_max (self.Vehicle a) ->
  num (heading_sigma_err a) == 0 /\ heading_mu a == 0.
Proof.
  intros Hs Hn Hm.
  destruct (numeric_values _ _ _ Hn) as (vc & gc & sc & Hv & _ & _).
  assert (HE : num (heading_sigma_err a) == 0).
  { unfold heading_sigma_err. rewrite Hs. cbn [fsub flift2 num]. ring. }
  assert (HR : heading_mu_raw a == 0).
  { unfold heading_mu_raw, _calculateMu, heading_sigma_err. sel.
    rewrite Hv, Hs. cbn [fmul fdiv fsub flift2 num]. ring. }
  split; [exact HE|].
  unfold heading_mu.
  assert (HQ : Qgtb (Qabs (heading_mu_raw a))
                    (FixedWingVehicle.mu_max (self.Vehicle a)) = false).
  { apply Qgtb_false. rewrite HR. exact Hm. }
  rewrite HQ. exact HR.
Qed.

(** The attributes of a step with a command of numbers. *)
Lemma stepTime_values s dt :
  numeric_command s ->
  let d := step_size s dt in
  let s' := stepTime s dt in
  self.xT s' = thrust_xT s d /\ self.Tc s' = thrust_Tc s d /\
  self.xL s' = lift_xL s d /\ self.Lc s' = lift_Lc s d /\
  self.V_err s' = thrust_V_err s /\ self.hdot_err s' = lift_hdot_err s /\
  self.sigma_err s' = heading_sigma_err s /\
  py_last (self.Thrust s') = thrust_Thrust s d /\
  py_last (self.Lift s') = lift_Lift s d /\
  py_last (self.mu s') = heading_mu s.
Proof.
  intros Hn. cbv zeta.
  destruct (stepTime_guidance_attributes s dt)
    as (-> & -> & -> & -> & -> & -> & -> & -> & -> & -> & _).
  rewrite getGuidanceCommands_guidance by exact Hn.
  change (step_size s (Some (step_size s dt))) with (step_size s dt).
  destruct (guidance_attributes s (step_size s dt))
    as (-> & -> & -> & -> & -> & -> & -> & -> & -> & -> & _).
  rewrite !py_last_append. repeat split.
Qed.

(** X6.  Holding the current state.  When the command is set to the newest
    velocity, flight-path angle and heading, the three errors are zero, and
    the next step (of any size, whatever steps the solver accepts) leaves the
    two integral memories where they are, so that the thrust and lift
    commands are the saturated integral parts [K_Ti*xT] and [K_Li*xL], and
    appends a bank angle of zero. *)
Theorem holding_the_current_state (s : State) (dt : option Q) :
  0 <= FixedWingVehicle.mu_max (self.Vehicle s) ->
  let c := setCommandTrajectory s (Num (py_last (self.v_BN_W s)))
                                (Num (py_last (self.gamma s)))
                                (Num (py_last (self.sigma s))) in
  let s' := stepTime c dt in
  let T_max := FixedWingVehicle.T_max (self.Vehicle s) in
  let L_max :=
    py_last (self.v_BN_W s) ^ 2 * FixedWingVehicle.K_Lmax (self.Vehicle s) in
  (num (self.V_err c) == 0 /\ num (self.hdot_err c) == 0 /\
   num (self.sigma_err c) == 0) /\
  (num (self.V_err s') == 0 /\ num (self.hdot_err s') == 0 /\
   num (self.sigma_err s') == 0) /\
  self.xT s' == self.xT s /\ self.xL s' == self.xL s /\
  self.Tc s' == (if Qgtb (self.K_Ti s * self.xT s) T_max then T_max
                 else self.K_Ti s * self.xT s) /\
  self.Lc s' == (if Qgtb (self.K_Li s * self.xL s) L_max then L_max
                 else self.K_Li s * self.xL s) /\
  py_last (self.mu s') == 0.
Proof.
  intros Hm. cbv zeta.
  set (c := setCommandTrajectory s (Num (py_last (self.v_BN_W s)))
                                 (Num (py_last (self.gamma s)))
                                 (Num (py_last (self.sigma s)))).
  assert (Hn : numeric_command c) by reflexivity.
  destruct (thrust_hold c (step_size c dt) eq_refl) as (T1 & T2 & T3).
  destruct (lift_hold c (step_size c dt) eq_refl Hn) as (L1 & L2 & L3).
  destruct (heading_hold c eq_refl Hn Hm) as (H1 & H2).
  destruct (stepTime_values c dt Hn)
    as (-> & -> & -> & -> & -> & -> & -> & _ & _ & ->).
  split.
  { unfold c, setCommandTrajectory. cbv zeta. sel.
    cbn [userCommand.v_BN_W userCommand.gamma userCommand.sigma].
    unfold fsin, fsub, fmul. cbn [flift1 flift2 num].
    repeat split; ring. }
  split; [split; [exact T1 | split; [exact L1 | exact H1]]|].
  split; [exact T2|]. split; [exact L2|].
  split; [apply clamp_wd; exact T3|].
  split; [apply (clamp_wd _ _ (lift_L_max c)); exact L3 | exact H2].
Qed.

(** ** The first step after construction *)

Lemma Qsquare_nonneg (a : Q) : 0 <= a ^ 2.
Proof.
  change (a ^ 2) with (a * a). unfold Qle, Qmult. simpl.
  rewrite Z.mul_1_r. apply Z.square_nonneg.
Qed.

(** A state at rest: the command is the newest state, the integral memories
    are empty and the newest thrust and lift are zero.  One step keeps the
    guidance at rest and burns no fuel. *)
Lemma rest_is_kept (s : State) (dt : option Q) :
  userCommand.v_BN_W (self.command s) = Num (py_last (self.v_BN_W s)) ->
  userCommand.gamma (self.command s) = Num (py_last (self.gamma s)) ->
  userCommand.sigma (self.command s) = Num (py_last (self.sigma s)) ->
  self.xT s = 0 -> self.xL s = 0 ->
  py_last (self.Thrust s) = 0 -> py_last (self.Lift s) = 0 ->
  0 <= FixedWingVehicle.T_max (self.Vehicle s) ->
  0 <= FixedWingVehicle.K_Lmax (self.Vehicle s) ->
  0 <= FixedWingVehicle.mu_max (self.Vehicle s) ->
  let s' := stepTime s dt in
  self.xT s' == 0 /\ self.xL s' == 0 /\
  self.Tc s' == 0 /\ self.Lc s' == 0 /\
  py_last (self.Thrust s') == 0 /\ py_last (self.Lift s') == 0 /\
  py_last (self.mu s') == 0 /\
  py_last (self.mass s') == py_last (self.mass s).
Proof.
  intros Hv Hg Hs HxT HxL HT HL HTm HLm Hmm. cbv zeta.
  assert (Hn : numeric_command s).
  { unfold numeric_command. rewrite Hv, Hg, Hs. reflexivity. }
  set (d := step_size s dt).
  destruct (thrust_hold s d Hv) as (_ & T2 & T3).
  destruct (lift_hold s d Hg Hn) as (_ & L2 & L3).
  destruct (heading_hold s Hs Hn Hmm) as (_ & M).
  rewrite HxT in T2, T3. rewrite HxL in L2, L3.
  assert (T3' : thrust_Tc_raw s d == 0) by (rewrite T3; ring).
  assert (L3' : lift_Lc_raw s d == 0) by (rewrite L3; ring).
  assert (HLmax : 0 <= lift_L_max s).
  { unfold lift_L_max. apply Qmult_le_0_compat; [apply Qsquare_nonneg | exact HLm]. }
  assert (Tc0 : thrust_Tc s d == 0).
  { unfold thrust_Tc. rewrite (Qgtb_wd _ _ _ T3').
    apply Qgtb_false in HTm. rewrite HTm. exact T3'. }
  assert (Lc0 : lift_Lc s d == 0).
  { unfold lift_Lc. rewrite (Qgtb_wd _ _ _ L3').
    apply Qgtb_false in HLmax. rewrite HLmax. exact L3'. }
  assert (Tlag : thrust_lag s d == 0).
  { rewrite thrust_lag_closed, HT, Tc0. ring. }
  assert (Llag : lift_lag s d == 0).
  { rewrite lift_lag_closed, HL, Lc0. ring. }
  assert (T0 : thrust_Thrust s d == 0).
  { unfold thrust_Thrust. rewrite (Qgtb_wd _ _ _ Tlag).
    apply Qgtb_false in HTm. rewrite HTm. exact Tlag. }
  assert (L0 : lift_Lift s d == 0).
  { unfold lift_Lift. rewrite (Qgtb_wd _ _ _ Llag).
    apply Qgtb_false in HLmax. rewrite HLmax. exact Llag. }
  destruct (stepTime_values s dt Hn)
    as (-> & -> & -> & -> & _ & _ & _ & -> & -> & ->).
  fold d.
  split; [exact T2|]. split; [exact L2|]. split; [exact Tc0|].
  split; [exact Lc0|]. split; [exact T0|]. split; [exact L0|].
  split; [exact M|].
  (* the fuel burn of the step integrates the thrust just appended *)
  destruct (stepTime_guidance_attributes s dt)
    as (_ & _ & _ & _ & _ & _ & _ & _ & _ & _ & _ & _ & _ & -> & _).
  rewrite py_last_append. fold d.
  assert (GT : py_last (self.Thrust (getGuidanceCommands s (Some d)))
               = thrust_Thrust s d).
  { rewrite getGuidanceCommands_guidance by exact Hn.
    destruct (guidance_attributes s (step_size s (Some d))) as (-> & _).
    apply py_last_append. }
  destruct (getGuidanceCommands_frame s (Some d)) as (Gm & _).
  revert GT Gm. generalize (getGuidanceCommands s (Some d)). intros g GT Gm.
  unfold eom_mass, t_span.
  etransitivity; [apply solve_ivp_frozen1; intros; reflexivity|].
  rewrite GT, Gm, T0. ring.
Qed.

(** X7.  The first step after construction.  The constructor records the
    initial state as the command, with empty integral memories and a thrust
    and lift of zero; for non-negative [T_max], [K_Lmax] and [mu_max] the
    first step, of any size, therefore commands and appends zero thrust,
    zero lift and zero bank angle, and burns no fuel: the aircraft is not
    trimmed by the constructor, it starts unpowered and without lift. *)
Theorem first_step_is_unpowered
        (vehicle : FixedWingVehicle.t) (TF : TF_constants.t)
        (IC : InitialConditions.t) (time dt d : option Q) :
  0 <= FixedWingVehicle.T_max vehicle ->
  0 <= FixedWingVehicle.K_Lmax vehicle ->
  0 <= FixedWingVehicle.mu_max vehicle ->
  let s0 := __init__ vehicle TF IC time dt in
  let s1 := stepTime s0 d in
  py_last (self.Thrust s0) = 0 /\ py_last (self.Lift s0) = 0 /\
  self.Tc s1 == 0 /\ self.Lc s1 == 0 /\
  py_last (self.Thrust s1) == 0 /\ py_last (self.Lift s1) == 0 /\
  py_last (self.mu s1) == 0 /\
  py_last (self.mass s1) == InitialConditions.weight IC / const_gravity.
Proof.
  intros HT HL Hm. cbv zeta.
  destruct (rest_is_kept (__init__ vehicle TF IC time dt) d)
    as (_ & _ & H3 & H4 & H5 & H6 & H7 & H8);
    try reflexivity; try assumption.
  split; [reflexivity|]. split; [reflexivity|].
  split; [exact H3|]. split; [exact H4|]. split; [exact H5|].
  split; [exact H6|]. split; [exact H7|]. exact H8.
Qed.

(** ** The lift command and the commanded outputs *)

(** X8.  The lift command is [K_Li*xL + K_Lp*mass*hdot_err], with the updated
    integral memory [xL] and the climb-rate error
    [v_c*(sin(gamma_c) - sin(gamma))] of this evaluation, replaced by
    [L_max = v^2*K_Lmax] when it exceeds it and kept otherwise, also when it
    is negative.  The commanded angle of attack the law appends is computed
    from the saturated command and from the airspeed committed before the
    step. *)
Theorem lift_command_saturation (s : State) (dt vc gc : Q) :
  userCommand.v_BN_W (self.command s) = Num vc ->
  userCommand.gamma (self.command s) = Num gc ->
  let s' := _liftGuidanceSystem s dt in
  let hdot_err := vc * (np_sin gc - np_sin (py_last (self.gamma s))) in
  let Lc := self.K_Li s * self.xL s'
            + self.K_Lp s * py_last (self.mass s) * hdot_err in
  let L_max :=
    py_last (self.v_BN_W s) ^ 2 * FixedWingVehicle.K_Lmax (self.Vehicle s) in
  self.hdot_err s' = Num hdot_err /\
  self.Lc s' = (if Qgtb Lc L_max then L_max else Lc) /\
  (Lc <= L_max -> self.Lc s' = Lc) /\
  (L_max < Lc -> self.Lc s' = L_max) /\
  self.Lc s' <= L_max /\
  self.alpha_c s'
  = append (self.alpha_c s)
           (2 * self.Lc s'
            / (const_density * FixedWingVehicle.wing_area (self.Vehicle s)
               * FixedWingVehicle.C_Lalpha (self.Vehicle s)
               * py_last (self.airspeed s) ^ 2)
            + FixedWingVehicle.alpha_o (self.Vehicle s)).
Proof.
  intros Hv Hg. cbv zeta. rewrite lift_normal. sel.
  unfold lift_alpha_c, lift_Lc, lift_Lc_raw, lift_hdot_err, lift_L_max, fsin.
  rewrite Hv, Hg. cbn [fmul fsub flift1 flift2 num].
  set (Lc := self.K_Li s * lift_xL s dt
             + self.K_Lp s * py_last (self.mass s)
               * (vc * (np_sin gc - np_sin (py_last (self.gamma s))))).
  set (L_max := py_last (self.v_BN_W s) ^ 2
                * FixedWingVehicle.K_Lmax (self.Vehicle s)).
  split; [reflexivity|]. split; [reflexivity|].
  split; [|split; [|split]].
  - intros H. apply Qgtb_false in H. rewrite H. reflexivity.
  - intros H. apply Qgtb_true in H. rewrite H. reflexivity.
  - apply clamp_le.
  - reflexivity.
Qed.

(** The histories only grow: the first altitude stays. *)
Lemma perform_first_altitude s c :
  self.h s <> [] ->
  self.h (perform s c) <> [] /\ hd 0 (self.h (perform s c)) = hd 0 (self.h s).
Proof.
  intros Hs. destruct c as [v g h | dt]; cbn [perform].
  - split; [exact Hs | reflexivity].
  - destruct (stepTime_eom_attributes s dt)
      as (_ & _ & _ & _ & _ & _ & (x & ->) & _).
    destruct (getGuidanceCommands_keeps s (Some (step_size s dt)))
      as (_ & _ & _ & _ & _ & _ & _ & _ & -> & _).
    split; [apply append_not_nil | apply hd_append; exact Hs].
Qed.

Lemma run_first_altitude cs : forall s,
  self.h s <> [] -> hd 0 (self.h (run s cs)) = hd 0 (self.h s).
Proof.
  induction cs as [|c cs IH]; intros s Hs; [reflexivity|].
  cbn [run fold_left].
  destruct (perform_first_altitude s c Hs) as (H1 & H2).
  rewrite <- H2. apply IH. exact H1.
Qed.

(** X9.  The commanded altitude.  After any run, a step taken with a command
    of numbers appends to the commanded-altitude history the straight line
    [sin(gamma_c) * v_c * t + h(0)] at the time [t] the step advances to,
    where [h(0)] is the altitude given at construction: the line starts from
    the initial altitude at time zero, not from the altitude or the time at
    which the command was set. *)
Theorem commanded_altitude
        (vehicle : FixedWingVehicle.t) (TF : TF_constants.t)
        (IC : InitialConditions.t) (time dt : option Q) (cs : list call)
        (d : option Q) (vc gc sc : Q) :
  let s := run (__init__ vehicle TF IC time dt) cs in
  userCommand.v_BN_W (self.command s) = Num vc ->
  userCommand.gamma (self.command s) = Num gc ->
  userCommand.sigma (self.command s) = Num sc ->
  let s' := stepTime s d in
  py_last (self.h_c s')
  = np_sin gc * vc * py_last (self.time s') + InitialConditions.h IC /\
  List.length (self.h_c s') = S (List.length (self.h_c s)).
Proof.
  intros s Hv Hg Hs. cbv zeta.
  assert (Hn : numeric_command s).
  { unfold numeric_command. rewrite Hv, Hg, Hs. reflexivity. }
  assert (H0 : hd 0 (self.h s) = InitialConditions.h IC).
  { unfold s. rewrite run_first_altitude; [reflexivity | discriminate]. }
  destruct (stepTime_keeps s d) as (_ & _ & -> & _).
  destruct (stepTime_guidance_attributes s d)
    as (_ & _ & _ & _ & _ & _ & _ & _ & _ & _ & _ & _ & _ & _ & ->).
  destruct (getGuidanceCommands_frame s (Some (step_size s d)))
    as (_ & -> & _).
  rewrite getGuidanceCommands_guidance by exact Hn.
  destruct (guidance_outputs s (step_size s (Some (step_size s d))))
    as (_ & -> & _).
  rewrite !py_last_append, length_append.
  split; [|reflexivity].
  unfold lift_h_c, fsin. rewrite Hv, Hg, H0. reflexivity.
Qed.

(** ** What a step prints *)

(** X10.  The diagnostics of a step.  A step with a command of numbers
    prints, in this order, at most one line per law: the thrust law when its
    command before saturation exceeds [T_max], the lift law when its command
    before saturation exceeds [L_max], the heading law when the magnitude of
    the bank angle before saturation exceeds [mu_max]; each line carries the
    value before saturation and the limit.  Nothing else prints: not the
    saturation of the filtered thrust and lift, not the equations of motion,
    and not the guard; a step whose three values are within their limits
    prints nothing.  A step whose guard finds the object [np.nan] among the
    commanded values prints the one line of the guard and nothing else. *)
Theorem diagnostics_of_a_step (s : State) (dt : option Q) :
  let d := step_size s dt in
  let s' := stepTime s dt in
  let events := thrust_events s d ++ lift_events s d ++ heading_events s in
  (numeric_command s ->
   self.stdout s' = self.stdout s ++ events /\
   (List.length events <= 3)%nat /\
   ~ In NoUserTrajectory events /\
   (thrust_Tc_raw s d <= FixedWingVehicle.T_max (self.Vehicle s) ->
    lift_Lc_raw s d <= lift_L_max s ->
    Qabs (heading_mu_raw s) <= FixedWingVehicle.mu_max (self.Vehicle s) ->
    self.stdout s' = self.stdout s)) /\
  (np_nan_in [userCommand.v_BN_W (self.command s);
              userCommand.gamma (self.command s);
              userCommand.sigma (self.command s)] = true ->
   self.stdout s' = self.stdout s ++ [NoUserTrajectory]).
Proof.
  cbv zeta.
  destruct (stepTime_guidance_attributes s dt)
    as (_ & _ & _ & _ & _ & _ & _ & _ & _ & _ & _ & _ & -> & _).
  split.
  - intros Hn.
    rewrite getGuidanceCommands_guidance by exact Hn.
    destruct (guidance_outputs s (step_size s (Some (step_size s dt))))
      as (_ & _ & -> & _).
    change (step_size s (Some (step_size s dt))) with (step_size s dt).
    split; [reflexivity|].
    unfold thrust_events, lift_events, heading_events.
    split; [|split].
    + destruct (Qgtb (thrust_Tc_raw _ _) _), (Qgtb (lift_Lc_raw _ _) _),
        (Qgtb (Qabs _) _); cbn; lia.
    + destruct (Qgtb (thrust_Tc_raw _ _) _), (Qgtb (lift_Lc_raw _ _) _),
        (Qgtb (Qabs _) _); cbn; intuition discriminate.
    + intros HT HL HM.
      apply Qgtb_false in HT, HL, HM. rewrite HT, HL, HM. apply app_nil_r.
  - intros Hn. rewrite getGuidanceCommands_fires by exact Hn. reflexivity.
Qed.

(** ** The history of the command *)

Lemma run_command_history cs : forall s,
  userCommand.airspeed (self.command s)
  = commanded_airspeed (command_values (self.command s)) ->
  let l := commands_in_force (command_values (self.command s)) cs in
  let c := self.command (run s cs) in
  userCommand.v_BN_W_history c
  = userCommand.v_BN_W_history (self.command s)
    ++ map (fun x => fst (fst x)) l /\
  userCommand.gamma_history c
  = userCommand.gamma_history (self.command s)
    ++ map (fun x => snd (fst x)) l /\
  userCommand.sigma_history c
  = userCommand.sigma_history (self.command s) ++ map snd l /\
  userCommand.airspeed_history c
  = userCommand.airspeed_history (self.command s)
    ++ map commanded_airspeed l.
Proof.
  induction cs as [|c cs IH]; intros s Ha; cbv zeta.
  - cbn [run fold_left commands_in_force map]. rewrite !app_nil_r.
    repeat split.
  - cbn [run fold_left]. destruct c as [v g h | dt].
    + cbn [commands_in_force].
      apply (IH (perform s (SetCommandTrajectory v g h))). reflexivity.
    + cbn [commands_in_force map perform].
      destruct (stepTime_airspeed s dt) as (x & y & z & _ & _ & _ & _ & Hc).
      specialize (IH (stepTime s dt)). cbv zeta in IH. rewrite Hc in IH.
      destruct IH as (H1 & H2 & H3 & H4); [exact Ha|].
      unfold run in *. cbn [perform].
      rewrite H1, H2, H3, H4.
      unfold userCommand.save_history, command_values, append.
      cbn [userCommand.v_BN_W userCommand.gamma userCommand.sigma
           userCommand.v_BN_W_history userCommand.gamma_history
           userCommand.sigma_history userCommand.airspeed_history
           userCommand.airspeed fst snd].
      rewrite <- !app_assoc. cbn [app].
      rewrite Ha. repeat split.
Qed.

(** X11.  The history of the command.  The four histories of the command
    hold the values given at construction followed, for each step of the run
    in order, by the commanded values in force at that step (and the
    airspeed derived from them): a step records the command it ran with even
    when the command has not changed, and a command that is replaced before
    the next step is never recorded. *)
Theorem command_history_of_a_run
        (vehicle : FixedWingVehicle.t) (TF : TF_constants.t)
        (IC : InitialConditions.t) (time dt : option Q) (cs : list call) :
  let c0 := (Num (InitialConditions.v_BN_W IC),
             Num (InitialConditions.gamma IC),
             Num (InitialConditions.sigma IC)) in
  let l := commands_in_force c0 cs in
  let c := self.command (run (__init__ vehicle TF IC time dt) cs) in
  userCommand.v_BN_W_history c = map (fun x => fst (fst x)) (c0 :: l) /\
  userCommand.gamma_history c = map (fun x => snd (fst x)) (c0 :: l) /\
  userCommand.sigma_history c = map snd (c0 :: l) /\
  userCommand.airspeed_history c = map commanded_airspeed (c0 :: l) /\
  List.length l = steps_taken cs.
Proof.
  cbv zeta.
  destruct (run_command_history cs (__init__ vehicle TF IC time dt))
    as (H1 & H2 & H3 & H4); [reflexivity|].
  split; [exact H1|]. split; [exact H2|]. split; [exact H3|].
  split; [exact H4|]. clear H1 H2 H3 H4.
  generalize (Num (InitialConditions.v_BN_W IC),
              Num (InitialConditions.gamma IC),
              Num (InitialConditions.sigma IC)).
  induction cs as [|c cs IH]; intros p; [reflexivity|].
  destruct c as [v g h | d].
  - cbn [commands_in_force].
    change (steps_taken (SetCommandTrajectory v g h :: cs))
      with (steps_taken cs).
    apply IH.
  - cbn [commands_in_force List.length].
    change (steps_taken (StepTime d :: cs)) with (S (steps_taken cs)).
    rewrite IH. reflexivity.
Qed.

(** ** Angle of attack and drag *)

(** The angle of attack and the drag a step appends are computed on the
    state the guidance laws leave. *)
Lemma stepTime_alpha_drag s dt :
  let g := getGuidanceCommands s (Some (step_size s dt)) in
  self.alpha (stepTime s dt) = append (self.alpha s) (_calculateAlpha g) /\
  self.drag (stepTime s dt) = append (self.drag s) (_calculateDrag g) /\
  self.Lift (stepTime s dt) = self.Lift g /\
  self.airspeed g = self.airspeed s /\ self.Vehicle g = self.Vehicle s.
Proof.
  cbv zeta.
  destruct (getGuidanceCommands_keeps s (Some (step_size s dt)))
    as ((FV & _) & _ & _ & _ & _ & _ & _ & _ & _ & Fa & Fal & Fd & _).
  revert FV Fa Fal Fd.
  rewrite stepTime_unfold. cbv zeta.
  change (step_size s (Some (step_size s dt))) with (step_size s dt).
  generalize (getGuidanceCommands s (Some (step_size s dt))). intros g.
  rewrite eom_normal. cbv zeta. sel.
  intros -> -> -> ->. repeat split.
Qed.

(** X12.  The angle of attack and the drag of a step.  The equations of motion
    append the angle of attack [2*L/(rho*S*C_Lalpha*a^2) + alpha_o] and the
    drag [rho*S*C_Do*a^2/2 + 2*L^2/(rho*S*pi*AR*e*a^2)] where [L] is the
    lift the guidance laws of the same step appended (the lift left by the
    last evaluation when the guard skipped them) and [a] is the airspeed
    committed before the step: the airspeed of the step is appended only
    after them. *)
Theorem alpha_and_drag_of_a_step (s : State) (dt : option Q) :
  let s' := stepTime s dt in
  let L := py_last (self.Lift s') in
  let a := py_last (self.airspeed s) in
  let V := self.Vehicle s in
  py_last (self.alpha s')
  = 2 * L
    / (const_density * FixedWingVehicle.wing_area V
       * FixedWingVehicle.C_Lalpha V * a ^ 2)
    + FixedWingVehicle.alpha_o V /\
  py_last (self.drag s')
  = (1 # 2) * const_density * FixedWingVehicle.wing_area V
    * FixedWingVehicle.C_Do V * a ^ 2
    + 2 * L ^ 2
      / (const_density * FixedWingVehicle.wing_area V * np_pi
         * FixedWingVehicle.aspect_ratio V * FixedWingVehicle.wing_eff V
         * a ^ 2) /\
  List.length (self.alpha s') = S (List.length (self.alpha s)) /\
  List.length (self.drag s') = S (List.length (self.drag s)).
Proof.
  cbv zeta.
  destruct (stepTime_alpha_drag s dt) as (-> & -> & -> & Ha & HV).
  rewrite !py_last_append, !length_append.
  unfold _calculateAlpha, _calculateDrag. rewrite Ha, HV.
  repeat split.
Qed.

(** ** Bounds on whole histories *)

Lemma perform_bounds s c :
  0 <= FixedWingVehicle.mu_max (self.Vehicle s) ->
  Forall (fun T => T <= FixedWingVehicle.T_max (self.Vehicle s))
         (self.Thrust s) /\
  Forall (fun m => Qabs m <= FixedWingVehicle.mu_max (self.Vehicle s))
         (self.mu s) ->
  Forall (fun T => T <= FixedWingVehicle.T_max (self.Vehicle s))
         (self.Thrust (perform s c)) /\
  Forall (fun m => Qabs m <= FixedWingVehicle.mu_max (self.Vehicle s))
         (self.mu (perform s c)).
Proof.
  intros Hm (HT & Hmu).
  destruct c as [v g h | dt]; cbn [perform].
  - split; [exact HT | exact Hmu].
  - destruct (stepTime_guidance_attributes s dt) as (-> & _ & -> & _).
    destruct (getGuidanceCommands_nan s (Some (step_size s dt))) as [E | ->].
    + rewrite getGuidanceCommands_passes by exact E.
      destruct (guidance_attributes s (step_size s (Some (step_size s dt))))
        as (-> & _ & -> & _).
      split; apply Forall_app; split; try assumption;
        (constructor; [|constructor]).
      * apply clamp_le.
      * apply heading_mu_bound. exact Hm.
    + split; assumption.
Qed.

Lemma run_bounds cs : forall s,
  0 <= FixedWingVehicle.mu_max (self.Vehicle s) ->
  Forall (fun T => T <= FixedWingVehicle.T_max (self.Vehicle s))
         (self.Thrust s) /\
  Forall (fun m => Qabs m <= FixedWingVehicle.mu_max (self.Vehicle s))
         (self.mu s) ->
  Forall (fun T => T <= FixedWingVehicle.T_max (self.Vehicle s))
         (self.Thrust (run s cs)) /\
  Forall (fun m => Qabs m <= FixedWingVehicle.mu_max (self.Vehicle s))
         (self.mu (run s cs)).
Proof.
  induction cs as [|c cs IH]; intros s Hm H; [exact H|].
  cbn [run fold_left].
  destruct (perform_keeps s c) as (HV & _).
  rewrite <- HV in *.
  apply IH; [exact Hm|].
  rewrite HV in *. apply perform_bounds; assumption.
Qed.

(** X13.  Bounds on whole histories.  For non-negative [T_max] and
    [mu_max], after any run whose commanded values are numbers or the object
    [np.nan], every entry of the thrust history is at most [T_max] and every
    entry of the bank-angle history is within [[-mu_max, mu_max]]: the
    entries of the constructor are zero, a step with a command of numbers
    appends saturated values, and a step whose guard finds the object
    [np.nan] appends none. *)
Theorem history_bounds
        (vehicle : FixedWingVehicle.t) (TF : TF_constants.t)
        (IC : InitialConditions.t) (time dt : option Q) (cs : list call) :
  Forall plain_call cs ->
  0 <= FixedWingVehicle.T_max vehicle ->
  0 <= FixedWingVehicle.mu_max vehicle ->
  let s := run (__init__ vehicle TF IC time dt) cs in
  Forall (fun T => T <= FixedWingVehicle.T_max vehicle) (self.Thrust s) /\
  Forall (fun m => - FixedWingVehicle.mu_max vehicle <= m
                   /\ m <= FixedWingVehicle.mu_max vehicle) (self.mu s) /\
  List.length (self.Thrust s) = S (guided_steps true cs) /\
  List.length (self.mu s) = S (guided_steps true cs).
Proof.
  intros Hcs HT Hm. cbv zeta.
  destruct (run_bounds cs (__init__ vehicle TF IC time dt))
    as (H2 & H3); try assumption.
  - unfold __init__. cbv zeta. sel. split.
    + constructor; [exact HT | constructor].
    + constructor; [|constructor].
      unfold _calculateMu, userCommand__init__. cbv zeta. sel.
      cbn [userCommand.v_BN_W]. unfold fmul, fdiv. cbn [flift2 num].
      match goal with
      | |- Qabs ?x <= _ => assert (E : x == 0) by ring; rewrite E
      end.
      exact Hm.
  - split; [exact H2|]. split.
    + eapply Forall_impl; [|exact H3].
      intros m H. apply Qabs_Qle_condition. exact H.
    + destruct (run_group_lengths cs (__init__ vehicle TF IC time dt)
                                  1%nat 1%nat) as (_ & (L1 & _ & L3 & _));
        [repeat split | repeat split |].
      change (guard_open (__init__ vehicle TF IC time dt)) with true
        in L1, L3.
      rewrite (passed_steps_plain cs true Hcs) in L1, L3.
      split; [exact L1 | exact L3].
Qed.

End FW_NL_GuidanceSystem.

(** * The C-130 of [run_FW_UAV_GNC_Test]

    The development at the aircraft, gains and initial conditions of the
    repository's own run, with the stand-ins of [Example] for numpy and
    [utils] and a solver that accepts one step over each interval. *)

Abbreviation C130_init :=
  (__init__ Example.pi Example.const_gravity Example.const_density
            Example.wind_vector Example.my_acft Example.TF Example.init_cond
            None None).

Abbreviation C130_set := (setCommandTrajectory Example.sin Example.wind_vector).

Abbreviation C130_step :=
  (stepTime Example.sin Example.cos Example.pi Example.const_gravity
            Example.const_density Example.Re_bar Example.wind_vector
            Example.one_step).

Abbreviation C130_run :=
  (run Example.sin Example.cos Example.pi Example.const_gravity
       Example.const_density Example.Re_bar Example.wind_vector
       Example.one_step).

Abbreviation C130_guidance :=
  (getGuidanceCommands Example.sin Example.const_gravity Example.const_density
                       Example.one_step).

Abbreviation C130_thrust := (_thrustGuidanceSystem Example.one_step).

(** The small aircraft of [Example], constructed at time 0 with a step size
    of one and unit constants of gravity and density. *)
Abbreviation toy_init :=
  (__init__ Example.pi 1 1 Example.wind_vector Example.toy_acft
            Example.toy_TF Example.toy_cond (Some 0) (Some 1)).

Abbreviation toy_step :=
  (stepTime Example.sin Example.cos Example.pi 1 1 Example.Re_bar
            Example.wind_vector Example.one_step).

Abbreviation toy_run :=
  (run Example.sin Example.cos Example.pi 1 1 Example.Re_bar
       Example.wind_vector Example.one_step).

Abbreviation C130_heading := (_headingGuidanceSystem Example.const_gravity).

Lemma one_step_span (f : Q -> vec -> vec) (t0 tf : Q) (y0 : vec) :
  Qsum (Example.one_step f t0 tf y0) == tf - t0.
Proof. cbn. ring. Qed.

Lemma two_steps_span (f : Q -> vec -> vec) (t0 tf : Q) (y0 : vec) :
  Qsum (Example.two_steps f t0 tf y0) == tf - t0.
Proof. cbn. field. Qed.

(** The thrust a step appends, for a command of numbers. *)
Lemma step_Thrust np_sin np_cos np_pi g rho Re wind steps
      (s : State) (dt : option Q) :
  numeric_command s ->
  py_last (self.Thrust (stepTime np_sin np_cos np_pi g rho Re wind steps s dt))
  = thrust_Thrust steps s (step_size s dt).
Proof.
  intros Hn.
  destruct (stepTime_guidance_attributes
              np_sin np_cos np_pi g rho Re wind steps s dt) as (-> & _).
  rewrite getGuidanceCommands_guidance by exact Hn.
  destruct (guidance_attributes
              np_sin g rho steps s (step_size s (Some (step_size s dt))))
    as (-> & _).
  apply py_last_append.
Qed.

(** C1, witness: a step to a faster, climbing, turning command. *)
Lemma saturation_upper_bounds_witness :
  let s := C130_set C130_init (Num 660) (Num (1 # 10)) (Num (1 # 4)) in
  numeric_command s /\
  0 <= FixedWingVehicle.mu_max (self.Vehicle s) /\
  py_last (self.Thrust (C130_step s None))
  <= FixedWingVehicle.T_max (self.Vehicle s).
Proof.
  intros s.
  assert (Hn : numeric_command s) by reflexivity.
  assert (Hm : 0 <= FixedWingVehicle.mu_max (self.Vehicle s))
    by (apply Qle_bool_iff; reflexivity).
  split; [exact Hn|]. split; [exact Hm|].
  exact (proj1 (saturation_upper_bounds
                  Example.sin Example.cos Example.pi Example.const_gravity
                  Example.const_density Example.Re_bar Example.wind_vector
                  Example.one_step s None Hn Hm)).
Defined.

(** C1, counterexample: the small aircraft flies at speed 1 and is commanded
    to speed 0.  The velocity error is -1, the thrust command
    [0*xT + 1*1*(-1)] is -1, and one Runge-Kutta step of the lag
    [dT/dt = 1*(-1 - T)] from [T = 0] over [dt = 1] gives -379/600: the
    thrust is not kept at or above zero. *)
Lemma thrust_falls_below_zero :
  let s := C130_set toy_init (Num 0) (Num 0) (Num 0) in
  let s' := toy_step s None in
  numeric_command s /\
  py_last (self.Thrust s') == - (379 # 600) /\
  ~ (0 <= py_last (self.Thrust s')
     /\ py_last (self.Thrust s') <= FixedWingVehicle.T_max (self.Vehicle s)).
Proof.
  intros s s'. assert (Hn : numeric_command s) by reflexivity.
  assert (E : py_last (self.Thrust s') == - (379 # 600)).
  { unfold s'. rewrite (step_Thrust _ _ _ _ _ _ _ _ s None Hn).
    apply Qeq_bool_iff. vm_compute. reflexivity. }
  split; [exact Hn|]. split; [exact E|].
  intros [H _]. rewrite E in H. revert H.
  apply Qlt_not_le. reflexivity.
Qed.

(** C2, witness: a step, a command, a step of another size. *)
Lemma history_lengths_witness :
  let cs := [StepTime None;
             SetCommandTrajectory (Num 660) (Num (1 # 10)) (Num (1 # 4));
             StepTime (Some (1 # 50))] in
  Forall numeric_call cs /\ hist_lengths (C130_run C130_init cs) 3.
Proof.
  intros cs.
  assert (H : Forall numeric_call cs) by (repeat constructor).
  split; [exact H|].
  exact (proj1 (history_lengths
                  Example.sin Example.cos Example.pi Example.const_gravity
                  Example.const_density Example.Re_bar Example.wind_vector
                  Example.one_step Example.my_acft Example.TF
                  Example.init_cond None None cs H)).
Defined.

(** C2, counterexample: after [setCommandTrajectory(np.nan, 0, 0)] the guard
    of [getGuidanceCommands] fires; the step appends to the time (and to the
    mass, the velocity, ...) but not to the thrust. *)
Lemma nan_command_breaks_equal_lengths :
  let s := C130_step (C130_set C130_init np_nan (Num 0) (Num 0)) None in
  List.length (self.time s) = 2%nat /\
  List.length (self.Thrust s) = 1%nat /\
  ~ (exists n, hist_lengths s n).
Proof.
  intros s.
  assert (Hn : ~ guard_passes (C130_set C130_init np_nan (Num 0) (Num 0)))
    by (intros H; discriminate H).
  destruct (stepTime_nan
              Example.sin Example.cos Example.pi Example.const_gravity
              Example.const_density Example.Re_bar Example.wind_vector
              Example.one_step _ None Hn) as (Ht & HT & _).
  fold s in Ht, HT.
  assert (L1 : List.length (self.time s) = 2%nat)
    by (rewrite Ht; reflexivity).
  assert (L2 : List.length (self.Thrust s) = 1%nat)
    by (rewrite HT; reflexivity).
  split; [exact L1|]. split; [exact L2|].
  intros (n & Hl). unfold hist_lengths in Hl.
  destruct Hl as (H1 & _ & _ & _ & _ & _ & _ & _ & _ & _ & _ & _ & H2 & _).
  rewrite L1 in H1. rewrite L2 in H2. congruence.
Qed.

(** C3, witness: the two integral memories at the C-130, for a solver that
    accepts one step and for one that halves the interval. *)
Lemma frozen_rhs_extrapolation_witness :
  let s := C130_set C130_init (Num 660) (Num (1 # 10)) (Num (1 # 4)) in
  let dt := 1 # 100 in
  (forall f t0 tf y0, Qsum (Example.one_step f t0 tf y0) == tf - t0) /\
  (forall f t0 tf y0, Qsum (Example.two_steps f t0 tf y0) == tf - t0) /\
  self.xT (C130_thrust s dt)
  == self.xT s
     + py_last (self.mass s) * num (self.V_err (C130_thrust s dt)) * dt /\
  self.xT (_thrustGuidanceSystem Example.two_steps s dt)
  == self.xT s
     + py_last (self.mass s)
       * num (self.V_err (_thrustGuidanceSystem Example.two_steps s dt)) * dt.
Proof.
  intros s dt.
  split; [exact one_step_span|]. split; [exact two_steps_span|].
  pose proof (frozen_rhs_extrapolation
                Example.sin Example.cos Example.pi Example.const_gravity
                Example.const_density Example.Re_bar Example.wind_vector
                Example.one_step one_step_span s dt) as H1.
  pose proof (frozen_rhs_extrapolation
                Example.sin Example.cos Example.pi Example.const_gravity
                Example.const_density Example.Re_bar Example.wind_vector
                Example.two_steps two_steps_span s dt) as H2.
  cbv zeta in H1, H2.
  destruct H1 as (_ & H1 & _). destruct H2 as (_ & H2 & _).
  split; [exact H1 | exact H2].
Defined.

(** C3, counterexample: the small aircraft flies at speed 1 and is commanded
    to speed 2.  The thrust command is 1 and the committed thrust is 0, so
    the right-hand side of the lag filter at the committed thrust is
    [-1*1*0 + 1*1 = 1] and the extrapolation would give [0 + 1*1 = 1].  But
    the right-hand side reads the solver's variable (at [T = 1] it is 0), and
    one Runge-Kutta step over [dt = 1] gives 379/600. *)
Lemma lag_filter_is_not_an_extrapolation :
  let s := C130_set toy_init (Num 2) (Num 0) (Num 0) in
  let dt := 1 in
  let s' := C130_thrust s dt in
  let T := py_last (self.Thrust s) in
  let omega_T := FixedWingVehicle.omega_T (self.Vehicle s) in
  let T_dot := -(1) * omega_T * T + omega_T * self.Tc s' in
  T == 0 /\ self.Tc s' == 1 /\ T + T_dot * dt == 1 /\
  hd 0 (__T_dot_ode s' 0 [T]) == 1 /\
  hd 0 (__T_dot_ode s' 0 [T + 1]) == 0 /\
  py_last (self.Thrust s') == 379 # 600 /\
  ~ py_last (self.Thrust s') == T + T_dot * dt.
Proof.
  cbv zeta.
  assert (E : py_last
                (self.Thrust (C130_thrust
                                (C130_set toy_init (Num 2) (Num 0) (Num 0)) 1))
              == 379 # 600)
    by (apply Qeq_bool_iff; vm_compute; reflexivity).
  assert (F : py_last (self.Thrust (C130_set toy_init (Num 2) (Num 0) (Num 0)))
              + (-(1)
                 * FixedWingVehicle.omega_T
                     (self.Vehicle
                        (C130_set toy_init (Num 2) (Num 0) (Num 0)))
                 * py_last
                     (self.Thrust (C130_set toy_init (Num 2) (Num 0) (Num 0)))
                 + FixedWingVehicle.omega_T
                     (self.Vehicle
                        (C130_set toy_init (Num 2) (Num 0) (Num 0)))
                   * self.Tc
                       (C130_thrust
                          (C130_set toy_init (Num 2) (Num 0) (Num 0)) 1))
                * 1
              == 1)
    by (apply Qeq_bool_iff; vm_compute; reflexivity).
  split; [reflexivity|].
  split; [apply Qeq_bool_iff; vm_compute; reflexivity|].
  split; [exact F|].
  split; [apply Qeq_bool_iff; vm_compute; reflexivity|].
  split; [apply Qeq_bool_iff; vm_compute; reflexivity|].
  split; [exact E|].
  rewrite E, F. apply Qeq_bool_neq. reflexivity.
Qed.

(** C4, witness: commanded to slow down, the thrust command of the small
    aircraft is negative and stays negative. *)
Lemma thrust_command_saturation_witness :
  let s := C130_set toy_init (Num 0) (Num 0) (Num 0) in
  userCommand.v_BN_W (self.command s) = Num 0 /\
  self.V_err (C130_thrust s 1) = Num (0 - py_last (self.v_BN_W s)) /\
  self.Tc (C130_thrust s 1) < 0.
Proof.
  intros s.
  assert (Hv : userCommand.v_BN_W (self.command s) = Num 0) by reflexivity.
  pose proof (thrust_command_saturation Example.one_step s 1 0 Hv) as H.
  cbv zeta in H. destruct H as (HV & _ & _ & _ & H).
  split; [exact Hv|]. split; [exact HV|].
  apply H.
  - apply Qlt_alt. vm_compute. reflexivity.
  - apply Qle_bool_iff. reflexivity.
Defined.

(** C6, witness: a turn of one radian saturates the bank angle. *)
Lemma bank_angle_law_witness :
  let s := C130_set C130_init (Num 660) (Num 0) (Num 1) in
  let mu_max := FixedWingVehicle.mu_max (self.Vehicle s) in
  userCommand.v_BN_W (self.command s) = Num 660 /\
  userCommand.sigma (self.command s) = Num 1 /\
  0 <= mu_max /\
  - mu_max <= py_last (self.mu (C130_heading s (1 # 100))) <= mu_max.
Proof.
  intros s mu_max.
  assert (Hv : userCommand.v_BN_W (self.command s) = Num 660) by reflexivity.
  assert (Hs : userCommand.sigma (self.command s) = Num 1) by reflexivity.
  assert (Hm : 0 <= FixedWingVehicle.mu_max (self.Vehicle s))
    by (apply Qle_bool_iff; reflexivity).
  pose proof (bank_angle_law Example.const_gravity s (1 # 100) 660 1
                             Hv Hs Hm) as H.
  cbv zeta in H. destruct H as (_ & _ & H & _).
  split; [exact Hv|]. split; [exact Hs|]. split; [exact Hm | exact H].
Defined.

(** C7, witness: commanded to speed up, the thrust of the first step of the
    small aircraft is positive (379/600) and its mass falls. *)
Lemma mass_nonincreasing_witness :
  let cs := [SetCommandTrajectory (Num 2) (Num 0) (Num 0); StepTime None] in
  (forall f t0 tf y0, Qsum (Example.one_step f t0 tf y0) == tf - t0) /\
  0 <= FixedWingVehicle.Kf Example.toy_acft /\
  Forall (positive_step toy_init) cs /\
  Forall (Qle 0) (self.Thrust (toy_run toy_init cs)) /\
  nonincreasing (self.mass (toy_run toy_init cs)).
Proof.
  intros cs.
  assert (HK : 0 <= FixedWingVehicle.Kf Example.toy_acft)
    by (apply Qle_bool_iff; reflexivity).
  assert (Hp : Forall (positive_step toy_init) cs).
  { constructor; [exact I|]. constructor; [|constructor].
    apply Qlt_alt. reflexivity. }
  assert (HT : Forall (Qle 0) (self.Thrust (toy_run toy_init cs))).
  { change (toy_run toy_init cs)
      with (toy_step (C130_set toy_init (Num 2) (Num 0) (Num 0)) None).
    set (s := C130_set toy_init (Num 2) (Num 0) (Num 0)).
    assert (Hn : numeric_command s) by reflexivity.
    destruct (stepTime_guidance_attributes
                Example.sin Example.cos Example.pi 1 1 Example.Re_bar
                Example.wind_vector Example.one_step s None) as (-> & _).
    rewrite getGuidanceCommands_guidance by exact Hn.
    destruct (guidance_attributes
                Example.sin 1 1 Example.one_step s
                (step_size s (Some (step_size s None)))) as (-> & _).
    apply Forall_app. split.
    - repeat constructor. apply Qle_refl.
    - repeat constructor. apply Qle_bool_iff. vm_compute. reflexivity. }
  split; [exact one_step_span|]. split; [exact HK|]. split; [exact Hp|].
  split; [exact HT|].
  exact (proj1 (mass_nonincreasing
                  Example.sin Example.cos Example.pi 1 1 Example.Re_bar
                  Example.wind_vector Example.one_step one_step_span
                  Example.toy_acft Example.toy_TF Example.toy_cond
                  (Some 0) (Some 1) cs HK Hp HT)).
Defined.

(** C8, counterexample: the first step after construction, with no command
    ever set, appends a thrust and prints no diagnostic: the guidance laws
    were evaluated, not skipped. *)
Lemma guidance_runs_before_any_command :
  let s1 := C130_step C130_init None in
  List.length (self.Thrust C130_init) = 1%nat /\
  List.length (self.Thrust s1) = 2%nat /\
  ~ In NoUserTrajectory (self.stdout s1) /\
  C130_guidance C130_init None <> print C130_init NoUserTrajectory.
Proof.
  intros s1.
  assert (Hn : numeric_command C130_init) by reflexivity.
  destruct (stepTime_guidance_attributes
              Example.sin Example.cos Example.pi Example.const_gravity
              Example.const_density Example.Re_bar Example.wind_vector
              Example.one_step C130_init None)
    as (HT & _ & _ & _ & _ & _ & _ & _ & _ & _ & _ & _ & Ho & _).
  fold s1 in HT, Ho.
  rewrite getGuidanceCommands_guidance in HT, Ho by exact Hn.
  destruct (guidance_attributes
              Example.sin Example.const_gravity Example.const_density
              Example.one_step C130_init
              (step_size C130_init (Some (step_size C130_init None))))
    as (GT & _).
  split; [reflexivity|].
  split; [rewrite HT, GT; apply length_append|].
  split.
  - rewrite Ho. intros H. apply guidance_stdout in H. exact H.
  - rewrite (getGuidanceCommands_guidance _ _ _ _ C130_init None Hn).
    intros E.
    apply (f_equal (fun x => List.length (self.Thrust x))) in E.
    change (step_size C130_init None)
      with (step_size C130_init (Some (step_size C130_init None))) in E.
    rewrite GT, length_append in E. discriminate E.
Qed.

(** * Instances of the further properties

    At the small aircraft of [Example], with unit constants of gravity and
    density and a solver that accepts one step over each interval. *)

(** X6, witness: the small aircraft, commanded to hold its initial state. *)
Lemma holding_the_current_state_witness :
  let s := toy_init in
  0 <= FixedWingVehicle.mu_max (self.Vehicle s) /\
  py_last
    (self.mu
       (toy_step (C130_set s (Num (py_last (self.v_BN_W s)))
                           (Num (py_last (self.gamma s)))
                           (Num (py_last (self.sigma s)))) None))
  == 0.
Proof.
  intros s.
  assert (Hm : 0 <= FixedWingVehicle.mu_max (self.Vehicle s))
    by (apply Qle_bool_iff; reflexivity).
  split; [exact Hm|].
  pose proof (holding_the_current_state
                Example.sin Example.cos Example.pi 1 1 Example.Re_bar
                Example.wind_vector Example.one_step s None Hm) as H.
  cbv zeta in H.
  exact (proj2 (proj2 (proj2 (proj2 (proj2 (proj2 H)))))).
Defined.

(** X7, witness: the first step of the small aircraft. *)
Lemma first_step_is_unpowered_witness :
  0 <= FixedWingVehicle.T_max Example.toy_acft /\
  0 <= FixedWingVehicle.K_Lmax Example.toy_acft /\
  0 <= FixedWingVehicle.mu_max Example.toy_acft /\
  py_last (self.Thrust (toy_step toy_init None)) == 0 /\
  py_last (self.Lift (toy_step toy_init None)) == 0.
Proof.
  assert (HT : 0 <= FixedWingVehicle.T_max Example.toy_acft)
    by (apply Qle_bool_iff; reflexivity).
  assert (HL : 0 <= FixedWingVehicle.K_Lmax Example.toy_acft)
    by (apply Qle_bool_iff; reflexivity).
  assert (Hm : 0 <= FixedWingVehicle.mu_max Example.toy_acft)
    by (apply Qle_bool_iff; reflexivity).
  split; [exact HT|]. split; [exact HL|]. split; [exact Hm|].
  pose proof (first_step_is_unpowered
                Example.sin Example.cos Example.pi 1 1 Example.Re_bar
                Example.wind_vector Example.one_step Example.toy_acft
                Example.toy_TF Example.toy_cond (Some 0) (Some 1) None
                HT HL Hm) as H.
  cbv zeta in H.
  destruct H as (_ & _ & _ & _ & H5 & H6 & _).
  split; [exact H5 | exact H6].
Defined.

(** X8, witness: the small aircraft, commanded to twice its speed. *)
Lemma lift_command_saturation_witness :
  let s := C130_set toy_init (Num 2) (Num 0) (Num 0) in
  userCommand.v_BN_W (self.command s) = Num 2 /\
  userCommand.gamma (self.command s) = Num 0 /\
  self.Lc (_liftGuidanceSystem Example.sin 1 Example.one_step s 1)
  <= py_last (self.v_BN_W s) ^ 2
     * FixedWingVehicle.K_Lmax (self.Vehicle s).
Proof.
  intros s.
  assert (Hv : userCommand.v_BN_W (self.command s) = Num 2) by reflexivity.
  assert (Hg : userCommand.gamma (self.command s) = Num 0) by reflexivity.
  split; [exact Hv|]. split; [exact Hg|].
  pose proof (lift_command_saturation
                Example.sin 1 Example.one_step s 1 2 0 Hv Hg) as H.
  cbv zeta in H.
  exact (proj1 (proj2 (proj2 (proj2 (proj2 H))))).
Defined.

(** X9, witness: the small aircraft, commanded to climb. *)
Lemma commanded_altitude_witness :
  let cs := [SetCommandTrajectory (Num 2) (Num (1 # 2)) (Num 0)] in
  let s := toy_run toy_init cs in
  userCommand.v_BN_W (self.command s) = Num 2 /\
  userCommand.gamma (self.command s) = Num (1 # 2) /\
  userCommand.sigma (self.command s) = Num 0 /\
  py_last (self.h_c (toy_step s None))
  = Example.sin (1 # 2) * 2 * py_last (self.time (toy_step s None))
    + InitialConditions.h Example.toy_cond.
Proof.
  intros cs s.
  assert (Hv : userCommand.v_BN_W (self.command s) = Num 2) by reflexivity.
  assert (Hg : userCommand.gamma (self.command s) = Num (1 # 2))
    by reflexivity.
  assert (Hs : userCommand.sigma (self.command s) = Num 0) by reflexivity.
  split; [exact Hv|]. split; [exact Hg|]. split; [exact Hs|].
  pose proof (commanded_altitude
                Example.sin Example.cos Example.pi 1 1 Example.Re_bar
                Example.wind_vector Example.one_step Example.toy_acft
                Example.toy_TF Example.toy_cond (Some 0) (Some 1) cs None
                2 (1 # 2) 0 Hv Hg Hs) as H.
  cbv zeta in H.
  exact (proj1 H).
Defined.

(** X13, witness: a run of the small aircraft with a step skipped by the
    guard. *)
Lemma history_bounds_witness :
  let cs := [StepTime None;
             SetCommandTrajectory np_nan (Num 0) (Num 0);
             StepTime None;
             SetCommandTrajectory (Num 2) (Num 0) (Num 0);
             StepTime (Some (1 # 2))] in
  Forall plain_call cs /\
  0 <= FixedWingVehicle.T_max Example.toy_acft /\
  0 <= FixedWingVehicle.mu_max Example.toy_acft /\
  Forall (fun T => T <= FixedWingVehicle.T_max Example.toy_acft)
         (self.Thrust (toy_run toy_init cs)) /\
  List.length (self.Thrust (toy_run toy_init cs)) = 3%nat.
Proof.
  intros cs.
  assert (Hcs : Forall plain_call cs) by (repeat constructor).
  assert (HT : 0 <= FixedWingVehicle.T_max Example.toy_acft)
    by (apply Qle_bool_iff; reflexivity).
  assert (Hm : 0 <= FixedWingVehicle.mu_max Example.toy_acft)
    by (apply Qle_bool_iff; reflexivity).
  split; [exact Hcs|]. split; [exact HT|]. split; [exact Hm|].
  pose proof (history_bounds
                Example.sin Example.cos Example.pi 1 1 Example.Re_bar
                Example.wind_vector Example.one_step Example.toy_acft
                Example.toy_TF Example.toy_cond (Some 0) (Some 1) cs
                Hcs HT Hm) as H.
  cbv zeta in H.
  split; [exact (proj1 H) | exact (proj1 (proj2 (proj2 H)))].
Defined.

(** X2, witness: the same run; the second of its three steps is skipped by
    the guard. *)
Lemma history_groups_witness :
  let cs := [StepTime None;
             SetCommandTrajectory np_nan (Num 0) (Num 0);
             StepTime None;
             SetCommandTrajectory (Num 2) (Num 0) (Num 0);
             StepTime (Some (1 # 2))] in
  Forall plain_call cs /\
  motion_lengths (toy_run toy_init cs) 4 /\
  guidance_lengths (toy_run toy_init cs) 3.
Proof.
  intros cs.
  assert (Hcs : Forall plain_call cs) by (repeat constructor).
  split; [exact Hcs|].
  pose proof (history_groups
                Example.sin Example.cos Example.pi 1 1 Example.Re_bar
                Example.wind_vector Example.one_step Example.toy_acft
                Example.toy_TF Example.toy_cond (Some 0) (Some 1) cs Hcs)
    as H.
  cbv zeta in H.
  split; [exact (proj1 H) | exact (proj1 (proj2 H))].
Defined.
